(** * Universal LUT generator: colour analysis and lattice synthesis

    A shallow embedding of the analysis and synthesis code of the
    [UniversalLUTGenerator] component (detectBlackAndWhite, rgbToGrayscale,
    rgbToLab, analyzeImageAdvanced, generateAdvancedLUT) together with the
    properties its specification states about it.

    Numbers.  A JavaScript number is modelled as an exact real number or
    [NaN]: rounding to binary64 is abstracted away, the domain errors of the
    arithmetic are kept.  The program cannot produce an infinity: all its
    literals and inputs are bounded, every divisor is a non-zero literal, a
    guarded positive count, or a value that can only be zero together with
    its dividend (0/0 is NaN), and every exponent handed to [Math.pow] is
    positive for the intensity levels the slider offers.  The model
    therefore has no infinities, and the two operations that would yield
    one in JavaScript (x/0 for x <> 0, and a zero base raised to a negative
    exponent) yield [NaN]. *)

From Stdlib Require Import Reals Lra Lia ZArith String Ascii Bool Arith List.
Import ListNotations.

Open Scope R_scope.

(** ** JavaScript numbers *)

Module JS.

Inductive number : Type :=
| NaN : number
| Num : R -> number.

Definition add (a b : number) : number :=
  match a, b with
  | Num x, Num y => Num (x + y)
  | _, _ => NaN
  end.

Definition sub (a b : number) : number :=
  match a, b with
  | Num x, Num y => Num (x - y)
  | _, _ => NaN
  end.

Definition mul (a b : number) : number :=
  match a, b with
  | Num x, Num y => Num (x * y)
  | _, _ => NaN
  end.

Definition div (a b : number) : number :=
  match a, b with
  | Num x, Num y => if Req_dec_T y 0 then NaN else Num (x / y)
  | _, _ => NaN
  end.

(** The relational operators answer [false] as soon as an operand is NaN. *)
Definition ltb (a b : number) : bool :=
  match a, b with
  | Num x, Num y => if Rlt_dec x y then true else false
  | _, _ => false
  end.

Definition gtb (a b : number) : bool := ltb b a.

(** [a !== b]: NaN differs from everything, itself included. *)
Definition strict_neq (a b : number) : bool :=
  match a, b with
  | Num x, Num y => if Req_dec_T x y then false else true
  | _, _ => true
  end.

(** [Math.max], [Math.min] and [Math.abs] return NaN when an argument is
    NaN.  The calls with three arguments are nested binary calls. *)
Definition Math_max (a b : number) : number :=
  match a, b with
  | Num x, Num y => Num (Rmax x y)
  | _, _ => NaN
  end.

Definition Math_min (a b : number) : number :=
  match a, b with
  | Num x, Num y => Num (Rmin x y)
  | _, _ => NaN
  end.

Definition Math_abs (a : number) : number :=
  match a with
  | Num x => Num (Rabs x)
  | NaN => NaN
  end.

(** [Math.pow base exponent] (Number::exponentiate): a zero exponent gives 1
    whatever the base, a negative base with an exponent that is not an
    integer gives NaN. *)
Definition Math_pow (base exponent : number) : number :=
  match exponent with
  | NaN => NaN
  | Num e =>
      if Req_dec_T e 0 then Num 1
      else
        match base with
        | NaN => NaN
        | Num x =>
            if Rlt_dec 0 x then Num (Rpower x e)
            else if Req_dec_T x 0 then (if Rlt_dec 0 e then Num 0 else NaN)
            else if Req_dec_T (frac_part e) 0
                 then Num (powerRZ x (Int_part e))
                 else NaN
        end
  end.

Definition ofNat (n : nat) : number := Num (INR n).
Definition ofZ (z : Z) : number := Num (IZR z).

End JS.

Import JS.
Coercion Num : R >-> number.

Declare Scope js_scope.
Delimit Scope js_scope with js.
Bind Scope js_scope with number.
Infix "+" := add : js_scope.
Infix "-" := sub : js_scope.
Infix "*" := mul : js_scope.
Infix "/" := div : js_scope.
Infix "<?" := ltb (at level 70, no associativity) : js_scope.
Infix ">?" := gtb (at level 70, no associativity) : js_scope.
Infix "!==" := strict_neq (at level 70, no associativity) : js_scope.

(** ** Colour conversions *)

Record RGB : Type := mkRGB { rgb_r : number; rgb_g : number; rgb_b : number }.

Record LAB : Type := mkLAB { lab_L : number; lab_a : number; lab_b : number }.

(** The companding step of [rgbToLab]:
    [t > 0.008856 ? Math.pow(t, 1 / 3) : 7.787 * t + 16 / 116]. *)
Definition labCompand (t : number) : number :=
  (if t >? 0.008856 then Math_pow t (1 / 3) else 7.787 * t + 16 / 116)%js.

Definition rgbToLab (r g b : number) : LAB :=
  (let x := r * 0.4124564 + g * 0.3575761 + b * 0.1804375 in
   let y := r * 0.2126729 + g * 0.7151522 + b * 0.072175 in
   let z := r * 0.0193339 + g * 0.119192 + b * 0.9503041 in
   let x := x / 0.95047 in
   let y := y / 1.0 in
   let z := z / 1.08883 in
   let x := labCompand x in
   let y := labCompand y in
   let z := labCompand z in
   mkLAB (116 * y - 16) (500 * (x - y)) (200 * (y - z)))%js.

(** [rgbToGrayscale]; the method is the string held by the select box, any
    other string takes the [default] arm.  The weights are the decimal
    numbers of the source, which add up to 1; as binary64 values they add
    up to a little less, and the code gives white the luminance
    0.9999999999999999. *)
Definition rgbToGrayscale (r g b : number) (method : string) : number :=
  (if String.eqb method "luminance" then 0.299 * r + 0.587 * g + 0.114 * b
   else if String.eqb method "average" then (r + g + b) / 3
   else if String.eqb method "red" then r
   else if String.eqb method "green" then g
   else if String.eqb method "blue" then b
   else if String.eqb method "max" then Math_max (Math_max r g) b
   else if String.eqb method "min" then Math_min (Math_min r g) b
   else 0.299 * r + 0.587 * g + 0.114 * b)%js.

(** ** Loops *)

(** [for (let i = start; i < len; i += step) s = body(i, s)].  The counter
    grows by [step] at each turn, so [len] turns of fuel are enough as
    soon as [step] is positive ([strideFrom_enough_fuel] below). *)
Fixpoint strideFrom {S : Type} (fuel i step len : nat)
         (body : nat -> S -> S) (s : S) : S :=
  match fuel with
  | O => s
  | Datatypes.S fuel' =>
      if Nat.ltb i len
      then strideFrom fuel' (i + step) step len body (body i s)
      else s
  end.

Definition forStride {S : Type} (len step : nat)
           (body : nat -> S -> S) (s : S) : S :=
  strideFrom len 0 step len body s.

(** [for (let k = 0; k < n; k++) s = body(k, s)]. *)
Definition forLoop {S : Type} (n : nat) (body : nat -> S -> S) (s : S) : S :=
  forStride n 1 body s.

(** ** Monochrome detection *)

(** [ImageData.data]: the bytes of the RGBA buffer.  Reading past the end
    gives [undefined], which the arithmetic that follows turns into NaN. *)
Definition ImageData : Type := list Z.

Definition byteAt (data : ImageData) (i : nat) : number :=
  match nth_error data i with
  | Some v => ofZ v
  | None => NaN
  end.

(** The test of the loop body of [detectBlackAndWhite] at byte offset [i]. *)
Definition colourfulAt (data : ImageData) (i : nat) : bool :=
  (let r := byteAt data i in
   let g := byteAt data (i + 1) in
   let b := byteAt data (i + 2) in
   Math_max (Math_max (Math_abs (r - g)) (Math_abs (g - b)))
            (Math_abs (r - b)) >? 10)%js.

Definition countColourful (data : ImageData) : nat :=
  forStride (length data) 40
            (fun i colourfulPixels =>
               if colourfulAt data i then Datatypes.S colourfulPixels
               else colourfulPixels)
            O.

Definition detectBlackAndWhite (data : ImageData) : bool :=
  (let colourfulPixels := countColourful data in
   ofNat colourfulPixels / (ofNat (length data) / 40) <? 0.05)%js.

(** ** Pixel sampling (the body of [img.onload] in [analyzeImageAdvanced]) *)

(** The five arrays kept for a zone while the buffer is scanned. *)
Record ZoneSamples : Type := mkZoneSamples {
  zs_r : list number;
  zs_g : list number;
  zs_b : list number;
  zs_luminance : list number;
  zs_lab : list LAB
}.

Definition emptyZone : ZoneSamples := mkZoneSamples [] [] [] [] [].

Definition pushSample (zone : ZoneSamples) (r g b luminance : number)
           (lab : LAB) : ZoneSamples :=
  mkZoneSamples (zs_r zone ++ [r]) (zs_g zone ++ [g]) (zs_b zone ++ [b])
                (zs_luminance zone ++ [luminance]) (zs_lab zone ++ [lab]).

Record Samples : Type := mkSamples {
  sm_shadows : ZoneSamples;
  sm_midtones : ZoneSamples;
  sm_highlights : ZoneSamples
}.

Definition sampleRate : nat := 16.

Definition sampleAt (data : ImageData) (i : nat) (analysis : Samples)
  : Samples :=
  (let r := byteAt data i / 255 in
   let g := byteAt data (i + 1) / 255 in
   let b := byteAt data (i + 2) / 255 in
   let luminance := rgbToGrayscale r g b "luminance" in
   let lab := rgbToLab r g b in
   if luminance <? 0.25 then
     mkSamples (pushSample (sm_shadows analysis) r g b luminance lab)
               (sm_midtones analysis) (sm_highlights analysis)
   else if luminance <? 0.75 then
     mkSamples (sm_shadows analysis)
               (pushSample (sm_midtones analysis) r g b luminance lab)
               (sm_highlights analysis)
   else
     mkSamples (sm_shadows analysis) (sm_midtones analysis)
               (pushSample (sm_highlights analysis) r g b luminance lab))%js.

Definition samplePixels (data : ImageData) : Samples :=
  forStride (length data) (4 * sampleRate) (sampleAt data)
            (mkSamples emptyZone emptyZone emptyZone).

(** [xs.reduce((a, b) => a + f(b), 0)]. *)
Definition reduceSum {A : Type} (f : A -> number) (xs : list A) : number :=
  fold_left (fun a b => (a + f b)%js) xs (Num 0).

Record Luminance : Type := mkLuminance { avg : number }.

Record ZoneStats : Type := mkZoneStats {
  count : nat;
  rgb : RGB;
  luminance : Luminance;
  lab : LAB
}.

(** [processZone]: [null] for a zone that received no sample. *)
Definition processZone (zone : ZoneSamples) : option ZoneStats :=
  if Nat.eqb (length (zs_r zone)) 0 then None
  else
    Some (mkZoneStats
      (length (zs_r zone))
      (mkRGB
         (reduceSum (fun v => v) (zs_r zone) / ofNat (length (zs_r zone)))
         (reduceSum (fun v => v) (zs_g zone) / ofNat (length (zs_g zone)))
         (reduceSum (fun v => v) (zs_b zone) / ofNat (length (zs_b zone))))
      (mkLuminance
         (reduceSum (fun v => v) (zs_luminance zone)
          / ofNat (length (zs_luminance zone))))
      (mkLAB
         (reduceSum lab_L (zs_lab zone) / ofNat (length (zs_lab zone)))
         (reduceSum lab_a (zs_lab zone) / ofNat (length (zs_lab zone)))
         (reduceSum lab_b (zs_lab zone) / ofNat (length (zs_lab zone)))))%js.

Record ImageAnalysis : Type := mkImageAnalysis {
  isBlackAndWhite : bool;
  shadows : option ZoneStats;
  midtones : option ZoneStats;
  highlights : option ZoneStats
}.

(** What [img.onload] resolves with, given the decoded buffer. *)
Definition analyzePixels (data : ImageData) : ImageAnalysis :=
  let isBW := detectBlackAndWhite data in
  let analysis := samplePixels data in
  mkImageAnalysis isBW
    (processZone (sm_shadows analysis))
    (processZone (sm_midtones analysis))
    (processZone (sm_highlights analysis)).

(** How the loading of one reference image ends.  Decoding, down-scaling
    and the 30 s timer belong to the browser; the model takes their outcome
    as given. *)
Inductive LoadOutcome : Type :=
| Loaded (data : ImageData)   (* onload fired, getImageData gave a buffer *)
| NoImageData                 (* onload fired, no 2d context *)
| OnloadThrew                 (* an exception inside onload *)
| LoadFailed                  (* onerror fired *)
| TimedOut.                   (* the timer fired first *)

Inductive AnalysisError : Type :=
| ErrTimeout (imageNumber : nat)
| ErrNoImageData
| ErrThrown
| ErrLoad (imageNumber : nat).

(** [analyzeImageAdvanced]: the promise resolves with an analysis or
    rejects with an error. *)
Definition analyzeImageAdvanced (outcome : LoadOutcome) (imageIndex : nat)
  : ImageAnalysis + AnalysisError :=
  match outcome with
  | Loaded data => inl (analyzePixels data)
  | NoImageData => inr ErrNoImageData
  | OnloadThrew => inr ErrThrown
  | LoadFailed => inr (ErrLoad (imageIndex + 1))
  | TimedOut => inr (ErrTimeout (imageIndex + 1))
  end.

(** ** Aggregation of the per-image analyses *)

Inductive Zone : Type := Shadows | Midtones | Highlights.

(** [['shadows', 'midtones', 'highlights']] *)
Definition zones : list Zone := [Shadows; Midtones; Highlights].

Record CombinedZone : Type := mkCombinedZone {
  cz_rgb : RGB;
  cz_luminance : Luminance;
  cz_lab : LAB;
  cz_weight : number
}.

Record GlobalStats : Type := mkGlobalStats {
  contrast : number;
  saturation : number;
  colorTemperature : number;
  tint : number
}.

Record CombinedAnalysis : Type := mkCombinedAnalysis {
  ca_isBlackAndWhite : bool;
  ca_shadows : CombinedZone;
  ca_midtones : CombinedZone;
  ca_highlights : CombinedZone;
  globalStats : GlobalStats
}.

(** [analysis[zone]] *)
Definition zoneStats (analysis : ImageAnalysis) (zone : Zone)
  : option ZoneStats :=
  match zone with
  | Shadows => shadows analysis
  | Midtones => midtones analysis
  | Highlights => highlights analysis
  end.

(** [combinedAnalysis[zone]], read and written. *)
Definition combinedZone (ca : CombinedAnalysis) (zone : Zone) : CombinedZone :=
  match zone with
  | Shadows => ca_shadows ca
  | Midtones => ca_midtones ca
  | Highlights => ca_highlights ca
  end.

Definition setCombinedZone (ca : CombinedAnalysis) (zone : Zone)
           (cz : CombinedZone) : CombinedAnalysis :=
  match zone with
  | Shadows =>
      mkCombinedAnalysis (ca_isBlackAndWhite ca) cz (ca_midtones ca)
                         (ca_highlights ca) (globalStats ca)
  | Midtones =>
      mkCombinedAnalysis (ca_isBlackAndWhite ca) (ca_shadows ca) cz
                         (ca_highlights ca) (globalStats ca)
  | Highlights =>
      mkCombinedAnalysis (ca_isBlackAndWhite ca) (ca_shadows ca)
                         (ca_midtones ca) cz (globalStats ca)
  end.

Definition zeroZone : CombinedZone :=
  mkCombinedZone (mkRGB 0 0 0) (mkLuminance 0) (mkLAB 0 0 0) 0.

Definition initialCombined (hasBlackAndWhite : bool) : CombinedAnalysis :=
  mkCombinedAnalysis hasBlackAndWhite zeroZone zeroZone zeroZone
                     (mkGlobalStats 0.5 0.5 0 0).

(** The body of the inner [forEach] of the accumulation:
    [if (analysis[zone] && analysis[zone].count > 0) { ... += ... * weight }]. *)
Definition addZone (ca : CombinedAnalysis) (analysis : ImageAnalysis)
           (zone : Zone) : CombinedAnalysis :=
  match zoneStats analysis zone with
  | Some zs =>
      if Nat.ltb 0 (count zs) then
        (let weight := ofNat (count zs) in
         let cz := combinedZone ca zone in
         setCombinedZone ca zone
           (mkCombinedZone
              (mkRGB (rgb_r (cz_rgb cz) + rgb_r (rgb zs) * weight)
                     (rgb_g (cz_rgb cz) + rgb_g (rgb zs) * weight)
                     (rgb_b (cz_rgb cz) + rgb_b (rgb zs) * weight))
              (mkLuminance
                 (avg (cz_luminance cz) + avg (luminance zs) * weight))
              (mkLAB (lab_L (cz_lab cz) + lab_L (lab zs) * weight)
                     (lab_a (cz_lab cz) + lab_a (lab zs) * weight)
                     (lab_b (cz_lab cz) + lab_b (lab zs) * weight))
              (cz_weight cz + weight)))%js
      else ca
  | None => ca
  end.

Definition accumulate (analyses : list ImageAnalysis) (ca : CombinedAnalysis)
  : CombinedAnalysis :=
  fold_left
    (fun ca analysis =>
       fold_left (fun ca zone => addZone ca analysis zone) zones ca)
    analyses ca.

(** The body of the normalising [forEach]:
    [if (combinedAnalysis[zone].weight > 0) { ... /= weight }]. *)
Definition normalizeZone (ca : CombinedAnalysis) (zone : Zone)
  : CombinedAnalysis :=
  (let cz := combinedZone ca zone in
   if cz_weight cz >? 0 then
     setCombinedZone ca zone
       (mkCombinedZone
          (mkRGB (rgb_r (cz_rgb cz) / cz_weight cz)
                 (rgb_g (cz_rgb cz) / cz_weight cz)
                 (rgb_b (cz_rgb cz) / cz_weight cz))
          (mkLuminance (avg (cz_luminance cz) / cz_weight cz))
          (mkLAB (lab_L (cz_lab cz) / cz_weight cz)
                 (lab_a (cz_lab cz) / cz_weight cz)
                 (lab_b (cz_lab cz) / cz_weight cz))
          (cz_weight cz))
   else ca)%js.

(** [hasBlackAndWhite = analyses.some((a) => a.isBlackAndWhite)], then the
    weighted sums, then the division by the zone weights. *)
Definition combineAnalyses (analyses : list ImageAnalysis) : CombinedAnalysis :=
  let hasBlackAndWhite := existsb isBlackAndWhite analyses in
  fold_left normalizeZone zones
            (accumulate analyses (initialCombined hasBlackAndWhite)).

(** ** Transform solving *)

Record CameraProfile : Type := mkCameraProfile {
  shadows_lift : RGB;
  midtones_gamma : RGB;
  highlights_gain : RGB;
  colorMatrix : list (list number)
}.

Definition universalCameraProfile : CameraProfile :=
  mkCameraProfile
    (mkRGB 0.015 0.012 0.008)
    (mkRGB 0.5 0.5 0.5)
    (mkRGB 0.95 0.95 0.95)
    [ [Num 1.0; Num 0.0; Num 0.0];
      [Num 0.0; Num 1.0; Num 0.0];
      [Num 0.0; Num 0.0; Num 1.0] ].

(** [m[i][j]]; a missing entry is [undefined], NaN in the arithmetic. *)
Definition entry (m : list (list number)) (i j : nat) : number :=
  nth j (nth i m []) NaN.

Definition calculateTransform (intensityLevel : number)
           (neutralBase targetRgb : RGB) : RGB :=
  (let baseIntensity := 0.5 + (intensityLevel - 1) * 0.25 in
   let finalIntensity := baseIntensity in
   mkRGB
     (Math_min 3.0
        (Math_max 0.1
           ((rgb_r targetRgb / rgb_r neutralBase - 1) * finalIntensity + 1)))
     (Math_min 3.0
        (Math_max 0.1
           ((rgb_g targetRgb / rgb_g neutralBase - 1) * finalIntensity + 1)))
     (Math_min 3.0
        (Math_max 0.1
           ((rgb_b targetRgb / rgb_b neutralBase - 1) * finalIntensity + 1))))%js.

Record Transforms : Type := mkTransforms {
  tr_shadows : RGB;
  tr_midtones : RGB;
  tr_highlights : RGB
}.

Definition calculateTransforms (intensityLevel : number)
           (combinedAnalysis : CombinedAnalysis) : Transforms :=
  mkTransforms
    (calculateTransform intensityLevel
       (shadows_lift universalCameraProfile)
       (cz_rgb (ca_shadows combinedAnalysis)))
    (calculateTransform intensityLevel
       (midtones_gamma universalCameraProfile)
       (cz_rgb (ca_midtones combinedAnalysis)))
    (calculateTransform intensityLevel
       (highlights_gain universalCameraProfile)
       (cz_rgb (ca_highlights combinedAnalysis))).

(** ** Lattice synthesis *)

(** The values [generateAdvancedLUT] fixes before it enters the loops. *)
Record LutContext : Type := mkLutContext {
  combinedAnalysis : CombinedAnalysis;
  transforms : Transforms;
  contrastBoost : number;
  saturationBoost : number;
  temperatureShift : number;
  tintShift : number;
  intensityLevel : number;
  bwConversionMethod : string
}.

Definition lutContext (level : Z) (method : string)
           (analyses : list ImageAnalysis) : LutContext :=
  (let intensityLevel := ofZ level in
   let combinedAnalysis := combineAnalyses analyses in
   mkLutContext
     combinedAnalysis
     (calculateTransforms intensityLevel combinedAnalysis)
     (1 + (contrast (globalStats combinedAnalysis) - 0.3)
          * (intensityLevel * 0.3))
     (1 + (saturation (globalStats combinedAnalysis) - 0.4)
          * (intensityLevel * 0.4))
     (colorTemperature (globalStats combinedAnalysis)
      * (intensityLevel * 0.002))
     (tint (globalStats combinedAnalysis) * (intensityLevel * 0.002))
     intensityLevel
     method)%js.

(** The zone weights of a lattice point: two ramps on the grey value (black
    & white branch) or on the luminance (colour branch), and what they
    leave to the midtones. *)
Definition bwShadowWeight (grayscale : number) : number :=
  (Math_max 0 (Math_min 1 ((0.3 - grayscale) / 0.3)))%js.

Definition bwHighlightWeight (grayscale : number) : number :=
  (Math_max 0 (Math_min 1 ((grayscale - 0.7) / 0.3)))%js.

Definition colourShadowWeight (luminance : number) : number :=
  (Math_max 0 (Math_min 1 ((0.35 - luminance) / 0.35)))%js.

Definition colourHighlightWeight (luminance : number) : number :=
  (Math_max 0 (Math_min 1 ((luminance - 0.65) / 0.35)))%js.

Definition midtoneWeightOf (shadowWeight highlightWeight : number) : number :=
  (Math_max 0 (1 - shadowWeight - highlightWeight))%js.

(** The truth value of an object reference, as in
    [combinedAnalysis.shadows.luminance] used as a condition. *)
Definition objectIsTruthy {A : Type} (object : A) : bool := true.

(** One of the three blocks of the black & white branch:
    [if (weight > 0 && zone.luminance) { ... }]. *)
Definition bwBlend (weight : number) (zone : CombinedZone)
           (exponent intensityFactor mappedLuminance : number) : number :=
  (if (weight >? 0) && objectIsTruthy (cz_luminance zone) then
     let target := avg (cz_luminance zone) in
     let factor := Math_pow weight exponent in
     mappedLuminance * (1 - factor * intensityFactor)
     + target * factor * intensityFactor
   else mappedLuminance)%js.

(** The black & white branch, up to [outputR = outputG = outputB = ...]. *)
Definition bwBranch (ctx : LutContext) (inputR inputG inputB : number) : RGB :=
  (let grayscale :=
     rgbToGrayscale inputR inputG inputB (bwConversionMethod ctx) in
   let mappedLuminance := grayscale in
   let shadowWeight := bwShadowWeight grayscale in
   let highlightWeight := bwHighlightWeight grayscale in
   let midtoneWeight := midtoneWeightOf shadowWeight highlightWeight in
   let intensityFactor := intensityLevel ctx * 0.2 in
   let mappedLuminance :=
     bwBlend shadowWeight (ca_shadows (combinedAnalysis ctx)) 0.8
             intensityFactor mappedLuminance in
   let mappedLuminance :=
     bwBlend midtoneWeight (ca_midtones (combinedAnalysis ctx)) 0.6
             intensityFactor mappedLuminance in
   let mappedLuminance :=
     bwBlend highlightWeight (ca_highlights (combinedAnalysis ctx)) 0.8
             intensityFactor mappedLuminance in
   let mappedLuminance := Math_max 0 (Math_min 1 mappedLuminance) in
   mkRGB mappedLuminance mappedLuminance mappedLuminance)%js.

(** The three zone blocks of the colour branch; [output] is the running
    triplet [outputR, outputG, outputB]. *)
Definition shadowStep (ctx : LutContext) (shadowWeight : number)
           (input output : RGB) : RGB :=
  (if shadowWeight >? 0 then
     let factor := Math_pow shadowWeight 0.7 * (intensityLevel ctx * 0.15) in
     let shadowR :=
       rgb_r input * rgb_r (tr_shadows (transforms ctx)) * 0.8
       + rgb_r (cz_rgb (ca_shadows (combinedAnalysis ctx))) * 0.2 in
     let shadowG :=
       rgb_g input * rgb_g (tr_shadows (transforms ctx)) * 0.8
       + rgb_g (cz_rgb (ca_shadows (combinedAnalysis ctx))) * 0.2 in
     let shadowB :=
       rgb_b input * rgb_b (tr_shadows (transforms ctx)) * 0.8
       + rgb_b (cz_rgb (ca_shadows (combinedAnalysis ctx))) * 0.2 in
     mkRGB (rgb_r output * (1 - factor) + shadowR * factor)
           (rgb_g output * (1 - factor) + shadowG * factor)
           (rgb_b output * (1 - factor) + shadowB * factor)
   else output)%js.

Definition midtoneStep (ctx : LutContext) (midtoneWeight : number)
           (input output : RGB) : RGB :=
  (if midtoneWeight >? 0 then
     let factor := Math_pow midtoneWeight 0.5 * (intensityLevel ctx * 0.15) in
     mkRGB (rgb_r output * (1 - factor)
            + rgb_r input * rgb_r (tr_midtones (transforms ctx)) * factor)
           (rgb_g output * (1 - factor)
            + rgb_g input * rgb_g (tr_midtones (transforms ctx)) * factor)
           (rgb_b output * (1 - factor)
            + rgb_b input * rgb_b (tr_midtones (transforms ctx)) * factor)
   else output)%js.

Definition highlightStep (ctx : LutContext) (highlightWeight : number)
           (input output : RGB) : RGB :=
  (if highlightWeight >? 0 then
     let factor :=
       Math_pow highlightWeight 0.7 * (intensityLevel ctx * 0.15) in
     let highlightR :=
       rgb_r input * rgb_r (tr_highlights (transforms ctx)) * 0.9
       + rgb_r (cz_rgb (ca_highlights (combinedAnalysis ctx))) * 0.1 in
     let highlightG :=
       rgb_g input * rgb_g (tr_highlights (transforms ctx)) * 0.9
       + rgb_g (cz_rgb (ca_highlights (combinedAnalysis ctx))) * 0.1 in
     let highlightB :=
       rgb_b input * rgb_b (tr_highlights (transforms ctx)) * 0.9
       + rgb_b (cz_rgb (ca_highlights (combinedAnalysis ctx))) * 0.1 in
     mkRGB (rgb_r output * (1 - factor) + highlightR * factor)
           (rgb_g output * (1 - factor) + highlightG * factor)
           (rgb_b output * (1 - factor) + highlightB * factor)
   else output)%js.

(** "Apply colour matrix". *)
Definition applyColourMatrix (output : RGB) : RGB :=
  (let m := colorMatrix universalCameraProfile in
   mkRGB (rgb_r output * entry m 0 0 + rgb_g output * entry m 0 1
          + rgb_b output * entry m 0 2)
         (rgb_r output * entry m 1 0 + rgb_g output * entry m 1 1
          + rgb_b output * entry m 1 2)
         (rgb_r output * entry m 2 0 + rgb_g output * entry m 2 1
          + rgb_b output * entry m 2 2))%js.

(** "Global adjustments":
    [outputR += temperatureShift; outputB -= temperatureShift;
     outputG += tintShift]. *)
Definition globalAdjustments (ctx : LutContext) (output : RGB) : RGB :=
  (mkRGB (rgb_r output + temperatureShift ctx)
         (rgb_g output + tintShift ctx)
         (rgb_b output - temperatureShift ctx))%js.

Definition saturate (ctx : LutContext) (output : RGB) : RGB :=
  (let currentLum :=
     rgbToGrayscale (rgb_r output) (rgb_g output) (rgb_b output)
                    "luminance" in
   mkRGB (currentLum + (rgb_r output - currentLum) * saturationBoost ctx)
         (currentLum + (rgb_g output - currentLum) * saturationBoost ctx)
         (currentLum + (rgb_b output - currentLum) * saturationBoost ctx))%js.

Definition applySCurve (value strength : number) : number :=
  (if value <? 0.5
   then Math_pow (value * 2) strength / 2
   else 1 - Math_pow ((1 - value) * 2) strength / 2)%js.

Definition contrastStep (ctx : LutContext) (output : RGB) : RGB :=
  (if contrastBoost ctx !== 1 then
     mkRGB (applySCurve (rgb_r output) (contrastBoost ctx))
           (applySCurve (rgb_g output) (contrastBoost ctx))
           (applySCurve (rgb_b output) (contrastBoost ctx))
   else output)%js.

(** The colour branch. *)
Definition colourBranch (ctx : LutContext) (luminance : number)
           (inputR inputG inputB : number) : RGB :=
  (let input := mkRGB inputR inputG inputB in
   let output := input in
   let shadowWeight := colourShadowWeight luminance in
   let highlightWeight := colourHighlightWeight luminance in
   let midtoneWeight := midtoneWeightOf shadowWeight highlightWeight in
   let output := shadowStep ctx shadowWeight input output in
   let output := midtoneStep ctx midtoneWeight input output in
   let output := highlightStep ctx highlightWeight input output in
   let output := applyColourMatrix output in
   let output := globalAdjustments ctx output in
   let output := saturate ctx output in
   contrastStep ctx output)%js.

(** [finalR, finalG, finalB]. *)
Definition finalClamp (output : RGB) : RGB :=
  (mkRGB (Math_max 0 (Math_min 1 (rgb_r output)))
         (Math_max 0 (Math_min 1 (rgb_g output)))
         (Math_max 0 (Math_min 1 (rgb_b output))))%js.

(** The body of the innermost loop, from the normalised input to
    [finalR, finalG, finalB]. *)
Definition lutEntry (ctx : LutContext) (inputR inputG inputB : number) : RGB :=
  (let luminance := rgbToGrayscale inputR inputG inputB "luminance" in
   let output :=
     if ca_isBlackAndWhite (combinedAnalysis ctx)
     then bwBranch ctx inputR inputG inputB
     else colourBranch ctx luminance inputR inputG inputB in
   finalClamp output)%js.

(** ** The generation run *)

Definition newline : string := String (ascii_of_nat 10) EmptyString.
Definition dquote : string := String (ascii_of_nat 34) EmptyString.

Record ReferenceImage : Type := mkReferenceImage {
  ri_name : string;
  ri_url : string
}.

(** The component state the run reads and writes.  [analysisProgress] and
    [debugInfo] only feed the progress display and are left out. *)
Record State : Type := mkState {
  referenceImages : list ReferenceImage;
  isProcessing : bool;
  generatedLUT : option string;
  colorAnalysis : option CombinedAnalysis;
  processingStep : string;
  st_isBlackAndWhite : bool;
  st_bwConversionMethod : string;
  st_intensityLevel : Z;
  advancedMode : bool;
  lutResolution : nat
}.

(** What the browser contributes to one run: how the loading of the i-th
    reference image ends, and the date [new Date()] reports. *)
Record Environment : Type := mkEnvironment {
  load : nat -> LoadOutcome;
  today : string
}.

Inductive Event : Type :=
| ConsoleErrorImage (imageNumber : nat) (error : AnalysisError)
| ConsoleErrorRun
| Alert (message : string).

Definition setProcessing (st : State) (flag : bool) : State :=
  mkState (referenceImages st) flag (generatedLUT st) (colorAnalysis st)
          (processingStep st) (st_isBlackAndWhite st)
          (st_bwConversionMethod st) (st_intensityLevel st) (advancedMode st)
          (lutResolution st).

Definition setProcessingStep (st : State) (step : string) : State :=
  mkState (referenceImages st) (isProcessing st) (generatedLUT st)
          (colorAnalysis st) step (st_isBlackAndWhite st)
          (st_bwConversionMethod st) (st_intensityLevel st) (advancedMode st)
          (lutResolution st).

Definition setIsBlackAndWhite (st : State) (flag : bool) : State :=
  mkState (referenceImages st) (isProcessing st) (generatedLUT st)
          (colorAnalysis st) (processingStep st) flag
          (st_bwConversionMethod st) (st_intensityLevel st) (advancedMode st)
          (lutResolution st).

Definition setColorAnalysis (st : State) (ca : CombinedAnalysis) : State :=
  mkState (referenceImages st) (isProcessing st) (generatedLUT st) (Some ca)
          (processingStep st) (st_isBlackAndWhite st)
          (st_bwConversionMethod st) (st_intensityLevel st) (advancedMode st)
          (lutResolution st).

Definition setGeneratedLUT (st : State) (cube : string) : State :=
  mkState (referenceImages st) (isProcessing st) (Some cube)
          (colorAnalysis st) (processingStep st) (st_isBlackAndWhite st)
          (st_bwConversionMethod st) (st_intensityLevel st) (advancedMode st)
          (lutResolution st).

(** The state of the analysis loop: the analyses pushed so far, the
    component state and the console. *)
Record LoopState : Type := mkLoopState {
  ls_analyses : list ImageAnalysis;
  ls_state : State;
  ls_events : list Event
}.

Section Rendering.

Open Scope string_scope.

(** [Number.prototype.toFixed] and the conversion of a number inside a
    template literal; their digits play no part below. *)
Variable toFixed : number -> nat -> string.
Variable toText : number -> string.

Definition lutLine (final : RGB) : string :=
  toFixed (rgb_r final) 6 ++ " " ++ toFixed (rgb_g final) 6 ++ " "
  ++ toFixed (rgb_b final) 6.

(** The three nested loops over the lattice. *)
Definition lutData (ctx : LutContext) (lutSize : nat) : list string :=
  forLoop lutSize (fun b lutData =>
    forLoop lutSize (fun g lutData =>
      forLoop lutSize (fun r lutData =>
        (let inputR := ofNat r / (ofNat lutSize - 1) in
         let inputG := ofNat g / (ofNat lutSize - 1) in
         let inputB := ofNat b / (ofNat lutSize - 1) in
         (lutData ++ [lutLine (lutEntry ctx inputR inputG inputB)])%list)%js)
      lutData)
    lutData)
  [].

Definition cubeContent (ctx : LutContext) (lutSize : nat) (level : Z)
           (timestamp : string) (lines : list string) : string :=
  let lutType :=
    if ca_isBlackAndWhite (combinedAnalysis ctx) then "B&W" else "Colour" in
  let intensityLabel := toText (ofZ level) ++ "x" in
  "TITLE " ++ dquote ++ "Universal " ++ lutType ++ " LUT - "
  ++ intensityLabel ++ " - " ++ timestamp ++ dquote ++ newline
  ++ "DOMAIN_MIN 0.0 0.0 0.0" ++ newline
  ++ "DOMAIN_MAX 1.0 1.0 1.0" ++ newline
  ++ "LUT_3D_SIZE " ++ toText (ofNat lutSize) ++ newline
  ++ newline
  ++ String.concat newline lines.

(** One turn of the loop over [referenceImages]: the analysis is pushed
    when the promise resolves, the error is logged when it rejects. *)
Definition analyseOne (env : Environment) (total : nat) (i : nat)
           (ls : LoopState) : LoopState :=
  let st :=
    setProcessingStep (ls_state ls)
      ("Analysing image " ++ toText (ofNat (i + 1)) ++ "/"
       ++ toText (ofNat total) ++ "...") in
  match analyzeImageAdvanced (load env i) i with
  | inl analysis =>
      mkLoopState (ls_analyses ls ++ [analysis])%list st (ls_events ls)
  | inr error =>
      mkLoopState (ls_analyses ls) st
                  (ls_events ls ++ [ConsoleErrorImage (i + 1) error])%list
  end.

(** The start of the run and the loop over [referenceImages]. *)
Definition analysisLoop (env : Environment) (st : State) : LoopState :=
  let total := length (referenceImages st) in
  let st1 := setProcessingStep (setProcessing st true)
                               "Starting analysis..." in
  forLoop total (analyseOne env total) (mkLoopState [] st1 []).

(** [generateAdvancedLUT]: the state after the run and what was written to
    the console or alerted. *)
Definition generateAdvancedLUT (env : Environment) (st : State)
  : State * list Event :=
  if Nat.eqb (length (referenceImages st)) 0 then (st, [])
  else
    let total := length (referenceImages st) in
    let level := st_intensityLevel st in
    let lutSize := lutResolution st in
    let method := st_bwConversionMethod st in
    let ls := analysisLoop env st in
    let analyses := ls_analyses ls in
    if Nat.eqb (length analyses) 0 then
      (* throw, caught by the handler of the run *)
      (setProcessing (setProcessingStep (ls_state ls) "Error occurred") false,
       (ls_events ls
        ++ [ConsoleErrorRun;
            Alert "Error generating LUT. Please try again."])%list)
    else
      let ctx := lutContext level method analyses in
      let st2 := setProcessingStep (ls_state ls)
                                   "Computing colour transformations..." in
      let st3 := setIsBlackAndWhite st2
                   (ca_isBlackAndWhite (combinedAnalysis ctx)) in
      let st4 := setColorAnalysis st3 (combinedAnalysis ctx) in
      let size := toText (ofNat lutSize) in
      let st5 := setProcessingStep st4
                   ("Generating " ++ size ++ "x" ++ size ++ "x" ++ size
                    ++ " LUT...") in
      let lines := lutData ctx lutSize in
      let st6 := setProcessingStep st5 "Finalising LUT file..." in
      let cube := cubeContent ctx lutSize level (today env) lines in
      let st7 := setGeneratedLUT st6 cube in
      let st8 := setProcessingStep st7 "Complete!" in
      (setProcessing st8 false, ls_events ls).

Close Scope string_scope.

End Rendering.

(** ** Specification-side definitions *)

(** A decoded image as a list of RGBA pixels, and its byte buffer. *)
Record Pixel : Type := mkPixel {
  px_r : Z;
  px_g : Z;
  px_b : Z;
  px_a : Z
}.

Definition pixelBytes (pixels : list Pixel) : ImageData :=
  flat_map (fun p => [px_r p; px_g p; px_b p; px_a p]) pixels.

(** A buffer is an RGBA buffer when it holds four bytes per pixel. *)
Definition wellFormed (data : ImageData) : Prop :=
  (length data mod 4 = 0)%nat.

(** Every [period]-th element of a list, the first one after [countdown]
    elements. *)
Fixpoint every {A : Type} (period countdown : nat) (l : list A) : list A :=
  match l with
  | [] => []
  | x :: l' =>
      match countdown with
      | O => x :: every period (period - 1) l'
      | Datatypes.S c => every period c l'
      end
  end.

(** The detector in the words of the specification: every 10th pixel is
    sampled, a pixel is colourful when max(|R-G|, |G-B|, |R-B|) > 10, and
    the image is black & white when colourful/sampled < 0.05. *)
Definition specColourful (p : Pixel) : bool :=
  (10 <? Z.max (Z.max (Z.abs (px_r p - px_g p)) (Z.abs (px_g p - px_b p)))
               (Z.abs (px_r p - px_b p)))%Z.

Definition specSampled (pixels : list Pixel) : list Pixel :=
  every 10 0 pixels.

Definition specColourfulCount (pixels : list Pixel) : nat :=
  length (filter specColourful (specSampled pixels)).

Definition specIsBlackAndWhite (pixels : list Pixel) : bool :=
  match
    QArith_base.Qcompare
      (QArith_base.Qdiv
         (QArith_base.inject_Z (Z.of_nat (specColourfulCount pixels)))
         (QArith_base.inject_Z (Z.of_nat (length (specSampled pixels)))))
      (QArith_base.Qmake 5 100)
  with
  | Lt => true
  | _ => false
  end.

(** The gain in the words of the specification:
    clamp(((target/neutral) - 1) * baseIntensity + 1, 0.1, 3.0). *)
Definition clamp (x lo hi : R) : R := Rmin hi (Rmax lo x).

Definition specBaseIntensity (level : Z) : R := 0.5 + (IZR level - 1) * 0.25.

Definition specGain (level : Z) (target neutral : R) : R :=
  clamp ((target / neutral - 1) * specBaseIntensity level + 1) 0.1 3.0.

(** The number of turns of [for (i = 0; i < len; i += step)]. *)
Definition strideTurns (len step : nat) : nat := (len + step - 1) / step.

(** The baseline of a zone in the camera profile, and the transform
    solved for it. *)
Definition baseline (zone : Zone) : RGB :=
  match zone with
  | Shadows => shadows_lift universalCameraProfile
  | Midtones => midtones_gamma universalCameraProfile
  | Highlights => highlights_gain universalCameraProfile
  end.

Definition zoneTransform (t : Transforms) (zone : Zone) : RGB :=
  match zone with
  | Shadows => tr_shadows t
  | Midtones => tr_midtones t
  | Highlights => tr_highlights t
  end.

(** The luminance the sampler computes for a pixel. *)
Definition pixelLuminance (p : Pixel) : R :=
  0.299 * (IZR (px_r p) / 255) + 0.587 * (IZR (px_g p) / 255)
  + 0.114 * (IZR (px_b p) / 255).

(** A flat image: every pixel is (red, green, blue), opaque. *)
Definition flatImage (red green blue : Z) (pixelCount : nat) : ImageData :=
  pixelBytes (repeat (mkPixel red green blue 255) pixelCount).

(** Two reference images as the decoder hands them over (the longest side
    is scaled to 512 pixels), here strips of 512 x 1 pixels: a flat
    mid-grey one and a flat orange one; and the contexts of the runs on
    each of them alone. *)
Definition greyImage : ImageData := flatImage 128 128 128 512.

Definition orangeImage : ImageData := flatImage 200 100 50 512.

Definition greyContext : LutContext :=
  lutContext 1 "luminance" [analyzePixels greyImage].

Definition orangeContext : LutContext :=
  lutContext 3 "luminance" [analyzePixels orangeImage].

(** The block of the colour branch that belongs to a zone. *)
Definition zoneStep (ctx : LutContext) (zone : Zone)
  : number -> RGB -> RGB -> RGB :=
  match zone with
  | Shadows => shadowStep ctx
  | Midtones => midtoneStep ctx
  | Highlights => highlightStep ctx
  end.

(** The constants of the block of a zone: the exponent of its weight and
    the share of the transformed input in its target. *)
Definition zoneExponent (zone : Zone) : R :=
  match zone with
  | Shadows => 0.7
  | Midtones => 0.5
  | Highlights => 0.7
  end.

Definition zoneGainShare (zone : Zone) : R :=
  match zone with
  | Shadows => 0.8
  | Midtones => 1
  | Highlights => 0.9
  end.

(** The blend of a running channel towards input * gain * share, by the
    factor f. *)
Definition blendTowards (running input gain share f : R) : R :=
  running * (1 - f) + input * gain * share * f.

(** Numbers that are not NaN, and records made of them. *)
Definition finite (x : number) : Prop :=
  match x with
  | Num _ => True
  | NaN => False
  end.

Definition finiteRGB (c : RGB) : Prop :=
  finite (rgb_r c) /\ finite (rgb_g c) /\ finite (rgb_b c).

Definition finiteLAB (c : LAB) : Prop :=
  finite (lab_L c) /\ finite (lab_a c) /\ finite (lab_b c).

Definition finiteZone (cz : CombinedZone) : Prop :=
  finiteRGB (cz_rgb cz) /\ finite (avg (cz_luminance cz))
  /\ finiteLAB (cz_lab cz) /\ finite (cz_weight cz).

Definition finiteStats (zs : ZoneStats) : Prop :=
  finiteRGB (rgb zs) /\ finite (avg (luminance zs)) /\ finiteLAB (lab zs).

Definition finiteAnalysis (a : ImageAnalysis) : Prop :=
  forall zone zs, zoneStats a zone = Some zs -> finiteStats zs.

(** A channel in the closed unit interval. *)
Definition inUnit (x : number) : Prop :=
  match x with
  | Num v => 0 <= v <= 1
  | NaN => False
  end.

(** Output and input differ by less than [tolerance] on every channel. *)
Definition channelWithin (tolerance : R) (output input : number) : Prop :=
  match output, input with
  | Num o, Num i => Rabs (o - i) < tolerance
  | _, _ => False
  end.

Definition nearIdentity (tolerance : R) (output input : RGB) : Prop :=
  channelWithin tolerance (rgb_r output) (rgb_r input)
  /\ channelWithin tolerance (rgb_g output) (rgb_g input)
  /\ channelWithin tolerance (rgb_b output) (rgb_b input).

(** The normalised input of lattice index [k]: k / (lutSize - 1). *)
Definition latticeInput (lutSize k : nat) : number :=
  (ofNat k / (ofNat lutSize - 1))%js.

(** The analyses a run collects: those of the images that loaded, in
    order. *)
Fixpoint successes (env : Environment) (start count : nat)
  : list ImageAnalysis :=
  match count with
  | O => []
  | Datatypes.S c =>
      match load env start with
      | Loaded data => analyzePixels data :: successes env (start + 1) c
      | _ => successes env (start + 1) c
      end
  end.

Definition zone_eqb (a b : Zone) : bool :=
  match a, b with
  | Shadows, Shadows | Midtones, Midtones | Highlights, Highlights => true
  | _, _ => false
  end.

(** A zone that no image contributes to. *)
Definition zoneEmptyIn (zone : Zone) (analyses : list ImageAnalysis) : Prop :=
  forall a, In a analyses ->
            match zoneStats a zone with
            | Some zs => count zs = 0%nat
            | None => True
            end.

(** What the scan keeps true of a zone: five arrays of the same length,
    without NaN. *)
Definition goodZone (zone : ZoneSamples) : Prop :=
  Forall finite (zs_r zone) /\ Forall finite (zs_g zone)
  /\ Forall finite (zs_b zone) /\ Forall finite (zs_luminance zone)
  /\ Forall finiteLAB (zs_lab zone)
  /\ length (zs_g zone) = length (zs_r zone)
  /\ length (zs_b zone) = length (zs_r zone)
  /\ length (zs_luminance zone) = length (zs_r zone)
  /\ length (zs_lab zone) = length (zs_r zone).

Definition goodSamples (s : Samples) : Prop :=
  goodZone (sm_shadows s) /\ goodZone (sm_midtones s)
  /\ goodZone (sm_highlights s).

(** An event of the analysis loop: the console line of a rejected image. *)
Definition isImageError (e : Event) : Prop :=
  match e with
  | ConsoleErrorImage _ _ => True
  | _ => False
  end.

(** The loop writes the progress line only. *)
Definition sameButStep (st st' : State) : Prop :=
  referenceImages st' = referenceImages st
  /\ generatedLUT st' = generatedLUT st
  /\ colorAnalysis st' = colorAnalysis st
  /\ st_isBlackAndWhite st' = st_isBlackAndWhite st.

(** The line pushed for the lattice point (r, g, b). *)
Definition latticeLine (toFixed : number -> nat -> string) (ctx : LutContext)
           (lutSize r g b : nat) : string :=
  lutLine toFixed
          (lutEntry ctx (latticeInput lutSize r) (latticeInput lutSize g)
                    (latticeInput lutSize b)).

(** Runs to instantiate the statements with: three reference images and
    the settings the component starts with; a run in which the first image
    fails to load, the second one (the orange image) loads and the third
    one times out, and a run in which no image loads; formatters that
    print nothing. *)
Definition blankFixed (x : number) (digits : nat) : string := EmptyString.

Definition blankText (x : number) : string := EmptyString.

Definition threeImages : State :=
  mkState [mkReferenceImage "broken.png" "data:image/png;base64,";
           mkReferenceImage "orange.png" "data:image/png;base64,";
           mkReferenceImage "huge.png" "data:image/png;base64,"]
          false None None EmptyString false "luminance" 3 true 33.

Definition mixedRun : Environment :=
  mkEnvironment (fun i => match i with
                          | O => LoadFailed
                          | Datatypes.S O => Loaded orangeImage
                          | _ => TimedOut
                          end)
                "2024-05-01".

Definition failedRun : Environment :=
  mkEnvironment (fun i => match i with
                          | O => LoadFailed
                          | _ => TimedOut
                          end)
                "2024-05-01".

(** ** Definitions for the further properties *)

(** The three channels of a triplet. *)
Inductive Colour : Type := Red | Green | Blue.

Definition channel (c : Colour) (x : RGB) : number :=
  match c with
  | Red => rgb_r x
  | Green => rgb_g x
  | Blue => rgb_b x
  end.

(** The colour branch up to the contrast block. *)
Definition colourBeforeContrast (ctx : LutContext) (luminance : number)
           (inputR inputG inputB : number) : RGB :=
  let input := mkRGB inputR inputG inputB in
  let shadowWeight := colourShadowWeight luminance in
  let highlightWeight := colourHighlightWeight luminance in
  let midtoneWeight := midtoneWeightOf shadowWeight highlightWeight in
  saturate ctx
    (globalAdjustments ctx
       (applyColourMatrix
          (highlightStep ctx highlightWeight input
             (midtoneStep ctx midtoneWeight input
                (shadowStep ctx shadowWeight input input))))).

(** The number of samples an analysis holds for a zone: [count], 0 for an
    absent zone. *)
Definition zoneCount (a : ImageAnalysis) (zone : Zone) : nat :=
  match zoneStats a zone with
  | Some zs => count zs
  | None => 0
  end.

(** The samples of a zone after the scan. *)
Definition zoneSamples (s : Samples) (zone : Zone) : ZoneSamples :=
  match zone with
  | Shadows => sm_shadows s
  | Midtones => sm_midtones s
  | Highlights => sm_highlights s
  end.

(** Bytes, as a Uint8ClampedArray holds them. *)
Definition validBytes (data : ImageData) : Prop :=
  Forall (fun v => (0 <= v <= 255)%Z) data.

(** The luminance band of a zone: below 0.25 for the shadows, from 0.25
    to below 0.75 for the midtones, from 0.75 on for the highlights. *)
Definition inBand (zone : Zone) (x : number) : Prop :=
  match x with
  | Num v =>
      match zone with
      | Shadows => 0 <= v < 0.25
      | Midtones => 0.25 <= v < 0.75
      | Highlights => 0.75 <= v <= 1
      end
  | NaN => False
  end.

(** A number within closed real bounds. *)
Definition between (lo hi : R) (x : number) : Prop :=
  match x with
  | Num v => lo <= v <= hi
  | NaN => False
  end.

(** [Math.pow] on a base that is not negative, with a positive exponent. *)
Definition powNonneg (x s : R) : R :=
  if Req_dec_T x 0 then 0 else Rpower x s.

(** The value of the S-curve on the unit interval. *)
Definition sCurveValue (v s : R) : R :=
  if Rlt_dec v 0.5
  then powNonneg (v * 2) s / 2
  else 1 - powNonneg ((1 - v) * 2) s / 2.

(** What the scan keeps true of a zone on a buffer of bytes: channels in
    [0, 1], luminances in the band of the zone, arrays of one length. *)
Definition bandZone (zone : Zone) (z : ZoneSamples) : Prop :=
  Forall (between 0 1) (zs_r z) /\ Forall (between 0 1) (zs_g z)
  /\ Forall (between 0 1) (zs_b z) /\ Forall (inBand zone) (zs_luminance z)
  /\ length (zs_g z) = length (zs_r z)
  /\ length (zs_b z) = length (zs_r z)
  /\ length (zs_luminance z) = length (zs_r z).

Definition bandSamples (s : Samples) : Prop :=
  forall zone, bandZone zone (zoneSamples s zone).

(** The number of samples the scan holds. *)
Definition sampleTotal (s : Samples) : nat :=
  length (zs_r (sm_shadows s)) + length (zs_r (sm_midtones s))
  + length (zs_r (sm_highlights s)).

(** The statistics kept for a zone, one by one. *)
Inductive Statistic : Type :=
| MeanRed | MeanGreen | MeanBlue | MeanLuminance | MeanL | MeanA | MeanB.

Definition statOf (zs : ZoneStats) (k : Statistic) : number :=
  match k with
  | MeanRed => rgb_r (rgb zs)
  | MeanGreen => rgb_g (rgb zs)
  | MeanBlue => rgb_b (rgb zs)
  | MeanLuminance => avg (luminance zs)
  | MeanL => lab_L (lab zs)
  | MeanA => lab_a (lab zs)
  | MeanB => lab_b (lab zs)
  end.

Definition combinedStat (cz : CombinedZone) (k : Statistic) : number :=
  match k with
  | MeanRed => rgb_r (cz_rgb cz)
  | MeanGreen => rgb_g (cz_rgb cz)
  | MeanBlue => rgb_b (cz_rgb cz)
  | MeanLuminance => avg (cz_luminance cz)
  | MeanL => lab_L (cz_lab cz)
  | MeanA => lab_a (cz_lab cz)
  | MeanB => lab_b (cz_lab cz)
  end.

(** What [addZone] does to the record of the zone it is called for. *)
Definition stepZone (cz : CombinedZone) (analysis : ImageAnalysis)
           (zone : Zone) : CombinedZone :=
  match zoneStats analysis zone with
  | Some zs =>
      if Nat.ltb 0 (count zs) then
        (let weight := ofNat (count zs) in
         mkCombinedZone
           (mkRGB (rgb_r (cz_rgb cz) + rgb_r (rgb zs) * weight)
                  (rgb_g (cz_rgb cz) + rgb_g (rgb zs) * weight)
                  (rgb_b (cz_rgb cz) + rgb_b (rgb zs) * weight))
           (mkLuminance
              (avg (cz_luminance cz) + avg (luminance zs) * weight))
           (mkLAB (lab_L (cz_lab cz) + lab_L (lab zs) * weight)
                  (lab_a (cz_lab cz) + lab_a (lab zs) * weight)
                  (lab_b (cz_lab cz) + lab_b (lab zs) * weight))
           (cz_weight cz + weight))%js
      else cz
  | None => cz
  end.

(** What [normalizeZone] does to the record of the zone it is called
    for. *)
Definition normalizeStats (cz : CombinedZone) : CombinedZone :=
  (if cz_weight cz >? 0 then
     mkCombinedZone
       (mkRGB (rgb_r (cz_rgb cz) / cz_weight cz)
              (rgb_g (cz_rgb cz) / cz_weight cz)
              (rgb_b (cz_rgb cz) / cz_weight cz))
       (mkLuminance (avg (cz_luminance cz) / cz_weight cz))
       (mkLAB (lab_L (cz_lab cz) / cz_weight cz)
              (lab_a (cz_lab cz) / cz_weight cz)
              (lab_b (cz_lab cz) / cz_weight cz))
       (cz_weight cz)
   else cz)%js.

(** The number of samples a batch holds for a zone. *)
Definition totalCount (analyses : list ImageAnalysis) (zone : Zone) : nat :=
  list_sum (map (fun a => zoneCount a zone) analyses).

(** The closed luminance band of a zone. *)
Definition bandLower (zone : Zone) : R :=
  match zone with
  | Shadows => 0
  | Midtones => 0.25
  | Highlights => 0.75
  end.

Definition bandUpper (zone : Zone) : R :=
  match zone with
  | Shadows => 0.25
  | Midtones => 0.75
  | Highlights => 1
  end.

(** What the contrast block and the final clamp leave of a channel: the
    value of the S-curve for a channel of [0, 1], NaN otherwise. *)
Definition contrastOutcome (s : R) (x : number) : number :=
  match x with
  | Num v =>
      if Rle_dec 0 v then
        if Rle_dec v 1 then Num (sCurveValue v s) else NaN
      else NaN
  | NaN => NaN
  end.

(** What the loop over [referenceImages] writes to the console: one error
    per image that was not analysed, with the number of the image. *)
Fixpoint failures (env : Environment) (start count : nat) : list Event :=
  match count with
  | O => []
  | Datatypes.S c =>
      match analyzeImageAdvanced (load env start) start with
      | inl _ => failures env (start + 1) c
      | inr error =>
          ConsoleErrorImage (start + 1) error :: failures env (start + 1) c
      end
  end.

(** The settings and the reference images, which a run reads only. *)
Definition sameSettings (st st' : State) : Prop :=
  referenceImages st' = referenceImages st
  /\ st_bwConversionMethod st' = st_bwConversionMethod st
  /\ st_intensityLevel st' = st_intensityLevel st
  /\ advancedMode st' = advancedMode st
  /\ lutResolution st' = lutResolution st.

(** The handlers of the intensity slider and of the resolution select. *)
Definition setIntensityLevel (st : State) (level : Z) : State :=
  mkState (referenceImages st) (isProcessing st) (generatedLUT st)
          (colorAnalysis st) (processingStep st) (st_isBlackAndWhite st)
          (st_bwConversionMethod st) level (advancedMode st)
          (lutResolution st).

Definition setLutResolution (st : State) (resolution : nat) : State :=
  mkState (referenceImages st) (isProcessing st) (generatedLUT st)
          (colorAnalysis st) (processingStep st) (st_isBlackAndWhite st)
          (st_bwConversionMethod st) (st_intensityLevel st) (advancedMode st)
          resolution.

(** The file [downloadLUT] hands to the browser: the [download] attribute
    of the link and the text of the blob. *)
Record Download : Type := mkDownload {
  dl_filename : string;
  dl_content : string
}.

Definition downloadName (toText : number -> string) (bw : bool) (level : Z)
           (resolution : nat) (timestamp : string) : string :=
  (let lutType := if bw then "bw" else "colour" in
   let intensityLabel := toText (ofZ level) ++ "x" in
   let resolutionLabel := toText (ofNat resolution) in
   "universal-" ++ lutType ++ "-" ++ intensityLabel ++ "-"
   ++ resolutionLabel ++ "-" ++ timestamp ++ ".cube")%string.

(** [downloadLUT]: nothing when [generatedLUT] is null or the empty
    string, the file otherwise.  The date part of the ISO string holds
    neither ':' nor '.', so the replacement leaves it as it is. *)
Definition downloadLUT (toText : number -> string) (env : Environment)
           (st : State) : option Download :=
  match generatedLUT st with
  | None => None
  | Some lut =>
      if String.eqb lut EmptyString then None
      else
        Some (mkDownload
                (downloadName toText (st_isBlackAndWhite st)
                              (st_intensityLevel st) (lutResolution st)
                              (today env))
                lut)
  end.

(** * Properties *)

(** ** Arithmetic on numbers *)

Lemma ltb_true_iff (a b : R) : (Num a <? Num b)%js = true <-> a < b.
Proof.
  unfold ltb. destruct (Rlt_dec a b); split; intros; try easy.
Qed.

Lemma ltb_false_iff (a b : R) : (Num a <? Num b)%js = false <-> b <= a.
Proof.
  unfold ltb. destruct (Rlt_dec a b); split; intros; try easy; lra.
Qed.

Lemma gtb_true_iff (a b : R) : (Num a >? Num b)%js = true <-> b < a.
Proof. unfold gtb. apply ltb_true_iff. Qed.

Lemma gtb_false_iff (a b : R) : (Num a >? Num b)%js = false <-> a <= b.
Proof. unfold gtb. apply ltb_false_iff. Qed.

Lemma Num_inj (a b : R) : Num a = Num b -> a = b.
Proof. intros H. now injection H. Qed.

Lemma div_Num (a b : R) : b <> 0 -> (Num a / Num b)%js = Num (a / b).
Proof.
  intros Hb. unfold div. destruct (Req_dec_T b 0); [contradiction | reflexivity].
Qed.

Lemma strict_neq_Num (a b : R) : a <> b -> (Num a !== Num b)%js = true.
Proof.
  intros Hab. unfold strict_neq.
  destruct (Req_dec_T a b); [contradiction | reflexivity].
Qed.

(** The real power of a positive base. *)
Lemma Math_pow_pos (x e : R) :
  0 < x -> e <> 0 -> Math_pow (Num x) (Num e) = Num (Rpower x e).
Proof.
  intros Hx He. unfold Math_pow.
  destruct (Req_dec_T e 0); [contradiction |].
  destruct (Rlt_dec 0 x); [reflexivity | contradiction].
Qed.

Lemma Rpower_pos (x e : R) : 0 < Rpower x e.
Proof. unfold Rpower. apply exp_pos. Qed.

Lemma Rpower_one_base (e : R) : Rpower 1 e = 1.
Proof. unfold Rpower. rewrite ln_1, Rmult_0_r. apply exp_0. Qed.

Lemma Rpower_le_one (x e : R) : 0 < x <= 1 -> 0 < e -> Rpower x e <= 1.
Proof.
  intros [Hx [Hlt | Heq]] He.
  - left. rewrite <- (Rpower_one_base e). apply Rlt_Rpower_l; lra.
  - subst x. rewrite Rpower_one_base. lra.
Qed.

(** A number strictly between two consecutive integers has a fractional
    part. *)
Lemma frac_part_between (x : R) (z : Z) :
  IZR z < x < IZR (z + 1) -> frac_part x <> 0.
Proof.
  intros [Hlo Hhi] Hfrac. unfold frac_part in Hfrac.
  assert (Hx : x = IZR (Int_part x)) by lra.
  rewrite Hx in Hlo, Hhi.
  apply lt_IZR in Hlo. apply lt_IZR in Hhi. lia.
Qed.

(** A negative base with a fractional exponent: NaN. *)
Lemma Math_pow_negative_base (x e : R) (z : Z) :
  x < 0 -> IZR z < e < IZR (z + 1) -> Math_pow (Num x) (Num e) = NaN.
Proof.
  intros Hx He. unfold Math_pow.
  destruct (Req_dec_T e 0) as [He0 | _].
  - exfalso. subst e. destruct He as [Hlo Hhi].
    apply lt_IZR in Hlo. apply lt_IZR in Hhi. lia.
  - destruct (Rlt_dec 0 x); [lra |].
    destruct (Req_dec_T x 0); [lra |].
    destruct (Req_dec_T (frac_part e) 0) as [Hf | _]; [| reflexivity].
    exfalso. revert Hf. now apply frac_part_between with z.
Qed.

Lemma Rmax_IZR (a b : Z) : Rmax (IZR a) (IZR b) = IZR (Z.max a b).
Proof.
  destruct (Z.le_ge_cases a b) as [H | H].
  - rewrite Z.max_r by exact H. apply Rmax_right. now apply IZR_le.
  - rewrite Z.max_l by exact H. apply Rmax_left. now apply IZR_le.
Qed.

Lemma Rabs_IZR_sub (a b : Z) : Rabs (IZR a - IZR b) = IZR (Z.abs (a - b)).
Proof. now rewrite <- minus_IZR, abs_IZR. Qed.

(** ** Loops *)

Lemma stride_turns (len step k : nat) :
  (0 < step)%nat ->
  (k < strideTurns len step)%nat <-> (k * step < len)%nat.
Proof.
  unfold strideTurns. intros Hstep. split; intros H.
  - pose proof (Nat.Div0.mul_div_le (len + step - 1) step) as Hle. nia.
  - assert (Hq : (k + 1 <= (len + step - 1) / step)%nat).
    { apply Nat.div_le_lower_bound; lia. }
    lia.
Qed.

Section LoopLemmas.

Context {S : Type}.

(** With enough fuel the strided loop visits the offsets 0, step, 2 step,
    ... below [len], in this order. *)
Lemma strideFrom_fold (step len : nat) (body : nat -> S -> S) :
  (0 < step)%nat ->
  forall fuel k s,
    (len <= k * step + fuel)%nat ->
    strideFrom fuel (k * step) step len body s
    = fold_left (fun s j => body (j * step)%nat s)
                (seq k (strideTurns len step - k)) s.
Proof.
  intros Hstep. induction fuel as [| fuel IH]; intros k s Hfuel.
  - assert (Hk : ~ (k < strideTurns len step)%nat).
    { rewrite stride_turns by exact Hstep. lia. }
    replace (strideTurns len step - k)%nat with 0%nat by lia. reflexivity.
  - simpl. destruct (Nat.ltb_spec (k * step) len) as [Hlt | Hge].
    + assert (Hk : (k < strideTurns len step)%nat).
      { rewrite stride_turns by exact Hstep. exact Hlt. }
      replace (strideTurns len step - k)%nat
        with (Datatypes.S (strideTurns len step - Datatypes.S k)) by lia.
      simpl. replace (k * step + step)%nat with (Datatypes.S k * step)%nat
        by lia.
      apply IH. lia.
    + assert (Hk : ~ (k < strideTurns len step)%nat).
      { rewrite stride_turns by exact Hstep. lia. }
      replace (strideTurns len step - k)%nat with 0%nat by lia. reflexivity.
Qed.

Lemma strideFrom_fold_0 (step len : nat) (body : nat -> S -> S)
      (fuel : nat) (s : S) :
  (0 < step)%nat -> (len <= fuel)%nat ->
  strideFrom fuel 0 step len body s
  = fold_left (fun s j => body (j * step)%nat s)
              (seq 0 (strideTurns len step)) s.
Proof.
  intros Hstep Hfuel.
  pose proof (strideFrom_fold step len body Hstep fuel 0 s) as H.
  rewrite Nat.mul_0_l, Nat.sub_0_r in H. apply H. lia.
Qed.

(** The fuel [forStride] starts with is enough. *)
Lemma forStride_fold (len step : nat) (body : nat -> S -> S) (s : S) :
  (0 < step)%nat ->
  forStride len step body s
  = fold_left (fun s j => body (j * step)%nat s)
              (seq 0 (strideTurns len step)) s.
Proof.
  intros Hstep. unfold forStride. now apply strideFrom_fold_0.
Qed.

Lemma strideFrom_enough_fuel (step len : nat) (body : nat -> S -> S)
      (extra : nat) (s : S) :
  (0 < step)%nat ->
  strideFrom (len + extra) 0 step len body s = forStride len step body s.
Proof.
  intros Hstep. rewrite forStride_fold by exact Hstep.
  apply strideFrom_fold_0; [exact Hstep | lia].
Qed.

Lemma fold_left_ext_in {A : Type} (f g : S -> A -> S) (l : list A) (s : S) :
  (forall a s', In a l -> f s' a = g s' a) ->
  fold_left f l s = fold_left g l s.
Proof.
  revert s. induction l as [| a l IH]; intros s Hfg; simpl.
  - reflexivity.
  - rewrite Hfg by now left. apply IH. intros a' s' Hin. apply Hfg. now right.
Qed.

Lemma forLoop_fold (n : nat) (body : nat -> S -> S) (s : S) :
  forLoop n body s = fold_left (fun s k => body k s) (seq 0 n) s.
Proof.
  unfold forLoop. rewrite forStride_fold by lia.
  assert (Hn : strideTurns n 1 = n).
  { unfold strideTurns. replace (n + 1 - 1)%nat with n by lia.
    apply Nat.div_1_r. }
  rewrite Hn. apply fold_left_ext_in. intros k s' _.
  now rewrite Nat.mul_1_r.
Qed.

(** An invariant of the loop body is an invariant of the loop. *)
Lemma fold_left_invariant {A : Type} (P : S -> Prop) (f : S -> A -> S)
      (l : list A) (s : S) :
  P s -> (forall a s', In a l -> P s' -> P (f s' a)) -> P (fold_left f l s).
Proof.
  revert s. induction l as [| a l IH]; intros s Hs Hf; simpl.
  - exact Hs.
  - apply IH.
    + apply Hf; [now left | exact Hs].
    + intros a' s' Hin. apply Hf. now right.
Qed.

End LoopLemmas.

(** Loops that only append. *)
Lemma fold_left_append {A B : Type} (f : A -> list B -> list B)
      (F : A -> list B) (l : list A) (acc : list B) :
  (forall a acc', In a l -> f a acc' = acc' ++ F a) ->
  fold_left (fun acc a => f a acc) l acc = acc ++ flat_map F l.
Proof.
  revert acc. induction l as [| a l IH]; intros acc Hf; simpl.
  - now rewrite app_nil_r.
  - rewrite IH by (intros a' acc' Hin; apply Hf; now right).
    rewrite Hf by now left. now rewrite app_assoc.
Qed.

Lemma length_flat_map_blocks {A B : Type} (F : A -> list B) (m : nat)
      (l : list A) :
  (forall a, In a l -> length (F a) = m) ->
  length (flat_map F l) = (length l * m)%nat.
Proof.
  induction l as [| a l IH]; intros HF; simpl.
  - reflexivity.
  - rewrite length_app, HF by now left.
    rewrite IH by (intros a' Hin; apply HF; now right). reflexivity.
Qed.

(** The j-th element of the k-th block of a concatenation of blocks of
    length [m]. *)
Lemma nth_error_flat_map_seq {B : Type} (F : nat -> list B) (m : nat) :
  forall n start k j,
    (forall i, (start <= i < start + n)%nat -> length (F i) = m) ->
    (k < n)%nat -> (j < m)%nat ->
    nth_error (flat_map F (seq start n)) (k * m + j)
    = nth_error (F (start + k)%nat) j.
Proof.
  induction n as [| n IH]; intros start k j HF Hk Hj; [lia |].
  simpl. destruct k as [| k].
  - simpl. rewrite nth_error_app1 by (rewrite HF; lia).
    now rewrite Nat.add_0_r.
  - rewrite nth_error_app2 by (rewrite HF; lia).
    rewrite HF by lia.
    replace (Datatypes.S k * m + j - m)%nat with (k * m + j)%nat by lia.
    rewrite IH; try lia.
    + now replace (Datatypes.S start + k)%nat
        with (start + Datatypes.S k)%nat by lia.
    + intros i Hi. apply HF. lia.
Qed.

Lemma flat_map_singleton {A B : Type} (f : A -> B) (l : list A) :
  flat_map (fun a => [f a]) l = map f l.
Proof. induction l as [| a l IH]; simpl; [reflexivity | now rewrite IH]. Qed.

(** ** The lattice (C1) *)

Section Lattice.

Variable toFixed : number -> nat -> string.
Variable ctx : LutContext.

(** The three loops lay the lines out plane by plane (blue), row by row
    (green), red running fastest. *)
Lemma lutData_flat_map (n : nat) :
  lutData toFixed ctx n
  = flat_map (fun b =>
      flat_map (fun g => map (fun r => latticeLine toFixed ctx n r g b) (seq 0 n))
               (seq 0 n))
      (seq 0 n).
Proof.
  unfold lutData. rewrite forLoop_fold.
  rewrite (fold_left_append _
             (fun b => flat_map
                         (fun g => map (fun r => latticeLine toFixed ctx n r g b)
                                       (seq 0 n))
                         (seq 0 n))); [reflexivity |].
  intros b acc _. rewrite forLoop_fold.
  apply (fold_left_append _
           (fun g => map (fun r => latticeLine toFixed ctx n r g b) (seq 0 n))).
  intros g acc' _. rewrite forLoop_fold.
  rewrite <- flat_map_singleton.
  apply (fold_left_append _ (fun r => [latticeLine toFixed ctx n r g b])).
  reflexivity.
Qed.

Lemma length_row (n g b : nat) :
  length (map (fun r => latticeLine toFixed ctx n r g b) (seq 0 n)) = n.
Proof. now rewrite length_map, length_seq. Qed.

Lemma length_plane (n b : nat) :
  length (flat_map (fun g => map (fun r => latticeLine toFixed ctx n r g b) (seq 0 n))
                   (seq 0 n))
  = (n * n)%nat.
Proof.
  rewrite (length_flat_map_blocks _ n).
  - now rewrite length_seq.
  - intros g _. apply length_row.
Qed.

Lemma length_lutData (n : nat) : length (lutData toFixed ctx n) = (n ^ 3)%nat.
Proof.
  rewrite lutData_flat_map, (length_flat_map_blocks _ (n * n)).
  - rewrite length_seq. simpl. lia.
  - intros b _. apply length_plane.
Qed.

Lemma nth_error_lutData (n r g b : nat) :
  (r < n)%nat -> (g < n)%nat -> (b < n)%nat ->
  nth_error (lutData toFixed ctx n) (b * n * n + g * n + r)
  = Some (latticeLine toFixed ctx n r g b).
Proof.
  intros Hr Hg Hb. rewrite lutData_flat_map.
  replace (b * n * n + g * n + r)%nat with (b * (n * n) + (g * n + r))%nat
    by lia.
  rewrite (nth_error_flat_map_seq _ (n * n)); [| | exact Hb | nia].
  - rewrite (nth_error_flat_map_seq _ n); [| | exact Hg | exact Hr].
    + simpl. rewrite nth_error_map, nth_error_seq.
      destruct (Nat.ltb_spec r n); [reflexivity | lia].
    + intros i _. apply length_row.
  - intros i _. apply length_plane.
Qed.

End Lattice.

Lemma latticeInput_Num (n k : nat) :
  (2 <= n)%nat -> latticeInput n k = Num (INR k / (INR n - 1)).
Proof.
  intros Hn. unfold latticeInput, ofNat. simpl sub.
  apply div_Num. apply le_INR in Hn. simpl in Hn. lra.
Qed.

(** C1.  For every resolution n >= 2 the lattice loops emit exactly n^3
    lines, and the line at position b n^2 + g n + r is the one computed for
    the lattice point (r, g, b) from the normalised input
    (r, g, b) / (n - 1): blue is the outermost index, green the middle one
    and red runs fastest. *)
Theorem lattice_emission_order (toFixed : number -> nat -> string)
        (ctx : LutContext) (n : nat) :
  (2 <= n)%nat ->
  length (lutData toFixed ctx n) = (n ^ 3)%nat
  /\ forall r g b,
       (r < n)%nat -> (g < n)%nat -> (b < n)%nat ->
       nth_error (lutData toFixed ctx n) (b * n * n + g * n + r)
       = Some (lutLine toFixed
                 (lutEntry ctx (Num (INR r / (INR n - 1)))
                               (Num (INR g / (INR n - 1)))
                               (Num (INR b / (INR n - 1))))).
Proof.
  intros Hn. split.
  - apply length_lutData.
  - intros r g b Hr Hg Hb.
    rewrite nth_error_lutData by assumption. unfold latticeLine.
    now rewrite !latticeInput_Num by exact Hn.
Qed.

(** ** Monochrome detection (C5) *)

Lemma length_pixelBytes (pixels : list Pixel) :
  length (pixelBytes pixels) = (4 * length pixels)%nat.
Proof.
  unfold pixelBytes. rewrite (length_flat_map_blocks _ 4); [lia |].
  reflexivity.
Qed.

(** The four bytes of the q-th pixel. *)
Lemma pixelBytes_at (pixels : list Pixel) (q : nat) (p : Pixel) :
  nth_error pixels q = Some p ->
  nth_error (pixelBytes pixels) (4 * q) = Some (px_r p)
  /\ nth_error (pixelBytes pixels) (4 * q + 1) = Some (px_g p)
  /\ nth_error (pixelBytes pixels) (4 * q + 2) = Some (px_b p)
  /\ nth_error (pixelBytes pixels) (4 * q + 3) = Some (px_a p).
Proof.
  revert q. induction pixels as [| p0 pixels IH]; intros q Hq.
  - destruct q; discriminate.
  - destruct q as [| q].
    + simpl in Hq. injection Hq as ->. now repeat split.
    + simpl in Hq. destruct (IH q Hq) as (Hr & Hg & Hb & Ha).
      replace (4 * Datatypes.S q)%nat
        with (Datatypes.S (Datatypes.S (Datatypes.S (Datatypes.S (4 * q)))))
        by lia.
      now repeat split.
Qed.

Lemma byteAt_pixel (pixels : list Pixel) (q : nat) (p : Pixel) :
  nth_error pixels q = Some p ->
  byteAt (pixelBytes pixels) (4 * q) = ofZ (px_r p)
  /\ byteAt (pixelBytes pixels) (4 * q + 1) = ofZ (px_g p)
  /\ byteAt (pixelBytes pixels) (4 * q + 2) = ofZ (px_b p).
Proof.
  intros Hq. destruct (pixelBytes_at pixels q p Hq) as (Hr & Hg & Hb & _).
  unfold byteAt. now rewrite Hr, Hg, Hb.
Qed.

Lemma gtb_IZR (m k : Z) : (Num (IZR m) >? Num (IZR k))%js = (k <? m)%Z.
Proof.
  destruct (Z.ltb_spec k m) as [H | H].
  - apply gtb_true_iff. now apply IZR_lt.
  - apply gtb_false_iff. now apply IZR_le.
Qed.

(** The test of the loop body is the colourfulness test of the
    specification on the pixel that starts at the offset. *)
Lemma colourfulAt_pixel (pixels : list Pixel) (q : nat) (p : Pixel) :
  nth_error pixels q = Some p ->
  colourfulAt (pixelBytes pixels) (4 * q) = specColourful p.
Proof.
  intros Hq. destruct (byteAt_pixel pixels q p Hq) as (Hr & Hg & Hb).
  unfold colourfulAt, specColourful. rewrite Hr, Hg, Hb.
  unfold ofZ. simpl. rewrite !Rabs_IZR_sub, !Rmax_IZR.
  apply (gtb_IZR _ 10).
Qed.

Lemma every_skipn {A : Type} (period : nat) (l : list A) :
  forall countdown, every period countdown l = every period 0 (skipn countdown l).
Proof.
  induction l as [| x l IH]; intros [| c]; simpl; try reflexivity.
  apply IH.
Qed.

Lemma skipn_cons_nth {A : Type} (l : list A) (q : nat) (x : A) :
  nth_error l q = Some x -> skipn q l = x :: skipn (Datatypes.S q) l.
Proof.
  revert q. induction l as [| y l IH]; intros [| q] Hq; simpl in *;
    try discriminate.
  - now injection Hq as ->.
  - now apply IH.
Qed.

(** The counting loop over the bytes counts the colourful pixels among
    every tenth pixel. *)
Lemma count_loop (pixels : list Pixel) :
  forall fuel q c,
    (4 * length pixels <= 4 * q + fuel)%nat ->
    strideFrom fuel (4 * q) 40 (length (pixelBytes pixels))
      (fun i colourfulPixels =>
         if colourfulAt (pixelBytes pixels) i
         then Datatypes.S colourfulPixels else colourfulPixels) c
    = (c + length (filter specColourful (every 10 0 (skipn q pixels))))%nat.
Proof.
  rewrite length_pixelBytes.
  induction fuel as [| fuel IH]; intros q c Hfuel.
  - rewrite skipn_all2 by lia. simpl. lia.
  - cbn [strideFrom]. destruct (Nat.ltb_spec (4 * q) (4 * length pixels))
      as [Hlt | Hge].
    + destruct (nth_error pixels q) as [p |] eqn:Hq.
      2:{ apply nth_error_None in Hq. lia. }
      rewrite (colourfulAt_pixel pixels q p Hq).
      replace (4 * q + 40)%nat with (4 * (q + 10))%nat by lia.
      rewrite IH by lia.
      rewrite (skipn_cons_nth pixels q p Hq). cbn [every Nat.sub].
      rewrite (every_skipn 10 (skipn (Datatypes.S q) pixels) 9), skipn_skipn.
      replace (9 + Datatypes.S q)%nat with (q + 10)%nat by lia.
      cbn [filter]. destruct (specColourful p); cbn [length]; lia.
    + rewrite skipn_all2 by lia. cbn. lia.
Qed.

Lemma countColourful_pixels (pixels : list Pixel) :
  countColourful (pixelBytes pixels) = specColourfulCount pixels.
Proof.
  unfold countColourful, forStride, specColourfulCount, specSampled.
  pose proof (count_loop pixels (length (pixelBytes pixels)) 0 0) as H.
  simpl in H. rewrite H; [reflexivity |].
  rewrite length_pixelBytes. lia.
Qed.

(** Every tenth pixel of n pixels: ceil(n / 10) of them. *)
Lemma length_every_10 (pixels : list Pixel) :
  length (every 10 0 pixels) = strideTurns (length pixels) 10.
Proof.
  remember (length pixels) as n eqn:Hn. revert pixels Hn.
  induction n as [n IH] using lt_wf_ind. intros pixels Hn.
  destruct pixels as [| p pixels].
  - subst n. reflexivity.
  - cbn [every Nat.sub]. rewrite every_skipn. cbn [length] in *.
    rewrite (IH (length (skipn 9 pixels)) ) with (pixels := skipn 9 pixels);
      [| rewrite length_skipn; lia | reflexivity].
    rewrite length_skipn. subst n.
    set (t1 := strideTurns (length pixels - 9) 10).
    set (t2 := strideTurns (Datatypes.S (length pixels)) 10).
    assert (H10 : (0 < 10)%nat) by lia.
    pose proof (stride_turns (length pixels - 9) 10 t1 H10) as H1a.
    pose proof (stride_turns (length pixels - 9) 10 (t1 - 1) H10) as H1b.
    pose proof (stride_turns (Datatypes.S (length pixels)) 10 t1 H10) as H2a.
    pose proof (stride_turns (Datatypes.S (length pixels)) 10
                             (Datatypes.S t1) H10) as H2b.
    fold t1 in H1a, H1b. fold t2 in H2a, H2b. lia.
Qed.

(** The threshold test of the code, on naturals: count / (len / 40) < 0.05
    exactly when 800 count < len. *)
Lemma detect_threshold (c len : nat) :
  (0 < len)%nat ->
  (ofNat c / (ofNat len / 40) <? 0.05)%js = (800 * c <? len)%nat.
Proof.
  intros Hlen. unfold ofNat.
  assert (HL : 0 < INR len) by (apply lt_0_INR; exact Hlen).
  rewrite (div_Num (INR len) 40) by lra.
  rewrite div_Num by lra.
  assert (Heq : INR c / (INR len / 40) = 40 * INR c / INR len)
    by (field; lra).
  rewrite Heq.
  assert (H800 : INR (800 * c) = 800 * INR c).
  { rewrite mult_INR. f_equal. change 800%nat with (Z.to_nat 800).
    rewrite INR_IZR_INZ, Z2Nat.id by lia. reflexivity. }
  destruct (Nat.ltb_spec (800 * c) len) as [H | H].
  - apply ltb_true_iff. apply lt_INR in H. rewrite H800 in H.
    apply Rmult_lt_reg_r with (INR len); [exact HL |].
    unfold Rdiv. rewrite Rmult_assoc, Rinv_l by lra. lra.
  - apply ltb_false_iff. apply le_INR in H. rewrite H800 in H.
    apply Rmult_le_reg_r with (INR len); [exact HL |].
    unfold Rdiv. rewrite Rmult_assoc, Rinv_l by lra. lra.
Qed.

(** The threshold test of the specification, on naturals:
    count / sampled < 0.05 exactly when 20 count < sampled. *)
Lemma spec_threshold (c s : nat) :
  (0 < s)%nat ->
  match
    QArith_base.Qcompare
      (QArith_base.Qdiv (QArith_base.inject_Z (Z.of_nat c))
                        (QArith_base.inject_Z (Z.of_nat s)))
      (QArith_base.Qmake 5 100)
  with
  | Lt => true
  | _ => false
  end = (20 * c <? s)%nat.
Proof.
  intros Hs. destruct s as [| s]; [lia |].
  unfold QArith_base.Qcompare, QArith_base.Qdiv, QArith_base.Qmult,
    QArith_base.Qinv, QArith_base.inject_Z.
  cbn [QArith_base.Qnum QArith_base.Qden Z.of_nat].
  set (sp := Pos.of_succ_nat s).
  assert (Hsp : Z.pos sp = Z.of_nat (Datatypes.S s)) by reflexivity.
  clearbody sp. rewrite Pos.mul_1_l.
  destruct (Nat.ltb_spec (20 * c) (Datatypes.S s)) as [H | H];
    destruct (Z.compare_spec (Z.of_nat c * 1 * 100) (5 * Z.pos sp))
      as [Hc | Hc | Hc]; try reflexivity; exfalso; lia.
Qed.

(** The detector of the code computes what the specification describes,
    on every RGBA buffer that holds at least one pixel. *)
Lemma detectBlackAndWhite_pixels (pixels : list Pixel) :
  pixels <> [] ->
  detectBlackAndWhite (pixelBytes pixels) = specIsBlackAndWhite pixels.
Proof.
  intros Hne.
  assert (Hlen : (0 < length pixels)%nat).
  { destruct pixels; [contradiction | simpl; lia]. }
  unfold detectBlackAndWhite, specIsBlackAndWhite.
  rewrite countColourful_pixels, length_pixelBytes.
  unfold specSampled at 1. unfold specSampled. rewrite length_every_10.
  assert (H10 : (0 < 10)%nat) by lia.
  pose proof (stride_turns (length pixels) 10 0 H10) as Hpos.
  pose proof (stride_turns (length pixels) 10
                           (20 * specColourfulCount pixels) H10) as Hk.
  rewrite detect_threshold by lia.
  rewrite spec_threshold by lia.
  destruct (Nat.ltb_spec (800 * specColourfulCount pixels)
                         (4 * length pixels));
    destruct (Nat.ltb_spec (20 * specColourfulCount pixels)
                           (strideTurns (length pixels) 10));
    try reflexivity; lia.
Qed.

(** C5.  On every RGBA buffer (at least one pixel, any length, a multiple
    of 40 bytes or not) the monochrome detector samples every tenth pixel,
    counts a sampled pixel as colourful exactly when
    max(|R-G|, |G-B|, |R-B|) > 10, and answers black & white exactly when
    colourful / sampled < 0.05. *)
Theorem detector_matches_specification (pixels : list Pixel) :
  pixels <> [] ->
  countColourful (pixelBytes pixels)
  = length (filter specColourful (every 10 0 pixels))
  /\ detectBlackAndWhite (pixelBytes pixels) = specIsBlackAndWhite pixels.
Proof.
  intros Hne. split.
  - apply countColourful_pixels.
  - now apply detectBlackAndWhite_pixels.
Qed.

(** ** Aggregation *)

Lemma combinedZone_set (ca : CombinedAnalysis) (z z' : Zone)
      (cz : CombinedZone) :
  combinedZone (setCombinedZone ca z' cz) z
  = if zone_eqb z z' then cz else combinedZone ca z.
Proof. destruct z, z'; reflexivity. Qed.

Lemma setCombinedZone_flag (ca : CombinedAnalysis) (z : Zone)
      (cz : CombinedZone) :
  ca_isBlackAndWhite (setCombinedZone ca z cz) = ca_isBlackAndWhite ca
  /\ globalStats (setCombinedZone ca z cz) = globalStats ca.
Proof. destruct z; split; reflexivity. Qed.

Lemma addZone_flag (ca : CombinedAnalysis) (a : ImageAnalysis) (z : Zone) :
  ca_isBlackAndWhite (addZone ca a z) = ca_isBlackAndWhite ca
  /\ globalStats (addZone ca a z) = globalStats ca.
Proof.
  unfold addZone. destruct (zoneStats a z) as [zs |]; [| now split].
  destruct (Nat.ltb 0 (count zs)); [| now split].
  apply setCombinedZone_flag.
Qed.

Lemma normalizeZone_flag (ca : CombinedAnalysis) (z : Zone) :
  ca_isBlackAndWhite (normalizeZone ca z) = ca_isBlackAndWhite ca
  /\ globalStats (normalizeZone ca z) = globalStats ca.
Proof.
  unfold normalizeZone.
  destruct (cz_weight (combinedZone ca z) >? 0)%js; [| now split].
  apply setCombinedZone_flag.
Qed.

(** Accumulation and normalisation touch the zones only: the flag and the
    global statistics are those of the initial record. *)
Lemma combineAnalyses_flag (analyses : list ImageAnalysis) :
  ca_isBlackAndWhite (combineAnalyses analyses)
  = existsb isBlackAndWhite analyses
  /\ globalStats (combineAnalyses analyses) = mkGlobalStats 0.5 0.5 0 0.
Proof.
  unfold combineAnalyses.
  set (P := fun ca : CombinedAnalysis =>
              ca_isBlackAndWhite ca = existsb isBlackAndWhite analyses
              /\ globalStats ca = mkGlobalStats 0.5 0.5 0 0).
  change (P (fold_left normalizeZone zones
               (accumulate analyses
                  (initialCombined (existsb isBlackAndWhite analyses))))).
  apply fold_left_invariant.
  - unfold accumulate. apply fold_left_invariant.
    + split; reflexivity.
    + intros a ca _ Hca. apply fold_left_invariant; [exact Hca |].
      intros z ca' _ [Hflag Hstats].
      destruct (addZone_flag ca' a z) as [Hf Hg].
      split; congruence.
  - intros z ca _ [Hflag Hstats].
    destruct (normalizeZone_flag ca z) as [Hf Hg].
    split; congruence.
Qed.

Lemma addZone_other (ca : CombinedAnalysis) (a : ImageAnalysis)
      (z z' : Zone) :
  zone_eqb z z' = false ->
  combinedZone (addZone ca a z') z = combinedZone ca z.
Proof.
  intros Hne. unfold addZone. destruct (zoneStats a z') as [zs |];
    [| reflexivity].
  destruct (Nat.ltb 0 (count zs)); [| reflexivity].
  now rewrite combinedZone_set, Hne.
Qed.

Lemma addZone_empty (ca : CombinedAnalysis) (a : ImageAnalysis) (z : Zone) :
  match zoneStats a z with
  | Some zs => count zs = 0%nat
  | None => True
  end ->
  addZone ca a z = ca.
Proof.
  intros Hempty. unfold addZone. destruct (zoneStats a z) as [zs |];
    [| reflexivity].
  now rewrite Hempty.
Qed.

Lemma addZone_keeps_empty (ca : CombinedAnalysis) (a : ImageAnalysis)
      (z z' : Zone) :
  match zoneStats a z with
  | Some zs => count zs = 0%nat
  | None => True
  end ->
  combinedZone (addZone ca a z') z = combinedZone ca z.
Proof.
  intros Hempty. destruct (zone_eqb z z') eqn:Heq.
  - assert (z = z') as <- by (destruct z, z'; easy).
    now rewrite addZone_empty.
  - now apply addZone_other.
Qed.

(** No division for a zone of weight 0: the zone keeps its zero defaults
    through accumulation and normalisation. *)
Lemma combineAnalyses_empty_zone (analyses : list ImageAnalysis)
      (zone : Zone) :
  zoneEmptyIn zone analyses ->
  combinedZone (combineAnalyses analyses) zone = zeroZone.
Proof.
  intros Hempty. unfold combineAnalyses.
  set (P := fun ca : CombinedAnalysis => combinedZone ca zone = zeroZone).
  change (P (fold_left normalizeZone zones
               (accumulate analyses
                  (initialCombined (existsb isBlackAndWhite analyses))))).
  apply fold_left_invariant.
  - unfold accumulate. apply fold_left_invariant.
    + unfold P. now destruct zone.
    + intros a ca Hin Hca. apply fold_left_invariant; [exact Hca |].
      intros z ca' _ Hca'. unfold P in *.
      rewrite addZone_keeps_empty; [exact Hca' |]. now apply Hempty.
  - intros z ca _ Hca. unfold P in *. unfold normalizeZone.
    destruct (cz_weight (combinedZone ca z) >? 0)%js eqn:Hw;
      [| exact Hca].
    rewrite combinedZone_set. destruct (zone_eqb zone z) eqn:Heq;
      [| exact Hca].
    assert (zone = z) as <- by (destruct zone, z; easy).
    rewrite Hca in Hw. unfold zeroZone in Hw. simpl cz_weight in Hw.
    apply gtb_true_iff in Hw. lra.
Qed.

Lemma lutContext_combined (level : Z) (method : string)
      (analyses : list ImageAnalysis) :
  combinedAnalysis (lutContext level method analyses)
  = combineAnalyses analyses.
Proof. reflexivity. Qed.

(** C6.  The flag of the batch is the disjunction of the flags of the
    analysed images.  One monochrome image is enough for the flag to be set
    and for every lattice point to go through the black & white branch,
    whatever the other images are; without a monochrome image the flag is
    clear and every lattice point goes through the colour branch. *)
Theorem batch_flag_is_disjunction (level : Z) (method : string)
        (analyses : list ImageAnalysis) :
  let ctx := lutContext level method analyses in
  ca_isBlackAndWhite (combinedAnalysis ctx)
  = existsb isBlackAndWhite analyses
  /\ ((exists a, In a analyses /\ isBlackAndWhite a = true) ->
      ca_isBlackAndWhite (combinedAnalysis ctx) = true
      /\ forall inputR inputG inputB,
           lutEntry ctx inputR inputG inputB
           = finalClamp (bwBranch ctx inputR inputG inputB))
  /\ ((forall a, In a analyses -> isBlackAndWhite a = false) ->
      ca_isBlackAndWhite (combinedAnalysis ctx) = false
      /\ forall inputR inputG inputB,
           lutEntry ctx inputR inputG inputB
           = finalClamp
               (colourBranch ctx
                  (rgbToGrayscale inputR inputG inputB "luminance")
                  inputR inputG inputB)).
Proof.
  intros ctx.
  assert (Hflag : ca_isBlackAndWhite (combinedAnalysis ctx)
                  = existsb isBlackAndWhite analyses).
  { unfold ctx. rewrite lutContext_combined.
    apply (proj1 (combineAnalyses_flag analyses)). }
  split; [exact Hflag | split].
  - intros Hex.
    assert (Htrue : ca_isBlackAndWhite (combinedAnalysis ctx) = true).
    { rewrite Hflag. now apply existsb_exists. }
    split; [exact Htrue |]. intros inputR inputG inputB.
    unfold lutEntry. now rewrite Htrue.
  - intros Hall.
    assert (Hfalse : ca_isBlackAndWhite (combinedAnalysis ctx) = false).
    { rewrite Hflag. apply not_true_is_false. intros Hex.
      apply existsb_exists in Hex. destruct Hex as (a & Hin & Ha).
      rewrite (Hall a Hin) in Ha. discriminate. }
    split; [exact Hfalse |]. intros inputR inputG inputB.
    unfold lutEntry. now rewrite Hfalse.
Qed.

(** ** Temperature and tint (C10) *)

Lemma add_zero_r (x : number) : (x + Num 0)%js = x.
Proof. destruct x; simpl; [reflexivity | now rewrite Rplus_0_r]. Qed.

Lemma sub_zero_r (x : number) : (x - Num 0)%js = x.
Proof. destruct x; simpl; [reflexivity | now rewrite Rminus_0_r]. Qed.

Lemma shifts_are_zero (level : Z) (method : string)
      (analyses : list ImageAnalysis) :
  temperatureShift (lutContext level method analyses) = Num 0
  /\ tintShift (lutContext level method analyses) = Num 0.
Proof.
  unfold lutContext. cbn [temperatureShift tintShift].
  rewrite (proj2 (combineAnalyses_flag analyses)).
  cbn [colorTemperature tint]. unfold ofZ. simpl.
  split; f_equal; lra.
Qed.

(** C10.  The global statistics carry colorTemperature = 0 and tint = 0,
    so both shifts are exactly 0 at every intensity level and the global
    adjustment step of the colour branch returns the running triplet it
    was given, at every lattice point. *)
Theorem temperature_tint_step_is_identity (level : Z) (method : string)
        (analyses : list ImageAnalysis) :
  let ctx := lutContext level method analyses in
  colorTemperature (globalStats (combinedAnalysis ctx)) = Num 0
  /\ tint (globalStats (combinedAnalysis ctx)) = Num 0
  /\ temperatureShift ctx = Num 0
  /\ tintShift ctx = Num 0
  /\ forall output : RGB, globalAdjustments ctx output = output.
Proof.
  intros ctx.
  destruct (shifts_are_zero level method analyses) as [Htemp Htint].
  fold ctx in Htemp, Htint.
  assert (Hstats : globalStats (combinedAnalysis ctx)
                   = mkGlobalStats 0.5 0.5 0 0).
  { unfold ctx. rewrite lutContext_combined.
    apply (proj2 (combineAnalyses_flag analyses)). }
  rewrite Hstats. repeat split; try assumption.
  intros [r g b]. unfold globalAdjustments. rewrite Htemp, Htint.
  cbn [rgb_r rgb_g rgb_b].
  now rewrite !add_zero_r, sub_zero_r.
Qed.

(** ** No NaN from a well-formed buffer *)

Lemma finite_add (a b : number) : finite a -> finite b -> finite (a + b)%js.
Proof. destruct a, b; simpl; tauto. Qed.

Lemma finite_sub (a b : number) : finite a -> finite b -> finite (a - b)%js.
Proof. destruct a, b; simpl; tauto. Qed.

Lemma finite_mul (a b : number) : finite a -> finite b -> finite (a * b)%js.
Proof. destruct a, b; simpl; tauto. Qed.

Lemma finite_div (a : number) (y : R) :
  finite a -> y <> 0 -> finite (a / Num y)%js.
Proof.
  destruct a; simpl; [tauto |]. intros _ Hy.
  destruct (Req_dec_T y 0); [contradiction | exact I].
Qed.

Lemma finite_max (a b : number) : finite a -> finite b -> finite (Math_max a b).
Proof. destruct a, b; simpl; tauto. Qed.

Lemma finite_min (a b : number) : finite a -> finite b -> finite (Math_min a b).
Proof. destruct a, b; simpl; tauto. Qed.

Lemma finite_literal (x : R) : finite (Num x).
Proof. exact I. Qed.

Create HintDb finite.

#[local] Hint Resolve finite_add finite_sub finite_mul finite_max finite_min
  finite_literal : finite.

Lemma finite_rgbToGrayscale (r g b : number) (method : string) :
  finite r -> finite g -> finite b -> finite (rgbToGrayscale r g b method).
Proof.
  intros Hr Hg Hb. unfold rgbToGrayscale.
  repeat match goal with
         | |- context [String.eqb ?a ?b] => destruct (String.eqb a b)
         end; auto 10 with finite.
  apply finite_div; [auto with finite | lra].
Qed.

Lemma finite_labCompand (t : number) : finite t -> finite (labCompand t).
Proof.
  destruct t as [| t]; [easy |]. intros _. unfold labCompand.
  destruct (Num t >? 0.008856)%js eqn:Ht.
  - apply gtb_true_iff in Ht.
    rewrite (div_Num 1 3) by lra. rewrite Math_pow_pos by lra. exact I.
  - apply finite_add; [auto with finite |]. apply finite_div; [exact I | lra].
Qed.

Lemma finite_rgbToLab (r g b : number) :
  finite r -> finite g -> finite b -> finiteLAB (rgbToLab r g b).
Proof.
  intros Hr Hg Hb. unfold rgbToLab, finiteLAB. cbn [lab_L lab_a lab_b].
  assert (Hx : finite (labCompand
            ((r * 0.4124564 + g * 0.3575761 + b * 0.1804375) / 0.95047)%js)).
  { apply finite_labCompand, finite_div; [auto 10 with finite | lra]. }
  assert (Hy : finite (labCompand
            ((r * 0.2126729 + g * 0.7151522 + b * 0.072175) / 1.0)%js)).
  { apply finite_labCompand, finite_div; [auto 10 with finite | lra]. }
  assert (Hz : finite (labCompand
            ((r * 0.0193339 + g * 0.119192 + b * 0.9503041) / 1.08883)%js)).
  { apply finite_labCompand, finite_div; [auto 10 with finite | lra]. }
  repeat split; auto 10 with finite.
Qed.

Lemma goodZone_push (zone : ZoneSamples) (r g b l : number) (c : LAB) :
  goodZone zone -> finite r -> finite g -> finite b -> finite l ->
  finiteLAB c -> goodZone (pushSample zone r g b l c).
Proof.
  intros (Hr & Hg & Hb & Hl & Hc & Lg & Lb & Ll & Lc) Fr Fg Fb Fl Fc.
  unfold goodZone, pushSample. cbn [zs_r zs_g zs_b zs_luminance zs_lab].
  rewrite !length_app, Lg, Lb, Ll, Lc.
  repeat split; try reflexivity; apply Forall_app; split; auto.
Qed.

Lemma finite_byteAt (data : ImageData) (i : nat) :
  (i < length data)%nat -> finite (byteAt data i).
Proof.
  intros Hi. unfold byteAt.
  destruct (nth_error data i) eqn:Hnth; [exact I |].
  apply nth_error_None in Hnth. lia.
Qed.

Lemma goodSamples_sampleAt (data : ImageData) (i : nat) (s : Samples) :
  (i + 2 < length data)%nat -> goodSamples s -> goodSamples (sampleAt data i s).
Proof.
  intros Hi (Hs & Hm & Hh). unfold sampleAt.
  assert (Fr : finite (byteAt data i / 255)%js)
    by (apply finite_div; [apply finite_byteAt; lia | lra]).
  assert (Fg : finite (byteAt data (i + 1) / 255)%js)
    by (apply finite_div; [apply finite_byteAt; lia | lra]).
  assert (Fb : finite (byteAt data (i + 2) / 255)%js)
    by (apply finite_div; [apply finite_byteAt; lia | lra]).
  pose proof (finite_rgbToGrayscale _ _ _ "luminance" Fr Fg Fb) as Fl.
  pose proof (finite_rgbToLab _ _ _ Fr Fg Fb) as Fc.
  destruct (_ <? 0.25)%js; [| destruct (_ <? 0.75)%js];
    unfold goodSamples; cbn [sm_shadows sm_midtones sm_highlights];
    (split; [| split]); try assumption; apply goodZone_push; assumption.
Qed.

Lemma goodSamples_samplePixels (data : ImageData) :
  wellFormed data -> goodSamples (samplePixels data).
Proof.
  intros Hwf. unfold samplePixels. rewrite forStride_fold
    by (unfold sampleRate; lia).
  apply fold_left_invariant.
  - repeat split; constructor.
  - intros k s Hin Hs. apply goodSamples_sampleAt; [| exact Hs].
    apply in_seq in Hin. destruct Hin as [_ Hk]. rewrite Nat.add_0_l in Hk.
    apply stride_turns in Hk; [| unfold sampleRate; lia].
    unfold wellFormed in Hwf. unfold sampleRate in *.
    pose proof (Nat.Div0.div_mod (length data) 4) as Hdm. lia.
Qed.

Lemma finite_reduceSum {A : Type} (f : A -> number) (xs : list A) :
  Forall (fun x => finite (f x)) xs -> finite (reduceSum f xs).
Proof.
  unfold reduceSum. intros Hxs.
  apply fold_left_invariant; [exact I |].
  intros a s Hin Hs. apply finite_add; [exact Hs |].
  rewrite Forall_forall in Hxs. now apply Hxs.
Qed.

Lemma finite_processZone (zone : ZoneSamples) (zs : ZoneStats) :
  goodZone zone -> processZone zone = Some zs ->
  finiteStats zs /\ (0 < count zs)%nat.
Proof.
  intros (Hr & Hg & Hb & Hl & Hc & Lg & Lb & Ll & Lc). unfold processZone.
  destruct (Nat.eqb_spec (length (zs_r zone)) 0) as [| Hne]; [discriminate |].
  intros [= <-]. cbn [count rgb luminance lab].
  rewrite Lg, Lb, Ll, Lc.
  assert (Hn : INR (length (zs_r zone)) <> 0) by (apply not_0_INR; exact Hne).
  split; [| lia].
  unfold finiteStats, finiteRGB, finiteLAB, ofNat.
  cbn [rgb_r rgb_g rgb_b avg lab_L lab_a lab_b].
  repeat split; apply finite_div; try exact Hn; apply finite_reduceSum;
    try assumption;
    (eapply Forall_impl; [| exact Hc]); intros c (HL & Ha & Hb'); assumption.
Qed.

(** The analysis of an RGBA buffer holds no NaN. *)
Lemma finite_analyzePixels (data : ImageData) :
  wellFormed data -> finiteAnalysis (analyzePixels data).
Proof.
  intros Hwf zone zs Hzs.
  destruct (goodSamples_samplePixels data Hwf) as (Hs & Hm & Hh).
  destruct zone; simpl in Hzs;
    eapply finite_processZone; try exact Hzs; assumption.
Qed.

Lemma finite_zeroZone : finiteZone zeroZone.
Proof. repeat split. Qed.

Lemma finite_addZone (ca : CombinedAnalysis) (a : ImageAnalysis) (z' : Zone) :
  finiteAnalysis a ->
  (forall z, finiteZone (combinedZone ca z)) ->
  forall z, finiteZone (combinedZone (addZone ca a z') z).
Proof.
  intros Ha Hca z. unfold addZone.
  destruct (zoneStats a z') as [zs |] eqn:Hzs; [| apply Hca].
  destruct (Nat.ltb 0 (count zs)); [| apply Hca].
  rewrite combinedZone_set. destruct (zone_eqb z z'); [| apply Hca].
  destruct (Hca z') as ((Hr & Hg & Hb) & Hl & (HL & Haa & Hbb) & Hw).
  destruct (Ha z' zs Hzs) as ((Zr & Zg & Zb) & Zl & (ZL & Za & Zbb)).
  unfold finiteZone, finiteRGB, finiteLAB, ofNat.
  cbn [cz_rgb cz_luminance cz_lab cz_weight rgb_r rgb_g rgb_b avg
       lab_L lab_a lab_b].
  repeat split; auto with finite.
Qed.

Lemma finite_normalizeZone (ca : CombinedAnalysis) (z' : Zone) :
  (forall z, finiteZone (combinedZone ca z)) ->
  forall z, finiteZone (combinedZone (normalizeZone ca z') z).
Proof.
  intros Hca z. unfold normalizeZone.
  destruct (cz_weight (combinedZone ca z') >? 0)%js eqn:Hw; [| apply Hca].
  rewrite combinedZone_set. destruct (zone_eqb z z'); [| apply Hca].
  destruct (Hca z') as ((Hr & Hg & Hb) & Hl & (HL & Haa & Hbb) & Hfw).
  destruct (cz_weight (combinedZone ca z')) as [| w]; [easy |].
  apply gtb_true_iff in Hw.
  unfold finiteZone, finiteRGB, finiteLAB.
  cbn [cz_rgb cz_luminance cz_lab cz_weight rgb_r rgb_g rgb_b avg
       lab_L lab_a lab_b].
  repeat split; try apply finite_div; auto; lra.
Qed.

(** The aggregate of analyses without NaN holds no NaN. *)
Lemma finite_combineAnalyses (analyses : list ImageAnalysis) :
  (forall a, In a analyses -> finiteAnalysis a) ->
  forall z, finiteZone (combinedZone (combineAnalyses analyses) z).
Proof.
  intros Hall. unfold combineAnalyses.
  apply (fold_left_invariant
           (fun ca => forall z, finiteZone (combinedZone ca z))).
  - unfold accumulate.
    apply (fold_left_invariant
             (fun ca => forall z, finiteZone (combinedZone ca z))).
    + intros []; apply finite_zeroZone.
    + intros a ca Hin Hca.
      apply (fold_left_invariant
               (fun ca => forall z, finiteZone (combinedZone ca z)));
        [exact Hca |].
      intros z' ca' _ Hca'. apply finite_addZone; [now apply Hall | exact Hca'].
  - intros z' ca _ Hca. now apply finite_normalizeZone.
Qed.

(** ** Transform solving (C8) *)

Lemma clamp_range (x lo hi : R) : lo <= hi -> lo <= clamp x lo hi <= hi.
Proof.
  intros Hle. unfold clamp, Rmin, Rmax.
  destruct (Rle_dec lo x); destruct (Rle_dec hi _); lra.
Qed.

(** One channel of [calculateTransform]. *)
Lemma gain_channel (level : Z) (target neutral : R) :
  neutral <> 0 ->
  (Math_min 3.0
     (Math_max 0.1
        ((Num target / Num neutral - 1)
         * (0.5 + (ofZ level - 1) * 0.25) + 1)))%js
  = Num (specGain level target neutral).
Proof.
  intros Hn. rewrite div_Num by exact Hn. reflexivity.
Qed.

Lemma calculateTransform_gains (level : Z) (tr tg tb nr ng nb : R) :
  nr <> 0 -> ng <> 0 -> nb <> 0 ->
  calculateTransform (ofZ level) (mkRGB nr ng nb) (mkRGB tr tg tb)
  = mkRGB (specGain level tr nr) (specGain level tg ng)
          (specGain level tb nb).
Proof.
  intros Hr Hg Hb. unfold calculateTransform. cbn [rgb_r rgb_g rgb_b].
  now rewrite !gain_channel by assumption.
Qed.

Lemma baseline_components (zone : Zone) :
  exists nr ng nb,
    baseline zone = mkRGB (Num nr) (Num ng) (Num nb)
    /\ nr <> 0 /\ ng <> 0 /\ nb <> 0.
Proof.
  destruct zone; simpl; do 3 eexists; (split; [reflexivity |]);
    repeat split; lra.
Qed.

Lemma zoneTransform_lutContext (level : Z) (method : string)
      (analyses : list ImageAnalysis) (zone : Zone) :
  zoneTransform (transforms (lutContext level method analyses)) zone
  = calculateTransform (ofZ level) (baseline zone)
      (cz_rgb (combinedZone (combineAnalyses analyses) zone)).
Proof. destruct zone; reflexivity. Qed.

Lemma finiteRGB_Num (c : RGB) :
  finiteRGB c -> exists r g b, c = mkRGB (Num r) (Num g) (Num b).
Proof.
  destruct c as [[| r] [| g] [| b]]; intros (Hr & Hg & Hb); try easy.
  now exists r, g, b.
Qed.

(** The shape and the range of the gains of a zone, for analyses without
    NaN. *)
Lemma zone_gains (level : Z) (method : string)
      (analyses : list ImageAnalysis) (zone : Zone) :
  (forall a, In a analyses -> finiteAnalysis a) ->
  exists tr tg tb nr ng nb,
    cz_rgb (combinedZone (combineAnalyses analyses) zone)
    = mkRGB (Num tr) (Num tg) (Num tb)
    /\ baseline zone = mkRGB (Num nr) (Num ng) (Num nb)
    /\ zoneTransform (transforms (lutContext level method analyses)) zone
       = mkRGB (Num (specGain level tr nr)) (Num (specGain level tg ng))
               (Num (specGain level tb nb))
    /\ 0.1 <= specGain level tr nr <= 3.0
    /\ 0.1 <= specGain level tg ng <= 3.0
    /\ 0.1 <= specGain level tb nb <= 3.0.
Proof.
  intros Hfin.
  destruct (finite_combineAnalyses analyses Hfin zone) as (Hrgb & _).
  destruct (finiteRGB_Num _ Hrgb) as (tr & tg & tb & Htarget).
  destruct (baseline_components zone) as (nr & ng & nb & Hbase & Hr & Hg & Hb).
  exists tr, tg, tb, nr, ng, nb.
  rewrite zoneTransform_lutContext, Htarget, Hbase.
  repeat split; try reflexivity;
    try (apply calculateTransform_gains; assumption);
    unfold specGain; apply clamp_range; lra.
Qed.

Lemma finite_analyses_of_images (images : list ImageData) :
  Forall wellFormed images ->
  forall a, In a (map analyzePixels images) -> finiteAnalysis a.
Proof.
  intros Hwf a Hin. apply in_map_iff in Hin.
  destruct Hin as (data & <- & Hdata).
  apply finite_analyzePixels. rewrite Forall_forall in Hwf. now apply Hwf.
Qed.

(** C8.  For every batch of RGBA buffers, every intensity level and every
    zone, each channel of the solved transform is
    clamp((target / neutral - 1) * baseIntensity + 1, 0.1, 3.0) with
    baseIntensity = 0.5 + (intensityLevel - 1) * 0.25, target the
    aggregated mean of the zone and neutral the baseline of the zone in the
    camera profile; every gain lies in [0.1, 3.0]. *)
Theorem gains_follow_formula_and_range (level : Z) (method : string)
        (images : list ImageData) (zone : Zone) :
  Forall wellFormed images ->
  let ctx := lutContext level method (map analyzePixels images) in
  exists tr tg tb nr ng nb,
    cz_rgb (combinedZone (combinedAnalysis ctx) zone)
    = mkRGB (Num tr) (Num tg) (Num tb)
    /\ baseline zone = mkRGB (Num nr) (Num ng) (Num nb)
    /\ zoneTransform (transforms ctx) zone
       = mkRGB (Num (specGain level tr nr)) (Num (specGain level tg ng))
               (Num (specGain level tb nb))
    /\ specBaseIntensity level = 0.5 + (IZR level - 1) * 0.25
    /\ 0.1 <= specGain level tr nr <= 3.0
    /\ 0.1 <= specGain level tg ng <= 3.0
    /\ 0.1 <= specGain level tb nb <= 3.0.
Proof.
  intros Hwf ctx.
  destruct (zone_gains level method (map analyzePixels images) zone
                       (finite_analyses_of_images images Hwf))
    as (tr & tg & tb & nr & ng & nb & Ht & Hn & Hz & Hr & Hg & Hb).
  exists tr, tg, tb, nr, ng, nb. unfold ctx. rewrite lutContext_combined.
  repeat split; try assumption; try reflexivity; lra.
Qed.

(** ** The run: skipped images and the empty batch (C9) *)

Section Run.

Variable toFixed : number -> nat -> string.
Variable toText : number -> string.

Lemma analyseOne_analyses (env : Environment) (total i : nat)
      (ls : LoopState) :
  ls_analyses (analyseOne toText env total i ls)
  = ls_analyses ls
    ++ match load env i with
       | Loaded data => [analyzePixels data]
       | _ => []
       end.
Proof.
  unfold analyseOne. destruct (load env i); simpl;
    now rewrite ?app_nil_r.
Qed.

Lemma loop_analyses (env : Environment) (total : nat) :
  forall n start ls,
    ls_analyses (fold_left (fun ls i => analyseOne toText env total i ls)
                           (seq start n) ls)
    = ls_analyses ls ++ successes env start n.
Proof.
  induction n as [| n IH]; intros start ls; simpl.
  - now rewrite app_nil_r.
  - rewrite IH, analyseOne_analyses, <- app_assoc.
    replace (Datatypes.S start) with (start + 1)%nat by lia.
    now destruct (load env start).
Qed.

(** The analyses a run collects are those of the images that loaded, in
    order: a rejected image is skipped and the loop goes on. *)
Lemma analysisLoop_analyses (env : Environment) (st : State) :
  ls_analyses (analysisLoop toText env st)
  = successes env 0 (length (referenceImages st)).
Proof.
  unfold analysisLoop. rewrite forLoop_fold. now rewrite loop_analyses.
Qed.

Lemma analyseOne_events (env : Environment) (total i : nat)
      (ls : LoopState) :
  Forall isImageError (ls_events ls) ->
  Forall isImageError (ls_events (analyseOne toText env total i ls)).
Proof.
  intros Hls. unfold analyseOne.
  destruct (analyzeImageAdvanced (load env i) i); simpl; [exact Hls |].
  apply Forall_app. split; [exact Hls |]. now repeat constructor.
Qed.

Lemma analysisLoop_events (env : Environment) (st : State) :
  Forall isImageError (ls_events (analysisLoop toText env st)).
Proof.
  unfold analysisLoop. rewrite forLoop_fold.
  apply (fold_left_invariant (fun ls => Forall isImageError (ls_events ls))).
  - constructor.
  - intros i ls _ Hls. now apply analyseOne_events.
Qed.

Lemma analysisLoop_state (env : Environment) (st : State) :
  sameButStep st (ls_state (analysisLoop toText env st)).
Proof.
  unfold analysisLoop. rewrite forLoop_fold.
  apply (fold_left_invariant (fun ls => sameButStep st (ls_state ls))).
  - now repeat split.
  - intros i ls _ Hls. unfold analyseOne.
    destruct (analyzeImageAdvanced (load env i) i); exact Hls.
Qed.

Lemma successes_nil (env : Environment) :
  forall n start,
    successes env start n = []
    <-> forall i, (start <= i < start + n)%nat ->
                  forall data, load env i <> Loaded data.
Proof.
  induction n as [| n IH]; intros start; simpl.
  - split; [intros _ i Hi; lia | reflexivity].
  - split.
    + intros Hnil i Hi data.
      destruct (Nat.eq_dec i start) as [-> | Hne].
      * destruct (load env start); discriminate.
      * assert (Hrest : successes env (start + 1) n = [])
          by (destruct (load env start); [discriminate | | | |]; exact Hnil).
        apply (proj1 (IH (start + 1)%nat) Hrest). lia.
    + intros Hall.
      assert (Hrest : successes env (start + 1) n = []).
      { apply IH. intros i Hi. apply Hall. lia. }
      destruct (load env start) as [data | | | |] eqn:Hload; try exact Hrest.
      exfalso. apply (Hall start ltac:(lia) data). exact Hload.
Qed.

(** What a run that collected no analysis does. *)
Lemma run_without_analysis (env : Environment) (st : State) :
  referenceImages st <> [] ->
  successes env 0 (length (referenceImages st)) = [] ->
  let result := generateAdvancedLUT toFixed toText env st in
  generatedLUT (fst result) = generatedLUT st
  /\ colorAnalysis (fst result) = colorAnalysis st
  /\ processingStep (fst result) = "Error occurred"%string
  /\ isProcessing (fst result) = false
  /\ In (Alert "Error generating LUT. Please try again.") (snd result).
Proof.
  intros Hne Hnil. unfold generateAdvancedLUT.
  destruct (Nat.eqb_spec (length (referenceImages st)) 0) as [H0 | _].
  { apply length_zero_iff_nil in H0. contradiction. }
  rewrite analysisLoop_analyses, Hnil. cbn [length Nat.eqb fst snd].
  destruct (analysisLoop_state env st) as (_ & Hlut & Hca & _).
  repeat split; try assumption.
  apply in_or_app. right. right. now left.
Qed.

(** What a run that collected an analysis does. *)
Lemma run_with_analysis (env : Environment) (st : State) :
  successes env 0 (length (referenceImages st)) <> [] ->
  let result := generateAdvancedLUT toFixed toText env st in
  let ctx := lutContext (st_intensityLevel st) (st_bwConversionMethod st)
                        (successes env 0 (length (referenceImages st))) in
  generatedLUT (fst result)
  = Some (cubeContent toText ctx (lutResolution st) (st_intensityLevel st)
                      (today env) (lutData toFixed ctx (lutResolution st)))
  /\ colorAnalysis (fst result) = Some (combinedAnalysis ctx)
  /\ st_isBlackAndWhite (fst result)
     = ca_isBlackAndWhite (combinedAnalysis ctx)
  /\ processingStep (fst result) = "Complete!"%string
  /\ isProcessing (fst result) = false
  /\ Forall isImageError (snd result).
Proof.
  intros Hsome. unfold generateAdvancedLUT.
  destruct (Nat.eqb_spec (length (referenceImages st)) 0) as [H0 | _].
  { rewrite H0 in Hsome. now contradiction Hsome. }
  rewrite analysisLoop_analyses.
  destruct (Nat.eqb_spec
              (length (successes env 0 (length (referenceImages st)))) 0)
    as [H0 | _].
  { apply length_zero_iff_nil in H0. contradiction. }
  cbn [fst snd]. repeat split. apply analysisLoop_events.
Qed.

End Run.

Section RunLog.

Variable toFixed : number -> nat -> string.
Variable toText : number -> string.

Lemma analyseOne_log (env : Environment) (total i : nat) (ls : LoopState) :
  ls_events (analyseOne toText env total i ls)
  = ls_events ls
    ++ match analyzeImageAdvanced (load env i) i with
       | inl _ => []
       | inr error => [ConsoleErrorImage (i + 1) error]
       end.
Proof.
  unfold analyseOne.
  destruct (analyzeImageAdvanced (load env i) i); cbn [ls_events];
    now rewrite ?app_nil_r.
Qed.

Lemma loop_log (env : Environment) (total : nat) :
  forall n start ls,
    ls_events (fold_left (fun ls i => analyseOne toText env total i ls)
                         (seq start n) ls)
    = ls_events ls ++ failures env start n.
Proof.
  induction n as [| n IH]; intros start ls; cbn [seq fold_left failures].
  - now rewrite app_nil_r.
  - rewrite IH, analyseOne_log.
    replace (Datatypes.S start) with (start + 1)%nat by lia.
    destruct (analyzeImageAdvanced (load env start) start);
      now rewrite <- app_assoc.
Qed.

Lemma analysisLoop_log (env : Environment) (st : State) :
  ls_events (analysisLoop toText env st)
  = failures env 0 (length (referenceImages st)).
Proof.
  unfold analysisLoop. rewrite forLoop_fold. now rewrite loop_log.
Qed.

Lemma analysisLoop_settings (env : Environment) (st : State) :
  sameSettings st (ls_state (analysisLoop toText env st)).
Proof.
  unfold analysisLoop. rewrite forLoop_fold.
  apply (fold_left_invariant (fun ls => sameSettings st (ls_state ls))).
  - now repeat split.
  - intros i ls _ Hls. unfold analyseOne.
    destruct (analyzeImageAdvanced (load env i) i); exact Hls.
Qed.

Lemma loaded_or_logged (env : Environment) :
  forall n start,
    (length (successes env start n) + length (failures env start n))%nat = n.
Proof.
  induction n as [| n IH]; intros start; cbn [successes failures];
    [reflexivity |].
  specialize (IH (start + 1)%nat).
  destruct (load env start); cbn [analyzeImageAdvanced length]; lia.
Qed.

Lemma run_log (env : Environment) (st : State) :
  referenceImages st <> [] ->
  snd (generateAdvancedLUT toFixed toText env st)
  = failures env 0 (length (referenceImages st))
    ++ match successes env 0 (length (referenceImages st)) with
       | [] => [ConsoleErrorRun;
                Alert "Error generating LUT. Please try again."]
       | _ :: _ => []
       end.
Proof.
  intros Hne. unfold generateAdvancedLUT.
  destruct (Nat.eqb_spec (length (referenceImages st)) 0) as [H0 | _].
  { apply length_zero_iff_nil in H0. contradiction. }
  rewrite analysisLoop_analyses, analysisLoop_log.
  destruct (successes env 0 (length (referenceImages st)));
    cbn [length Nat.eqb snd]; [reflexivity | now rewrite app_nil_r].
Qed.

Lemma run_settings (env : Environment) (st : State) :
  sameSettings st (fst (generateAdvancedLUT toFixed toText env st)).
Proof.
  unfold generateAdvancedLUT.
  destruct (Nat.eqb (length (referenceImages st)) 0);
    [now repeat split |].
  pose proof (analysisLoop_settings env st) as Hs.
  destruct (Nat.eqb (length (ls_analyses (analysisLoop toText env st))) 0);
    exact Hs.
Qed.

Lemma run_ends_idle (env : Environment) (st : State) :
  referenceImages st <> [] ->
  isProcessing (fst (generateAdvancedLUT toFixed toText env st)) = false.
Proof.
  intros Hne. unfold generateAdvancedLUT.
  destruct (Nat.eqb_spec (length (referenceImages st)) 0) as [H0 | _].
  { apply length_zero_iff_nil in H0. contradiction. }
  destruct (Nat.eqb (length (ls_analyses (analysisLoop toText env st))) 0);
    reflexivity.
Qed.

End RunLog.

Lemma cubeContent_is_not_empty (toText : number -> string) (ctx : LutContext)
      (lutSize : nat) (level : Z) (timestamp : string)
      (lines : list string) :
  String.eqb (cubeContent toText ctx lutSize level timestamp lines)
             EmptyString = false.
Proof. reflexivity. Qed.

Lemma download_of_stored (toText : number -> string) (env : Environment)
      (st : State) (lut : string) :
  generatedLUT st = Some lut -> String.eqb lut EmptyString = false ->
  downloadLUT toText env st
  = Some (mkDownload
            (downloadName toText (st_isBlackAndWhite st)
                          (st_intensityLevel st) (lutResolution st)
                          (today env))
            lut).
Proof.
  intros Hlut Hne. unfold downloadLUT. now rewrite Hlut, Hne.
Qed.

Lemma successes_In (env : Environment) :
  forall n start i data,
    (start <= i < start + n)%nat -> load env i = Loaded data ->
    In (analyzePixels data) (successes env start n).
Proof.
  induction n as [| n IH]; intros start i data Hi Hload; [lia |].
  cbn [successes].
  destruct (Nat.eq_dec i start) as [-> | Hne].
  - rewrite Hload. now left.
  - assert (Hrest : In (analyzePixels data) (successes env (start + 1) n))
      by (apply (IH (start + 1)%nat i data); [lia | exact Hload]).
    destruct (load env start); try exact Hrest. now right.
Qed.

Lemma failures_In (env : Environment) :
  forall n start i,
    (start <= i < start + n)%nat ->
    (forall data, load env i <> Loaded data) ->
    exists error,
      analyzeImageAdvanced (load env i) i = inr error
      /\ In (ConsoleErrorImage (i + 1) error) (failures env start n).
Proof.
  induction n as [| n IH]; intros start i Hi Hload; [lia |].
  cbn [failures].
  destruct (Nat.eq_dec i start) as [-> | Hne].
  - destruct (load env start) as [data | | | |] eqn:Hl;
      [now contradiction (Hload data) | | | |];
      cbn [analyzeImageAdvanced]; eexists; (split; [reflexivity | now left]).
  - destruct (IH (start + 1)%nat i ltac:(lia) Hload) as (error & He & Hin).
    exists error. split; [exact He |].
    destruct (analyzeImageAdvanced (load env start) start);
      [exact Hin | now right].
Qed.

(** C9.  On a non-empty batch an image whose loading fails or times out is
    skipped, it alone, and the loop goes on: the run collects the analyses
    of exactly the images that loaded, in order (an image that loaded is
    analysed wherever it stands, also after a failed one), and logs one
    error per image that did not, with the number of the image.  The run
    aborts if and only if no image was analysed: then, and only then, the
    error of the run and the alert follow the errors of the images, the
    step is "Error occurred" and the run stores nothing (LUT, analysis
    and flag are as before the run, and so is what can be downloaded).
    Otherwise the run stores the file computed from the analysed images,
    a text that is not empty, and the step is "Complete!".  On a component
    without a stored LUT, there is a LUT after the run exactly when an
    image was analysed. *)
Theorem failed_images_are_skipped (toFixed : number -> nat -> string)
        (toText : number -> string) (env later : Environment) (st : State) :
  referenceImages st <> [] ->
  let total := length (referenceImages st) in
  let result := generateAdvancedLUT toFixed toText env st in
  let analyses := successes env 0 total in
  let ctx := lutContext (st_intensityLevel st) (st_bwConversionMethod st)
                        analyses in
  let cube := cubeContent toText ctx (lutResolution st)
                          (st_intensityLevel st) (today env)
                          (lutData toFixed ctx (lutResolution st)) in
  let abort := [ConsoleErrorRun;
                Alert "Error generating LUT. Please try again."] in
  ls_analyses (analysisLoop toText env st) = analyses
  /\ (forall i data, (i < total)%nat -> load env i = Loaded data ->
                     In (analyzePixels data) analyses)
  /\ (forall i, (i < total)%nat -> (forall data, load env i <> Loaded data) ->
                exists error,
                  analyzeImageAdvanced (load env i) i = inr error
                  /\ In (ConsoleErrorImage (i + 1) error) (snd result))
  /\ (length analyses + length (failures env 0 total))%nat = total
  /\ snd result
     = failures env 0 total
       ++ match analyses with
          | [] => abort
          | _ :: _ => []
          end
  /\ (analyses = []
      <-> forall i, (i < total)%nat -> forall data, load env i <> Loaded data)
  /\ (In (Alert "Error generating LUT. Please try again.") (snd result)
      <-> analyses = [])
  /\ (analyses = [] ->
      generatedLUT (fst result) = generatedLUT st
      /\ colorAnalysis (fst result) = colorAnalysis st
      /\ st_isBlackAndWhite (fst result) = st_isBlackAndWhite st
      /\ processingStep (fst result) = "Error occurred"%string
      /\ downloadLUT toText later (fst result) = downloadLUT toText later st)
  /\ (analyses <> [] ->
      generatedLUT (fst result) = Some cube
      /\ cube <> EmptyString
      /\ colorAnalysis (fst result) = Some (combinedAnalysis ctx)
      /\ processingStep (fst result) = "Complete!"%string
      /\ downloadLUT toText later (fst result)
         = Some (mkDownload
                   (downloadName toText (existsb isBlackAndWhite analyses)
                                 (st_intensityLevel st) (lutResolution st)
                                 (today later))
                   cube))
  /\ (generatedLUT st = None ->
      (generatedLUT (fst result) = None <-> analyses = [])).
Proof.
  intros Hne total result analyses ctx cube abort.
  assert (Hlog : snd result
                 = failures env 0 total
                   ++ match analyses with
                      | [] => abort
                      | _ :: _ => []
                      end)
    by (apply run_log; exact Hne).
  assert (Hnonempty : cube <> EmptyString).
  { intros Hempty.
    pose proof (cubeContent_is_not_empty toText ctx (lutResolution st)
                  (st_intensityLevel st) (today env)
                  (lutData toFixed ctx (lutResolution st))) as Hc.
    fold cube in Hc. rewrite Hempty in Hc. discriminate. }
  assert (Halert : In (Alert "Error generating LUT. Please try again.")
                      (snd result) <-> analyses = []).
  { rewrite Hlog. split.
    - intros Hin. destruct analyses as [| a l]; [reflexivity |].
      exfalso. rewrite app_nil_r in Hin.
      pose proof (analysisLoop_events toText env st) as Hev.
      rewrite analysisLoop_log in Hev. rewrite Forall_forall in Hev.
      exact (Hev _ Hin).
    - intros ->. apply in_or_app. right. right. now left. }
  assert (Hfail : analyses = [] ->
            generatedLUT (fst result) = generatedLUT st
            /\ colorAnalysis (fst result) = colorAnalysis st
            /\ st_isBlackAndWhite (fst result) = st_isBlackAndWhite st
            /\ processingStep (fst result) = "Error occurred"%string
            /\ downloadLUT toText later (fst result)
               = downloadLUT toText later st).
  { intros Hnil.
    destruct (run_without_analysis toFixed toText env st Hne Hnil)
      as (Hlut & Hca & Hstep & _).
    destruct (run_settings toFixed toText env st)
      as (_ & _ & Hlevel & _ & Hres).
    fold result in Hlut, Hca, Hstep, Hlevel, Hres.
    assert (Hbw : st_isBlackAndWhite (fst result) = st_isBlackAndWhite st).
    { unfold result, generateAdvancedLUT.
      destruct (Nat.eqb (length (referenceImages st)) 0); [reflexivity |].
      rewrite analysisLoop_analyses. fold total. fold analyses.
      rewrite Hnil. cbn [length Nat.eqb fst].
      apply (analysisLoop_state toText env st). }
    repeat (split; [assumption |]).
    unfold downloadLUT. now rewrite Hlut, Hbw, Hlevel, Hres. }
  assert (Hok : analyses <> [] ->
            generatedLUT (fst result) = Some cube
            /\ cube <> EmptyString
            /\ colorAnalysis (fst result) = Some (combinedAnalysis ctx)
            /\ processingStep (fst result) = "Complete!"%string
            /\ downloadLUT toText later (fst result)
               = Some (mkDownload
                         (downloadName toText
                            (existsb isBlackAndWhite analyses)
                            (st_intensityLevel st) (lutResolution st)
                            (today later))
                         cube)).
  { intros Hsome.
    destruct (run_with_analysis toFixed toText env st Hsome)
      as (Hlut & Hca & Hflag & Hstep & _).
    destruct (run_settings toFixed toText env st)
      as (_ & _ & Hlevel & _ & Hres).
    fold result in Hlut, Hca, Hflag, Hstep, Hlevel, Hres.
    fold total in Hlut, Hca, Hflag. fold analyses in Hlut, Hca, Hflag.
    fold ctx in Hlut, Hca, Hflag. fold cube in Hlut.
    repeat (split; [assumption |]).
    rewrite (download_of_stored toText later (fst result) cube Hlut
               (cubeContent_is_not_empty _ _ _ _ _ _)).
    rewrite Hflag, Hlevel, Hres. unfold ctx. rewrite lutContext_combined.
    now rewrite (proj1 (combineAnalyses_flag analyses)). }
  split; [apply analysisLoop_analyses |].
  split.
  { intros i data Hi Hload.
    apply (successes_In env total 0 i data); [lia | exact Hload]. }
  split.
  { intros i Hi Hload.
    destruct (failures_In env total 0 i ltac:(lia) Hload)
      as (error & He & Hin).
    exists error. split; [exact He |].
    rewrite Hlog. apply in_or_app. now left. }
  split; [apply loaded_or_logged |].
  split; [exact Hlog |].
  split.
  { unfold analyses. rewrite successes_nil.
    split; intros H i Hi; apply H; lia. }
  split; [exact Halert |].
  split; [exact Hfail |].
  split; [exact Hok |].
  intros Hnone. split.
  - intros Hafter.
    destruct analyses as [| a l] eqn:Ha; [reflexivity |].
    exfalso.
    assert (Hsome : a :: l <> []) by discriminate.
    destruct (Hok Hsome) as (Hlut & _). congruence.
  - intros Hnil. destruct (Hfail Hnil) as (Hlut & _). congruence.
Qed.

(** ** The black & white branch stays in the unit interval *)

Lemma unit_clamp (x : number) :
  finite x -> inUnit (Math_max 0 (Math_min 1 x)).
Proof.
  destruct x as [| v]; [easy |]. intros _. simpl.
  unfold Rmax, Rmin. destruct (Rle_dec 1 v); destruct (Rle_dec 0 _); lra.
Qed.

Lemma unit_clamp_id (x : number) :
  inUnit x -> Math_max 0 (Math_min 1 x) = x.
Proof.
  destruct x as [| v]; [easy |]. simpl. intros Hv. f_equal.
  unfold Rmax, Rmin. destruct (Rle_dec 1 v); destruct (Rle_dec 0 _); lra.
Qed.

Lemma inUnit_finite (x : number) : inUnit x -> finite x.
Proof. destruct x; easy. Qed.

Lemma finite_bwBlend (weight : number) (zone : CombinedZone)
      (e : R) (k m : number) :
  finite weight -> finite (avg (cz_luminance zone)) -> e <> 0 ->
  finite k -> finite m -> finite (bwBlend weight zone (Num e) k m).
Proof.
  intros Hw Hz He Hk Hm. unfold bwBlend.
  destruct weight as [| w]; [easy |].
  destruct (Num w >? 0)%js eqn:Hpos; cbn [andb objectIsTruthy];
    [| exact Hm].
  apply gtb_true_iff in Hpos. rewrite Math_pow_pos by assumption.
  auto 10 with finite.
Qed.

(** With the flag set and no NaN in the aggregate, a lattice point is
    mapped to a grey triplet in the unit interval. *)
Lemma bw_entry_is_grey (ctx : LutContext) (inputR inputG inputB : number) :
  ca_isBlackAndWhite (combinedAnalysis ctx) = true ->
  (forall z, finiteZone (combinedZone (combinedAnalysis ctx) z)) ->
  finite (intensityLevel ctx) ->
  finite inputR -> finite inputG -> finite inputB ->
  exists v, lutEntry ctx inputR inputG inputB = mkRGB (Num v) (Num v) (Num v)
            /\ 0 <= v <= 1.
Proof.
  intros Hbw Hzones Hlevel Hr Hg Hb. unfold lutEntry. rewrite Hbw.
  unfold bwBranch.
  set (grayscale := rgbToGrayscale inputR inputG inputB
                                   (bwConversionMethod ctx)).
  assert (Hgray : finite grayscale)
    by now apply finite_rgbToGrayscale.
  assert (Hsw : finite (bwShadowWeight grayscale)).
  { unfold bwShadowWeight. apply inUnit_finite, unit_clamp.
    apply finite_div; [auto with finite | lra]. }
  assert (Hhw : finite (bwHighlightWeight grayscale)).
  { unfold bwHighlightWeight. apply inUnit_finite, unit_clamp.
    apply finite_div; [auto with finite | lra]. }
  assert (Hmw : finite (midtoneWeightOf (bwShadowWeight grayscale)
                                        (bwHighlightWeight grayscale))).
  { unfold midtoneWeightOf. auto 10 with finite. }
  destruct (Hzones Shadows) as (_ & Hls & _).
  destruct (Hzones Midtones) as (_ & Hlm & _).
  destruct (Hzones Highlights) as (_ & Hlh & _).
  cbn [combinedZone] in Hls, Hlm, Hlh.
  set (mapped :=
         bwBlend (bwHighlightWeight grayscale)
           (ca_highlights (combinedAnalysis ctx)) 0.8
           (intensityLevel ctx * 0.2)%js
           (bwBlend (midtoneWeightOf (bwShadowWeight grayscale)
                                     (bwHighlightWeight grayscale))
              (ca_midtones (combinedAnalysis ctx)) 0.6
              (intensityLevel ctx * 0.2)%js
              (bwBlend (bwShadowWeight grayscale)
                 (ca_shadows (combinedAnalysis ctx)) 0.8
                 (intensityLevel ctx * 0.2)%js grayscale))).
  assert (Hmapped : finite mapped).
  { unfold mapped.
    repeat (apply finite_bwBlend; try assumption; try lra;
            auto with finite). }
  pose proof (unit_clamp mapped Hmapped) as Hunit.
  unfold finalClamp. cbn [rgb_r rgb_g rgb_b].
  rewrite (unit_clamp_id _ Hunit).
  destruct (Math_max 0 (Math_min 1 mapped)) as [| v]; [easy |].
  exists v. split; [reflexivity | exact Hunit].
Qed.

(** ** Flat images *)

Lemma In_every {A : Type} (period : nat) (l : list A) :
  forall countdown x, In x (every period countdown l) -> In x l.
Proof.
  induction l as [| y l IH]; intros [| c] x Hin; simpl in *; try easy.
  - destruct Hin as [-> | Hin]; [now left | right; eauto].
  - right. eauto.
Qed.

Lemma wellFormed_pixelBytes (pixels : list Pixel) :
  wellFormed (pixelBytes pixels).
Proof.
  unfold wellFormed. rewrite length_pixelBytes, Nat.mul_comm.
  apply Nat.Div0.mod_mul.
Qed.

Lemma specColourful_grey (k a : Z) : specColourful (mkPixel k k k a) = false.
Proof.
  unfold specColourful. cbn [px_r px_g px_b]. now rewrite Z.sub_diag.
Qed.

Lemma filter_none {A : Type} (f : A -> bool) (l : list A) :
  (forall x, In x l -> f x = false) -> filter f l = [].
Proof.
  induction l as [| x l IH]; intros Hf; simpl; [reflexivity |].
  rewrite Hf by now left. apply IH. intros y Hy. apply Hf. now right.
Qed.

(** How a flat image is classified: black & white when its colour is not
    colourful, colour otherwise. *)
Lemma detect_flat (p : Pixel) (n : nat) :
  (0 < n)%nat ->
  detectBlackAndWhite (pixelBytes (repeat p n)) = negb (specColourful p).
Proof.
  intros Hn.
  assert (Hne : repeat p n <> []) by (destruct n; [lia | discriminate]).
  rewrite detectBlackAndWhite_pixels by exact Hne.
  unfold specIsBlackAndWhite.
  assert (Hs : (0 < length (specSampled (repeat p n)))%nat).
  { unfold specSampled. rewrite length_every_10, repeat_length.
    apply stride_turns; lia. }
  rewrite spec_threshold by exact Hs.
  unfold specColourfulCount.
  assert (Hall : forall x, In x (specSampled (repeat p n)) -> x = p).
  { intros x Hin. apply In_every in Hin. now apply repeat_spec in Hin. }
  destruct (specColourful p) eqn:Hp; cbn [negb].
  - assert (Hf : filter specColourful (specSampled (repeat p n))
                 = specSampled (repeat p n)).
    { apply forallb_filter_id. apply forallb_forall. intros x Hin.
      now rewrite (Hall x Hin). }
    rewrite Hf. apply Nat.ltb_ge. lia.
  - assert (Hf : filter specColourful (specSampled (repeat p n)) = []).
    { apply filter_none. intros x Hin. now rewrite (Hall x Hin). }
    rewrite Hf. apply Nat.ltb_lt. simpl. exact Hs.
Qed.

(** ** The colour branch on numbers *)

Lemma rgbToGrayscale_luminance (r g b : R) :
  rgbToGrayscale (Num r) (Num g) (Num b) "luminance"
  = Num (0.299 * r + 0.587 * g + 0.114 * b).
Proof. reflexivity. Qed.

Lemma colourShadowWeight_Num (l : R) :
  colourShadowWeight (Num l) = Num (Rmax 0 (Rmin 1 ((0.35 - l) / 0.35))).
Proof.
  unfold colourShadowWeight. cbn [sub]. now rewrite div_Num by lra.
Qed.

Lemma colourHighlightWeight_Num (l : R) :
  colourHighlightWeight (Num l) = Num (Rmax 0 (Rmin 1 ((l - 0.65) / 0.35))).
Proof.
  unfold colourHighlightWeight. cbn [sub]. now rewrite div_Num by lra.
Qed.

Lemma midtoneWeightOf_Num (s h : R) :
  midtoneWeightOf (Num s) (Num h) = Num (Rmax 0 (1 - s - h)).
Proof. reflexivity. Qed.

Section ColourSteps.

Variable ctx : LutContext.
Variable L : R.
Hypothesis level_is : intensityLevel ctx = Num L.

(** A step whose weight is not positive returns the running triplet. *)
Lemma shadowStep_skip (w : R) (input output : RGB) :
  w <= 0 -> shadowStep ctx (Num w) input output = output.
Proof.
  intros Hw. unfold shadowStep.
  now rewrite (proj2 (gtb_false_iff w 0) Hw).
Qed.

Lemma midtoneStep_skip (w : R) (input output : RGB) :
  w <= 0 -> midtoneStep ctx (Num w) input output = output.
Proof.
  intros Hw. unfold midtoneStep.
  now rewrite (proj2 (gtb_false_iff w 0) Hw).
Qed.

Lemma highlightStep_skip (w : R) (input output : RGB) :
  w <= 0 -> highlightStep ctx (Num w) input output = output.
Proof.
  intros Hw. unfold highlightStep.
  now rewrite (proj2 (gtb_false_iff w 0) Hw).
Qed.

(** A step whose weight is positive blends, whatever the weight of the
    zone in the aggregate. *)
Lemma shadowStep_blend (w gr gg gb mr mg mb iR iG iB oR oG oB : R) :
  0 < w ->
  tr_shadows (transforms ctx) = mkRGB (Num gr) (Num gg) (Num gb) ->
  cz_rgb (ca_shadows (combinedAnalysis ctx))
  = mkRGB (Num mr) (Num mg) (Num mb) ->
  shadowStep ctx (Num w) (mkRGB iR iG iB) (mkRGB oR oG oB)
  = mkRGB
      (Num (oR * (1 - Rpower w 0.7 * (L * 0.15))
            + (iR * gr * 0.8 + mr * 0.2) * (Rpower w 0.7 * (L * 0.15))))
      (Num (oG * (1 - Rpower w 0.7 * (L * 0.15))
            + (iG * gg * 0.8 + mg * 0.2) * (Rpower w 0.7 * (L * 0.15))))
      (Num (oB * (1 - Rpower w 0.7 * (L * 0.15))
            + (iB * gb * 0.8 + mb * 0.2) * (Rpower w 0.7 * (L * 0.15)))).
Proof.
  intros Hw Htr Hmean. unfold shadowStep.
  rewrite (proj2 (gtb_true_iff w 0) Hw), Htr, Hmean, level_is.
  rewrite Math_pow_pos by lra. reflexivity.
Qed.

Lemma midtoneStep_blend (w gr gg gb iR iG iB oR oG oB : R) :
  0 < w ->
  tr_midtones (transforms ctx) = mkRGB (Num gr) (Num gg) (Num gb) ->
  midtoneStep ctx (Num w) (mkRGB iR iG iB) (mkRGB oR oG oB)
  = mkRGB
      (Num (oR * (1 - Rpower w 0.5 * (L * 0.15))
            + iR * gr * (Rpower w 0.5 * (L * 0.15))))
      (Num (oG * (1 - Rpower w 0.5 * (L * 0.15))
            + iG * gg * (Rpower w 0.5 * (L * 0.15))))
      (Num (oB * (1 - Rpower w 0.5 * (L * 0.15))
            + iB * gb * (Rpower w 0.5 * (L * 0.15)))).
Proof.
  intros Hw Htr. unfold midtoneStep.
  rewrite (proj2 (gtb_true_iff w 0) Hw), Htr, level_is.
  rewrite Math_pow_pos by lra. reflexivity.
Qed.

Lemma highlightStep_blend (w gr gg gb mr mg mb iR iG iB oR oG oB : R) :
  0 < w ->
  tr_highlights (transforms ctx) = mkRGB (Num gr) (Num gg) (Num gb) ->
  cz_rgb (ca_highlights (combinedAnalysis ctx))
  = mkRGB (Num mr) (Num mg) (Num mb) ->
  highlightStep ctx (Num w) (mkRGB iR iG iB) (mkRGB oR oG oB)
  = mkRGB
      (Num (oR * (1 - Rpower w 0.7 * (L * 0.15))
            + (iR * gr * 0.9 + mr * 0.1) * (Rpower w 0.7 * (L * 0.15))))
      (Num (oG * (1 - Rpower w 0.7 * (L * 0.15))
            + (iG * gg * 0.9 + mg * 0.1) * (Rpower w 0.7 * (L * 0.15))))
      (Num (oB * (1 - Rpower w 0.7 * (L * 0.15))
            + (iB * gb * 0.9 + mb * 0.1) * (Rpower w 0.7 * (L * 0.15)))).
Proof.
  intros Hw Htr Hmean. unfold highlightStep.
  rewrite (proj2 (gtb_true_iff w 0) Hw), Htr, Hmean, level_is.
  rewrite Math_pow_pos by lra. reflexivity.
Qed.

Lemma applyColourMatrix_Num (r g b : R) :
  applyColourMatrix (mkRGB r g b)
  = mkRGB (Num (r * 1.0 + g * 0.0 + b * 0.0))
          (Num (r * 0.0 + g * 1.0 + b * 0.0))
          (Num (r * 0.0 + g * 0.0 + b * 1.0)).
Proof. reflexivity. Qed.

Lemma saturate_Num (sb r g b : R) :
  saturationBoost ctx = Num sb ->
  saturate ctx (mkRGB r g b)
  = mkRGB
      (Num (0.299 * r + 0.587 * g + 0.114 * b
            + (r - (0.299 * r + 0.587 * g + 0.114 * b)) * sb))
      (Num (0.299 * r + 0.587 * g + 0.114 * b
            + (g - (0.299 * r + 0.587 * g + 0.114 * b)) * sb))
      (Num (0.299 * r + 0.587 * g + 0.114 * b
            + (b - (0.299 * r + 0.587 * g + 0.114 * b)) * sb)).
Proof.
  intros Hsb. unfold saturate. rewrite Hsb. reflexivity.
Qed.

End ColourSteps.

(** The S-curve raises a negative value, doubled, to the power
    [strength]: NaN when the strength is not an integer. *)
Lemma applySCurve_negative (v strength : R) (z : Z) :
  v < 0 -> IZR z < strength < IZR (z + 1) ->
  applySCurve (Num v) (Num strength) = NaN.
Proof.
  intros Hv Hs. unfold applySCurve.
  rewrite (proj2 (ltb_true_iff v 0.5)) by lra.
  cbn [mul]. rewrite (Math_pow_negative_base (v * 2) strength z) by
    (try assumption; lra).
  reflexivity.
Qed.

(** ** The colour branch at pure red (C7) *)

(** The weights of the lattice point (1, 0, 0): luminance 0.299, in the
    shadow ramp and in the midtones, outside the highlights. *)
Lemma red_weights :
  exists ws wm,
    colourShadowWeight (rgbToGrayscale 1 0 0 "luminance") = Num ws
    /\ colourHighlightWeight (rgbToGrayscale 1 0 0 "luminance") = Num 0
    /\ midtoneWeightOf (Num ws) (Num 0) = Num wm
    /\ 0 < ws <= 1 /\ 0 < wm <= 1.
Proof.
  assert (Hs : Rmax 0 (Rmin 1 ((0.35 - (0.299 * 1 + 0.587 * 0 + 0.114 * 0))
                               / 0.35)) = 0.051 / 0.35).
  { unfold Rmax, Rmin.
    destruct (Rle_dec 1 _); destruct (Rle_dec 0 _); lra. }
  assert (Hh : Rmax 0 (Rmin 1 ((0.299 * 1 + 0.587 * 0 + 0.114 * 0 - 0.65)
                               / 0.35)) = 0).
  { unfold Rmax, Rmin.
    destruct (Rle_dec 1 _); destruct (Rle_dec 0 _); lra. }
  exists (0.051 / 0.35), (Rmax 0 (1 - 0.051 / 0.35 - 0)).
  rewrite rgbToGrayscale_luminance, colourShadowWeight_Num,
    colourHighlightWeight_Num, midtoneWeightOf_Num, Hs, Hh.
  repeat split; try lra; unfold Rmax; destruct (Rle_dec 0 _); lra.
Qed.

(** In the colour branch, with an empty shadow zone, the lattice point
    (1, 0, 0) keeps green at 0 through the three blends, the saturation
    step pushes it below 0, the S-curve turns it into NaN and the final
    clamp lets NaN through. *)
Lemma red_entry_green_is_NaN (ctx : LutContext)
      (L gsr gsg gsb gmr gmg gmb : R) :
  ca_isBlackAndWhite (combinedAnalysis ctx) = false ->
  cz_rgb (ca_shadows (combinedAnalysis ctx)) = mkRGB 0 0 0 ->
  tr_shadows (transforms ctx) = mkRGB (Num gsr) (Num gsg) (Num gsb) ->
  tr_midtones (transforms ctx) = mkRGB (Num gmr) (Num gmg) (Num gmb) ->
  0 < gsr -> 0 < gmr ->
  intensityLevel ctx = Num L -> 1 <= L <= 5 ->
  contrastBoost ctx = Num (1 + (0.5 - 0.3) * (L * 0.3)) ->
  saturationBoost ctx = Num (1 + (0.5 - 0.4) * (L * 0.4)) ->
  temperatureShift ctx = Num 0 -> tintShift ctx = Num 0 ->
  rgb_g (lutEntry ctx 1 0 0) = NaN.
Proof.
  intros Hbw Hmean Hts Htm Hgs Hgm Hlevel HL Hcb Hsb Htemp Htint.
  unfold lutEntry. rewrite Hbw. unfold colourBranch.
  destruct red_weights as (ws & wm & -> & -> & -> & Hws & Hwm).
  rewrite (shadowStep_blend ctx L Hlevel ws gsr gsg gsb 0 0 0) by
    (try assumption; lra).
  rewrite (midtoneStep_blend ctx L Hlevel wm gmr gmg gmb) by
    (try assumption; lra).
  rewrite highlightStep_skip by lra.
  rewrite applyColourMatrix_Num.
  unfold globalAdjustments. rewrite Htemp, Htint.
  cbn [rgb_r rgb_g rgb_b add sub].
  rewrite (saturate_Num ctx _ _ _ _ Hsb).
  unfold contrastStep. rewrite Hcb.
  rewrite strict_neq_Num by lra.
  unfold finalClamp. cbn [rgb_r rgb_g rgb_b].
  pose proof (Rpower_pos ws 0.7) as Hp1.
  pose proof (Rpower_le_one ws 0.7 Hws ltac:(lra)) as Hq1.
  pose proof (Rpower_pos wm 0.5) as Hp2.
  pose proof (Rpower_le_one wm 0.5 Hwm ltac:(lra)) as Hq2.
  set (f1 := Rpower ws 0.7 * (L * 0.15)) in *.
  set (f2 := Rpower wm 0.5 * (L * 0.15)) in *.
  assert (Hf1 : 0 < f1 <= 0.75) by (unfold f1; nra).
  assert (Hf2 : 0 < f2 <= 0.75) by (unfold f2; nra).
  clearbody f1 f2.
  set (o1 := 1 * (1 - f1) + (1 * gsr * 0.8 + 0 * 0.2) * f1).
  assert (Ho1 : 0 < o1) by (unfold o1; nra).
  clearbody o1.
  set (o2 := o1 * (1 - f2) + 1 * gmr * f2).
  assert (Ho2 : 0 < o2) by (unfold o2; nra).
  clearbody o2.
  rewrite (applySCurve_negative _ _ 1); [reflexivity | nra | simpl; lra].
Qed.

(** The scalars of the context. *)
Lemma context_scalars (level : Z) (method : string)
      (analyses : list ImageAnalysis) :
  let ctx := lutContext level method analyses in
  intensityLevel ctx = Num (IZR level)
  /\ contrastBoost ctx = Num (1 + (0.5 - 0.3) * (IZR level * 0.3))
  /\ saturationBoost ctx = Num (1 + (0.5 - 0.4) * (IZR level * 0.4)).
Proof.
  unfold lutContext. cbn [intensityLevel contrastBoost saturationBoost].
  rewrite (proj2 (combineAnalyses_flag analyses)).
  repeat split; reflexivity.
Qed.

(** A colour batch in which no image has a shadow sample: the green
    channel of the lattice point (1, 0, 0) is NaN at every intensity level
    of the slider. *)
Lemma colour_batch_red_entry (level : Z) (method : string)
      (analyses : list ImageAnalysis) :
  (1 <= level <= 5)%Z ->
  (forall a, In a analyses -> finiteAnalysis a) ->
  existsb isBlackAndWhite analyses = false ->
  zoneEmptyIn Shadows analyses ->
  rgb_g (lutEntry (lutContext level method analyses) 1 0 0) = NaN.
Proof.
  intros Hlevel Hfin Hbw Hempty.
  destruct (zone_gains level method analyses Shadows Hfin)
    as (sr & sg & sb & nsr & nsg & nsb & _ & _ & Hts & Hsr & _ & _).
  destruct (zone_gains level method analyses Midtones Hfin)
    as (mr & mg & mb & nmr & nmg & nmb & _ & _ & Htm & Hmr & _ & _).
  destruct (context_scalars level method analyses) as (HL & Hcb & Hsb).
  destruct (shifts_are_zero level method analyses) as (Htemp & Htint).
  cbn [zoneTransform] in Hts, Htm.
  apply (red_entry_green_is_NaN _ (IZR level) _ _ _ _ _ _) with
    (1 := eq_trans (f_equal ca_isBlackAndWhite
                      (lutContext_combined level method analyses))
                   (eq_trans (proj1 (combineAnalyses_flag analyses)) Hbw))
    (3 := Hts) (4 := Htm); try assumption; try lra.
  - rewrite lutContext_combined.
    change (ca_shadows (combineAnalyses analyses))
      with (combinedZone (combineAnalyses analyses) Shadows).
    now rewrite combineAnalyses_empty_zone.
  - destruct Hlevel as [H1 H5]. apply IZR_le in H1, H5. lra.
Qed.

(** ** Flat images in the midtones *)

Lemma sampleAt_midtone (pixels : list Pixel) (q : nat) (p : Pixel)
      (s : Samples) :
  nth_error pixels q = Some p ->
  0.25 <= pixelLuminance p < 0.75 ->
  sm_shadows (sampleAt (pixelBytes pixels) (4 * q) s) = sm_shadows s
  /\ sm_highlights (sampleAt (pixelBytes pixels) (4 * q) s)
     = sm_highlights s.
Proof.
  intros Hq Hlum. destruct (byteAt_pixel pixels q p Hq) as (Hr & Hg & Hb).
  unfold sampleAt. rewrite Hr, Hg, Hb. unfold ofZ.
  rewrite !div_Num by lra. rewrite rgbToGrayscale_luminance.
  fold (pixelLuminance p).
  rewrite (proj2 (ltb_false_iff (pixelLuminance p) 0.25)) by lra.
  rewrite (proj2 (ltb_true_iff (pixelLuminance p) 0.75)) by lra.
  now split.
Qed.

(** The analysis of a flat image whose colour is a midtone. *)
Lemma analyzePixels_flat_midtone (p : Pixel) (n : nat) :
  (0 < n)%nat ->
  0.25 <= pixelLuminance p < 0.75 ->
  isBlackAndWhite (analyzePixels (pixelBytes (repeat p n)))
  = negb (specColourful p)
  /\ shadows (analyzePixels (pixelBytes (repeat p n))) = None
  /\ highlights (analyzePixels (pixelBytes (repeat p n))) = None
  /\ finiteAnalysis (analyzePixels (pixelBytes (repeat p n))).
Proof.
  intros Hn Hlum. split; [now apply detect_flat |].
  assert (Hzones :
            sm_shadows (samplePixels (pixelBytes (repeat p n))) = emptyZone
            /\ sm_highlights (samplePixels (pixelBytes (repeat p n)))
               = emptyZone).
  { unfold samplePixels. rewrite forStride_fold by (unfold sampleRate; lia).
    apply (fold_left_invariant
             (fun s => sm_shadows s = emptyZone
                       /\ sm_highlights s = emptyZone)).
    - now split.
    - intros k s Hin [Hs Hh]. apply in_seq in Hin.
      destruct Hin as [_ Hk]. rewrite Nat.add_0_l in Hk.
      apply stride_turns in Hk; [| unfold sampleRate; lia].
      rewrite length_pixelBytes, repeat_length in Hk.
      replace (k * (4 * sampleRate))%nat with (4 * (16 * k))%nat in *
        by (unfold sampleRate; lia).
      assert (Hq : nth_error (repeat p n) (16 * k) = Some p)
        by (apply nth_error_repeat; lia).
      destruct (sampleAt_midtone _ _ _ s Hq Hlum) as [Hs' Hh'].
      now rewrite Hs', Hh'. }
  destruct Hzones as [Hs Hh]. split; [| split].
  - unfold analyzePixels. cbn [shadows]. now rewrite Hs.
  - unfold analyzePixels. cbn [highlights]. now rewrite Hh.
  - apply finite_analyzePixels, wellFormed_pixelBytes.
Qed.

Lemma latticeInput_first (n : nat) :
  (2 <= n)%nat -> latticeInput n 0 = Num 0.
Proof.
  intros Hn. rewrite latticeInput_Num by exact Hn. f_equal.
  apply le_INR in Hn. simpl in Hn. simpl INR. field. lra.
Qed.

Lemma latticeInput_last (n : nat) :
  (2 <= n)%nat -> latticeInput n (n - 1) = Num 1.
Proof.
  intros Hn. rewrite latticeInput_Num by exact Hn. f_equal.
  rewrite minus_INR by lia. apply le_INR in Hn. simpl in Hn. simpl INR.
  field. lra.
Qed.

Lemma latticeInput_33_32 : latticeInput 33 32 = Num 1.
Proof. exact (latticeInput_last 33 ltac:(lia)). Qed.

Lemma latticeInput_33_0 : latticeInput 33 0 = Num 0.
Proof. exact (latticeInput_first 33 ltac:(lia)). Qed.

Lemma latticeInput_17_16 : latticeInput 17 16 = Num 1.
Proof. exact (latticeInput_last 17 ltac:(lia)). Qed.

Lemma latticeInput_17_0 : latticeInput 17 0 = Num 0.
Proof. exact (latticeInput_first 17 ltac:(lia)). Qed.

Lemma orange_pixel_is_midtone :
  0.25 <= pixelLuminance (mkPixel 200 100 50 255) < 0.75.
Proof. unfold pixelLuminance. cbn [px_r px_g px_b]. lra. Qed.

Lemma grey_pixel_is_midtone :
  0.25 <= pixelLuminance (mkPixel 128 128 128 255) < 0.75.
Proof. unfold pixelLuminance. cbn [px_r px_g px_b]. lra. Qed.

Lemma image_size_positive : (0 < 512)%nat.
Proof. lia. Qed.

(** The analysis of the orange image: a colour image, every sample in the
    midtones. *)
Lemma orange_analysis :
  isBlackAndWhite (analyzePixels orangeImage) = false
  /\ shadows (analyzePixels orangeImage) = None
  /\ highlights (analyzePixels orangeImage) = None
  /\ finiteAnalysis (analyzePixels orangeImage).
Proof.
  exact (analyzePixels_flat_midtone (mkPixel 200 100 50 255) 512
           image_size_positive orange_pixel_is_midtone).
Qed.

(** C7 (the code departs from the claim).  One flat orange reference
    image, the default intensity 3 and resolution 33: the batch is a colour
    batch, and at the lattice point (32, 0, 0), pure red, the green channel
    of the emitted triplet is NaN, not a number of [0, 1]. *)
Theorem pure_red_entry_is_not_a_number :
  ca_isBlackAndWhite (combinedAnalysis orangeContext) = false
  /\ rgb_g (lutEntry orangeContext (latticeInput 33 32) (latticeInput 33 0)
                     (latticeInput 33 0)) = NaN
  /\ ~ inUnit (rgb_g (lutEntry orangeContext (latticeInput 33 32)
                               (latticeInput 33 0) (latticeInput 33 0))).
Proof.
  destruct orange_analysis as (Hbw & Hs & Hh & Hfin).
  assert (Hflag : existsb isBlackAndWhite [analyzePixels orangeImage] = false)
    by (cbn [existsb]; now rewrite Hbw).
  assert (Hnan : rgb_g (lutEntry orangeContext (latticeInput 33 32)
                                 (latticeInput 33 0) (latticeInput 33 0))
                 = NaN).
  { rewrite latticeInput_33_32, latticeInput_33_0.
    apply colour_batch_red_entry; [lia | | exact Hflag |].
    - intros a [<- | []]. exact Hfin.
    - intros a [<- | []]. cbn [zoneStats]. now rewrite Hs. }
  split; [| split].
  - unfold orangeContext. rewrite lutContext_combined.
    now rewrite (proj1 (combineAnalyses_flag _)).
  - exact Hnan.
  - rewrite Hnan. simpl. tauto.
Qed.

(** ** A zone without samples (C2) *)

Lemma mkRGB_Num_eq (r g b r' g' b' : R) :
  r = r' -> g = g' -> b = b' ->
  mkRGB (Num r) (Num g) (Num b) = mkRGB (Num r') (Num g') (Num b').
Proof. now intros -> -> ->. Qed.

(** The block of a zone whose aggregate is at the zero defaults: skipped
    where the ramp weight is not positive, a blend towards
    input * gain * share elsewhere. *)
Lemma zoneStep_empty_zone (ctx : LutContext) (zone : Zone)
      (L gr gg gb : R) :
  intensityLevel ctx = Num L ->
  zoneTransform (transforms ctx) zone = mkRGB (Num gr) (Num gg) (Num gb) ->
  cz_rgb (combinedZone (combinedAnalysis ctx) zone) = mkRGB 0 0 0 ->
  (forall w input output,
      w <= 0 -> zoneStep ctx zone (Num w) input output = output)
  /\ (forall w iR iG iB oR oG oB : R,
         0 < w ->
         zoneStep ctx zone (Num w) (mkRGB iR iG iB) (mkRGB oR oG oB)
         = mkRGB
             (Num (blendTowards oR iR gr (zoneGainShare zone)
                     (Rpower w (zoneExponent zone) * (L * 0.15))))
             (Num (blendTowards oG iG gg (zoneGainShare zone)
                     (Rpower w (zoneExponent zone) * (L * 0.15))))
             (Num (blendTowards oB iB gb (zoneGainShare zone)
                     (Rpower w (zoneExponent zone) * (L * 0.15))))).
Proof.
  intros HL Htr Hmean. split.
  - intros w input output Hw.
    destruct zone; cbn [zoneStep];
      [apply shadowStep_skip | apply midtoneStep_skip
       | apply highlightStep_skip]; exact Hw.
  - intros w iR iG iB oR oG oB Hw.
    destruct zone; cbn [zoneStep zoneTransform combinedZone] in *.
    + rewrite (shadowStep_blend ctx L HL w gr gg gb 0 0 0) by assumption.
      apply mkRGB_Num_eq; unfold blendTowards;
        cbn [zoneGainShare zoneExponent]; ring.
    + rewrite (midtoneStep_blend ctx L HL w gr gg gb) by assumption.
      apply mkRGB_Num_eq; unfold blendTowards;
        cbn [zoneGainShare zoneExponent]; ring.
    + rewrite (highlightStep_blend ctx L HL w gr gg gb 0 0 0) by assumption.
      apply mkRGB_Num_eq; unfold blendTowards;
        cbn [zoneGainShare zoneExponent]; ring.
Qed.

(** C2, as the code has it.  A zone that received no sample in the whole
    batch is not divided by its zero weight: it keeps the zero defaults
    (means 0, weight 0).  In the colour branch its block is skipped at the
    lattice points where the ramp weight of the zone is not positive, and
    only there: where the ramp weight w is positive the running triplet is
    blended towards input * gain * share, the zone mean counting for 0,
    with the factor w^e * intensityLevel * 0.15 and a gain in
    [0.1, 3.0]. *)
Theorem empty_zone_keeps_defaults_and_blends (level : Z) (method : string)
        (analyses : list ImageAnalysis) (zone : Zone) :
  (forall a, In a analyses -> finiteAnalysis a) ->
  zoneEmptyIn zone analyses ->
  let ctx := lutContext level method analyses in
  combinedZone (combinedAnalysis ctx) zone = zeroZone
  /\ cz_weight (combinedZone (combinedAnalysis ctx) zone) = Num 0
  /\ exists gr gg gb : R,
       zoneTransform (transforms ctx) zone = mkRGB (Num gr) (Num gg) (Num gb)
       /\ 0.1 <= gr <= 3.0 /\ 0.1 <= gg <= 3.0 /\ 0.1 <= gb <= 3.0
       /\ (forall w input output,
              w <= 0 -> zoneStep ctx zone (Num w) input output = output)
       /\ (forall w iR iG iB oR oG oB : R,
              0 < w ->
              zoneStep ctx zone (Num w) (mkRGB iR iG iB) (mkRGB oR oG oB)
              = mkRGB
                  (Num (blendTowards oR iR gr (zoneGainShare zone)
                          (Rpower w (zoneExponent zone)
                           * (IZR level * 0.15))))
                  (Num (blendTowards oG iG gg (zoneGainShare zone)
                          (Rpower w (zoneExponent zone)
                           * (IZR level * 0.15))))
                  (Num (blendTowards oB iB gb (zoneGainShare zone)
                          (Rpower w (zoneExponent zone)
                           * (IZR level * 0.15))))).
Proof.
  intros Hfin Hempty ctx.
  assert (Hzero : combinedZone (combinedAnalysis ctx) zone = zeroZone).
  { unfold ctx. rewrite lutContext_combined.
    now apply combineAnalyses_empty_zone. }
  split; [exact Hzero | split; [now rewrite Hzero |]].
  destruct (zone_gains level method analyses zone Hfin)
    as (tr & tg & tb & nr & ng & nb & _ & _ & Htr & Hr & Hg & Hb).
  exists (specGain level tr nr), (specGain level tg ng),
    (specGain level tb nb).
  split; [exact Htr |]. repeat (split; [assumption |]).
  apply zoneStep_empty_zone.
  - reflexivity.
  - exact Htr.
  - now rewrite Hzero.
Qed.

(** The weights of the lattice point (1, 1, 1): luminance 1, fully in the
    highlight ramp. *)
Lemma white_weights :
  colourShadowWeight (rgbToGrayscale 1 1 1 "luminance") = Num 0
  /\ colourHighlightWeight (rgbToGrayscale 1 1 1 "luminance") = Num 1
  /\ midtoneWeightOf (Num 0) (Num 1) = Num 0.
Proof.
  rewrite rgbToGrayscale_luminance, colourShadowWeight_Num,
    colourHighlightWeight_Num, midtoneWeightOf_Num.
  repeat split; f_equal; unfold Rmax, Rmin;
    try destruct (Rle_dec 1 _); destruct (Rle_dec 0 _); lra.
Qed.

(** The transform solved for a highlight zone without samples. *)
Lemma empty_highlights_transform (level : Z) (method : string)
      (analyses : list ImageAnalysis) :
  zoneEmptyIn Highlights analyses ->
  tr_highlights (transforms (lutContext level method analyses))
  = mkRGB (Num (specGain level 0 0.95)) (Num (specGain level 0 0.95))
          (Num (specGain level 0 0.95)).
Proof.
  intros Hempty.
  pose proof (zoneTransform_lutContext level method analyses Highlights)
    as Htr.
  rewrite (combineAnalyses_empty_zone analyses Highlights Hempty) in Htr.
  cbn [zoneTransform] in Htr.
  rewrite Htr. apply calculateTransform_gains; lra.
Qed.

(** The gain solved from a zero target stays below 1 from level 1 on. *)
Lemma gain_of_zero_target (level : Z) :
  (1 <= level)%Z -> 0.1 <= specGain level 0 0.95 <= 0.5.
Proof.
  intros Hlevel. apply IZR_le in Hlevel.
  unfold specGain, clamp, specBaseIntensity, Rmax, Rmin.
  destruct (Rle_dec 0.1 _); destruct (Rle_dec 3.0 _); lra.
Qed.

(** With a highlight zone without samples, the white lattice point reaches
    the highlight block unchanged and leaves it changed. *)
Lemma empty_highlights_change_white (level : Z) (method : string)
      (analyses : list ImageAnalysis) :
  (1 <= level <= 5)%Z ->
  zoneEmptyIn Highlights analyses ->
  midtoneStep (lutContext level method analyses)
    (midtoneWeightOf
       (colourShadowWeight (rgbToGrayscale 1 1 1 "luminance"))
       (colourHighlightWeight (rgbToGrayscale 1 1 1 "luminance")))
    (mkRGB 1 1 1)
    (shadowStep (lutContext level method analyses)
       (colourShadowWeight (rgbToGrayscale 1 1 1 "luminance"))
       (mkRGB 1 1 1) (mkRGB 1 1 1))
  = mkRGB 1 1 1
  /\ highlightStep (lutContext level method analyses)
       (colourHighlightWeight (rgbToGrayscale 1 1 1 "luminance"))
       (mkRGB 1 1 1) (mkRGB 1 1 1)
     <> mkRGB 1 1 1.
Proof.
  intros Hlevel Hempty.
  destruct white_weights as (-> & -> & ->).
  rewrite shadowStep_skip, midtoneStep_skip by lra.
  split; [reflexivity |].
  destruct (context_scalars level method analyses) as (HL & _).
  pose proof (combineAnalyses_empty_zone analyses Highlights Hempty)
    as Hzero.
  cbn [combinedZone] in Hzero.
  rewrite (highlightStep_blend _ (IZR level) HL 1
             (specGain level 0 0.95) (specGain level 0 0.95)
             (specGain level 0 0.95) 0 0 0);
    [| lra | now apply empty_highlights_transform
     | now rewrite lutContext_combined, Hzero].
  rewrite Rpower_one_base.
  pose proof (gain_of_zero_target level (proj1 Hlevel)) as Hgain.
  destruct Hlevel as [H1 H5]. apply IZR_le in H1, H5.
  intros Heq. apply (f_equal rgb_r) in Heq. cbn [rgb_r] in Heq.
  apply Num_inj in Heq. nra.
Qed.

Lemma empty_zone_weight (level : Z) (method : string)
      (analyses : list ImageAnalysis) (zone : Zone) :
  zoneEmptyIn zone analyses ->
  cz_weight (combinedZone (combinedAnalysis (lutContext level method analyses))
                          zone)
  = Num 0.
Proof.
  intros Hempty. rewrite lutContext_combined.
  now rewrite combineAnalyses_empty_zone.
Qed.

Lemma colour_batch_flag (level : Z) (method : string)
      (analyses : list ImageAnalysis) :
  existsb isBlackAndWhite analyses = false ->
  ca_isBlackAndWhite (combinedAnalysis (lutContext level method analyses))
  = false.
Proof.
  intros Hflag. rewrite lutContext_combined.
  now rewrite (proj1 (combineAnalyses_flag analyses)).
Qed.

Lemma orange_batch_is_colour :
  existsb isBlackAndWhite [analyzePixels orangeImage] = false.
Proof.
  destruct orange_analysis as (Hbw & _). cbn [existsb]. now rewrite Hbw.
Qed.

(** C2 (the claim fails on the code).  The orange image has no highlight
    sample, so the highlight zone of its batch has weight 0; yet at the
    white corner (1, 1, 1) of the lattice, where the running triplet
    reaches the highlight block unchanged, the block changes it. *)
Lemma empty_zone_is_still_blended :
  zoneEmptyIn Highlights [analyzePixels orangeImage]
  /\ cz_weight (combinedZone (combinedAnalysis orangeContext) Highlights)
     = Num 0
  /\ ca_isBlackAndWhite (combinedAnalysis orangeContext) = false
  /\ midtoneStep orangeContext
       (midtoneWeightOf
          (colourShadowWeight (rgbToGrayscale 1 1 1 "luminance"))
          (colourHighlightWeight (rgbToGrayscale 1 1 1 "luminance")))
       (mkRGB 1 1 1)
       (shadowStep orangeContext
          (colourShadowWeight (rgbToGrayscale 1 1 1 "luminance"))
          (mkRGB 1 1 1) (mkRGB 1 1 1))
     = mkRGB 1 1 1
  /\ highlightStep orangeContext
       (colourHighlightWeight (rgbToGrayscale 1 1 1 "luminance"))
       (mkRGB 1 1 1) (mkRGB 1 1 1)
     <> mkRGB 1 1 1.
Proof.
  destruct orange_analysis as (Hbw & Hs & Hh & Hfin).
  assert (Hempty : zoneEmptyIn Highlights [analyzePixels orangeImage]).
  { intros a [<- | []]. cbn [zoneStats]. now rewrite Hh. }
  split; [exact Hempty | split; [| split]].
  - exact (empty_zone_weight 3 "luminance" [analyzePixels orangeImage]
             Highlights Hempty).
  - exact (colour_batch_flag 3 "luminance" [analyzePixels orangeImage]
             orange_batch_is_colour).
  - exact (empty_highlights_change_white 3 "luminance"
             [analyzePixels orangeImage] ltac:(lia) Hempty).
Qed.

(** ** A flat grey reference image (C3) *)

(** C3 (the claim fails on the code).  The flat mid-grey image, intensity
    1, the 17-point lattice: at the lattice point (16, 0, 0), pure red, the
    output is not within 0.05 of the input on every channel. *)
Lemma mid_grey_lut_is_not_near_identity :
  ~ nearIdentity 0.05
      (lutEntry greyContext (latticeInput 17 16) (latticeInput 17 0)
                (latticeInput 17 0))
      (mkRGB (latticeInput 17 16) (latticeInput 17 0) (latticeInput 17 0)).
Proof.
  rewrite latticeInput_17_16, latticeInput_17_0.
  destruct (analyzePixels_flat_midtone (mkPixel 128 128 128 255) 512
              image_size_positive grey_pixel_is_midtone)
    as (Hbw & _ & _ & Hfin).
  rewrite specColourful_grey in Hbw. cbn [negb] in Hbw.
  destruct (bw_entry_is_grey greyContext 1 0 0) as (v & Hv & Hrange);
    try exact I.
  - unfold greyContext. rewrite lutContext_combined.
    rewrite (proj1 (combineAnalyses_flag _)). cbn [existsb].
    unfold greyImage, flatImage. now rewrite Hbw.
  - unfold greyContext. rewrite lutContext_combined.
    apply finite_combineAnalyses. intros a [<- | []]. exact Hfin.
  - rewrite Hv. unfold nearIdentity, channelWithin. cbn [rgb_r rgb_g rgb_b].
    intros (Hr & Hg & _).
    apply Rabs_def2 in Hr. apply Rabs_def2 in Hg. lra.
Qed.

(** C3, as the code has it.  A batch made of one flat grey image (every
    pixel R = G = B, mid-grey included) is classified black & white, so at
    every intensity level, and at level 1 in particular, the LUT is the
    monochrome one: every lattice point is mapped to a grey triplet
    R = G = B = v with v in [0, 1]. *)
Theorem flat_grey_image_gives_grey_lut (k : Z) (pixelCount : nat)
        (level : Z) (method : string) (n r g b : nat) :
  (0 < pixelCount)%nat -> (2 <= n)%nat ->
  let image := flatImage k k k pixelCount in
  let ctx := lutContext level method [analyzePixels image] in
  isBlackAndWhite (analyzePixels image) = true
  /\ ca_isBlackAndWhite (combinedAnalysis ctx) = true
  /\ exists v,
       lutEntry ctx (latticeInput n r) (latticeInput n g) (latticeInput n b)
       = mkRGB (Num v) (Num v) (Num v)
       /\ 0 <= v <= 1.
Proof.
  intros Hcount Hn image ctx.
  assert (Hbw : isBlackAndWhite (analyzePixels image) = true).
  { unfold image, flatImage, analyzePixels. cbn [isBlackAndWhite].
    rewrite detect_flat by exact Hcount. now rewrite specColourful_grey. }
  assert (Hflag : ca_isBlackAndWhite (combinedAnalysis ctx) = true).
  { unfold ctx. rewrite lutContext_combined.
    rewrite (proj1 (combineAnalyses_flag _)). cbn [existsb].
    now rewrite Hbw. }
  split; [exact Hbw | split; [exact Hflag |]].
  rewrite !latticeInput_Num by exact Hn.
  apply bw_entry_is_grey; try exact I; [exact Hflag |].
  unfold ctx. rewrite lutContext_combined.
  apply finite_combineAnalyses. intros a [<- | []].
  apply finite_analyzePixels. unfold image, flatImage.
  apply wellFormed_pixelBytes.
Qed.

(** ** The statements at concrete inputs *)

Lemma lattice_emission_order_at_33 :
  (2 <= 33)%nat
  /\ length (lutData blankFixed orangeContext 33) = (33 ^ 3)%nat.
Proof.
  split; [lia |].
  apply (lattice_emission_order blankFixed orangeContext 33). lia.
Defined.

Lemma detector_matches_specification_at_11_pixels :
  repeat (mkPixel 200 100 50 255) 11 <> []
  /\ detectBlackAndWhite (pixelBytes (repeat (mkPixel 200 100 50 255) 11))
     = specIsBlackAndWhite (repeat (mkPixel 200 100 50 255) 11).
Proof.
  split; [discriminate |].
  apply (detector_matches_specification (repeat (mkPixel 200 100 50 255) 11)).
  discriminate.
Defined.

Lemma gains_follow_formula_and_range_at_orange_image :
  Forall wellFormed [orangeImage]
  /\ exists tr tg tb nr ng nb,
       cz_rgb (combinedZone
                 (combinedAnalysis
                    (lutContext 3 "luminance"
                                (map analyzePixels [orangeImage])))
                 Midtones)
       = mkRGB (Num tr) (Num tg) (Num tb)
       /\ baseline Midtones = mkRGB (Num nr) (Num ng) (Num nb)
       /\ zoneTransform
            (transforms
               (lutContext 3 "luminance" (map analyzePixels [orangeImage])))
            Midtones
          = mkRGB (Num (specGain 3 tr nr)) (Num (specGain 3 tg ng))
                  (Num (specGain 3 tb nb))
       /\ specBaseIntensity 3 = 0.5 + (IZR 3 - 1) * 0.25
       /\ 0.1 <= specGain 3 tr nr <= 3.0
       /\ 0.1 <= specGain 3 tg ng <= 3.0
       /\ 0.1 <= specGain 3 tb nb <= 3.0.
Proof.
  assert (Hwf : Forall wellFormed [orangeImage]).
  { constructor; [apply wellFormed_pixelBytes | constructor]. }
  split; [exact Hwf |].
  exact (gains_follow_formula_and_range 3 "luminance" [orangeImage]
           Midtones Hwf).
Defined.

Lemma three_images_are_given : referenceImages threeImages <> [].
Proof. discriminate. Qed.

Lemma an_image_was_analysed :
  successes mixedRun 0 (length (referenceImages threeImages)) <> [].
Proof. exact (fun H => nil_cons (eq_sym H)). Qed.

Lemma failed_images_are_skipped_at_mixed_and_failed_runs :
  referenceImages threeImages <> []
  /\ ls_analyses (analysisLoop blankText mixedRun threeImages)
     = [analyzePixels orangeImage]
  /\ snd (generateAdvancedLUT blankFixed blankText mixedRun threeImages)
     = [ConsoleErrorImage 1 (ErrLoad 1); ConsoleErrorImage 3 (ErrTimeout 3)]
  /\ (exists cube,
         generatedLUT
           (fst (generateAdvancedLUT blankFixed blankText mixedRun
                                     threeImages)) = Some cube
         /\ cube <> EmptyString)
  /\ snd (generateAdvancedLUT blankFixed blankText failedRun threeImages)
     = [ConsoleErrorImage 1 (ErrLoad 1); ConsoleErrorImage 2 (ErrTimeout 2);
        ConsoleErrorImage 3 (ErrTimeout 3); ConsoleErrorRun;
        Alert "Error generating LUT. Please try again."]
  /\ generatedLUT
       (fst (generateAdvancedLUT blankFixed blankText failedRun threeImages))
     = None.
Proof.
  split; [exact three_images_are_given |].
  split; [| split; [| split; [| split]]].
  - exact (proj1 (failed_images_are_skipped blankFixed blankText mixedRun
                    mixedRun threeImages three_images_are_given)).
  - exact (proj1 (proj2 (proj2 (proj2 (proj2
             (failed_images_are_skipped blankFixed blankText mixedRun
                mixedRun threeImages three_images_are_given)))))).
  - exact (ex_intro _ _
             (conj
                (proj1 (proj1 (proj2 (proj2 (proj2 (proj2 (proj2 (proj2
                   (proj2 (proj2
                      (failed_images_are_skipped blankFixed blankText
                         mixedRun mixedRun threeImages
                         three_images_are_given)))))))))
                   an_image_was_analysed))
                (proj1 (proj2 (proj1 (proj2 (proj2 (proj2 (proj2 (proj2
                   (proj2 (proj2 (proj2
                      (failed_images_are_skipped blankFixed blankText
                         mixedRun mixedRun threeImages
                         three_images_are_given)))))))))
                   an_image_was_analysed))))).
  - exact (proj1 (proj2 (proj2 (proj2 (proj2
             (failed_images_are_skipped blankFixed blankText failedRun
                failedRun threeImages three_images_are_given)))))).
  - exact (proj2
             (proj2 (proj2 (proj2 (proj2 (proj2 (proj2 (proj2 (proj2 (proj2
                (failed_images_are_skipped blankFixed blankText failedRun
                   failedRun threeImages three_images_are_given)))))))))
                eq_refl)
             eq_refl).
Defined.

Lemma empty_zone_keeps_defaults_and_blends_at_orange_image :
  zoneEmptyIn Highlights [analyzePixels orangeImage]
  /\ combinedZone
       (combinedAnalysis
          (lutContext 3 "luminance" [analyzePixels orangeImage]))
       Highlights
     = zeroZone.
Proof.
  destruct orange_analysis as (_ & _ & Hh & Hfin).
  assert (Hall : forall a, In a [analyzePixels orangeImage] ->
                           finiteAnalysis a).
  { intros a [<- | []]. exact Hfin. }
  assert (Hempty : zoneEmptyIn Highlights [analyzePixels orangeImage]).
  { intros a [<- | []]. cbn [zoneStats]. now rewrite Hh. }
  split; [exact Hempty |].
  exact (proj1 (empty_zone_keeps_defaults_and_blends 3 "luminance"
                  [analyzePixels orangeImage] Highlights Hall Hempty)).
Defined.

Lemma flat_grey_image_gives_grey_lut_at_mid_grey :
  (0 < 512)%nat /\ (2 <= 17)%nat
  /\ isBlackAndWhite (analyzePixels (flatImage 128 128 128 512)) = true.
Proof.
  assert (Hcount : (0 < 512)%nat) by lia.
  assert (Hn : (2 <= 17)%nat) by lia.
  split; [exact Hcount | split; [exact Hn |]].
  exact (proj1 (flat_grey_image_gives_grey_lut 128 512 1 "luminance"
                  17 16 0 0 Hcount Hn)).
Defined.

(** * Further properties *)

(** ** Ramps and zone weights *)

Lemma ramp_bounds (x : R) : 0 <= Rmax 0 (Rmin 1 x) <= 1.
Proof.
  unfold Rmax, Rmin. destruct (Rle_dec 1 x); destruct (Rle_dec 0 _); lra.
Qed.

Lemma ramp_low (x : R) : x <= 0 -> Rmax 0 (Rmin 1 x) = 0.
Proof.
  intros Hx. unfold Rmax, Rmin.
  destruct (Rle_dec 1 x); destruct (Rle_dec 0 _); lra.
Qed.

Lemma ramp_mid (x : R) : 0 <= x <= 1 -> Rmax 0 (Rmin 1 x) = x.
Proof.
  intros Hx. unfold Rmax, Rmin.
  destruct (Rle_dec 1 x); destruct (Rle_dec 0 _); lra.
Qed.

Lemma ramp_high (x : R) : 1 <= x -> Rmax 0 (Rmin 1 x) = 1.
Proof.
  intros Hx. unfold Rmax, Rmin.
  destruct (Rle_dec 1 x); destruct (Rle_dec 0 _); lra.
Qed.

Lemma Rmax_0_nonneg (x : R) : 0 <= x -> Rmax 0 x = x.
Proof. intros Hx. now apply Rmax_right. Qed.

Lemma bwShadowWeight_Num (g : R) :
  bwShadowWeight (Num g) = Num (Rmax 0 (Rmin 1 ((0.3 - g) / 0.3))).
Proof. unfold bwShadowWeight. cbn [sub]. now rewrite div_Num by lra. Qed.

Lemma bwHighlightWeight_Num (g : R) :
  bwHighlightWeight (Num g) = Num (Rmax 0 (Rmin 1 ((g - 0.7) / 0.3))).
Proof. unfold bwHighlightWeight. cbn [sub]. now rewrite div_Num by lra. Qed.

(** Two ramps that are never positive together, and what they leave. *)
Lemma ramps_partition (lo hi wl wh x : R) :
  0 < wl -> 0 < wh -> lo <= hi ->
  let s := Rmax 0 (Rmin 1 ((lo - x) / wl)) in
  let h := Rmax 0 (Rmin 1 ((x - hi) / wh)) in
  let m := Rmax 0 (1 - s - h) in
  s + m + h = 1 /\ 0 <= s <= 1 /\ 0 <= m <= 1 /\ 0 <= h <= 1
  /\ (s = 0 \/ h = 0).
Proof.
  intros Hwl Hwh Hle s h m.
  pose proof (ramp_bounds ((lo - x) / wl)) as Hs.
  pose proof (ramp_bounds ((x - hi) / wh)) as Hh.
  fold s in Hs. fold h in Hh.
  assert (Hzero : s = 0 \/ h = 0).
  { destruct (Rle_dec x hi) as [Hx | Hx].
    - right. unfold h. apply ramp_low.
      apply Rmult_le_reg_r with wh; [exact Hwh |].
      unfold Rdiv. rewrite Rmult_assoc, Rinv_l by lra. lra.
    - left. unfold s. apply ramp_low.
      apply Rmult_le_reg_r with wl; [exact Hwl |].
      unfold Rdiv. rewrite Rmult_assoc, Rinv_l by lra. lra. }
  assert (Hm : m = 1 - s - h).
  { unfold m. apply Rmax_0_nonneg. destruct Hzero; lra. }
  repeat split; try lra; try exact Hzero.
Qed.

(** X1.  The zone weights of a lattice point, in both branches: three numbers
    of [0, 1] that add up to 1, the shadow and the highlight weight never
    positive together. *)
Theorem zone_weights_partition_unity (x : R) :
  (exists s m h,
      colourShadowWeight (Num x) = Num s
      /\ colourHighlightWeight (Num x) = Num h
      /\ midtoneWeightOf (colourShadowWeight (Num x))
                         (colourHighlightWeight (Num x)) = Num m
      /\ s + m + h = 1 /\ 0 <= s <= 1 /\ 0 <= m <= 1 /\ 0 <= h <= 1
      /\ (s = 0 \/ h = 0))
  /\ (exists s m h,
         bwShadowWeight (Num x) = Num s
         /\ bwHighlightWeight (Num x) = Num h
         /\ midtoneWeightOf (bwShadowWeight (Num x))
                            (bwHighlightWeight (Num x)) = Num m
         /\ s + m + h = 1 /\ 0 <= s <= 1 /\ 0 <= m <= 1 /\ 0 <= h <= 1
         /\ (s = 0 \/ h = 0)).
Proof.
  split.
  - rewrite colourShadowWeight_Num, colourHighlightWeight_Num,
      midtoneWeightOf_Num.
    do 3 eexists. repeat (split; [reflexivity |]).
    apply (ramps_partition 0.35 0.65 0.35 0.35 x); lra.
  - rewrite bwShadowWeight_Num, bwHighlightWeight_Num, midtoneWeightOf_Num.
    do 3 eexists. repeat (split; [reflexivity |]).
    apply (ramps_partition 0.3 0.7 0.3 0.3 x); lra.
Qed.

(** ** The S-curve *)

Lemma Math_pow_nonneg (x s : R) :
  0 <= x -> 0 < s -> Math_pow (Num x) (Num s) = Num (powNonneg x s).
Proof.
  intros Hx Hs. unfold Math_pow, powNonneg.
  destruct (Req_dec_T s 0); [lra |].
  destruct (Rlt_dec 0 x); destruct (Req_dec_T x 0); try lra; try reflexivity.
  destruct (Rlt_dec 0 s); [reflexivity | lra].
Qed.

Lemma powNonneg_range (x s : R) :
  0 <= x <= 1 -> 0 < s -> 0 <= powNonneg x s <= 1.
Proof.
  intros Hx Hs. unfold powNonneg. destruct (Req_dec_T x 0); [lra |].
  split; [left; apply Rpower_pos | apply Rpower_le_one; lra].
Qed.

Lemma powNonneg_monotone (x y s : R) :
  0 <= x <= y -> 0 < s -> powNonneg x s <= powNonneg y s.
Proof.
  intros [Hx Hxy] Hs. unfold powNonneg.
  destruct (Req_dec_T x 0); destruct (Req_dec_T y 0); try lra.
  - left. apply Rpower_pos.
  - apply Rle_Rpower_l; lra.
Qed.

Lemma powNonneg_0 (s : R) : powNonneg 0 s = 0.
Proof. unfold powNonneg. destruct (Req_dec_T 0 0); [reflexivity | lra]. Qed.

Lemma powNonneg_1 (s : R) : powNonneg 1 s = 1.
Proof.
  unfold powNonneg. destruct (Req_dec_T 1 0); [lra | apply Rpower_one_base].
Qed.

Lemma applySCurve_unit (v s : R) :
  0 <= v <= 1 -> 0 < s ->
  applySCurve (Num v) (Num s) = Num (sCurveValue v s).
Proof.
  intros Hv Hs. unfold applySCurve, sCurveValue.
  destruct (Rlt_dec v 0.5) as [Hlt | Hge].
  - rewrite (proj2 (ltb_true_iff v 0.5) Hlt). cbn [mul].
    rewrite Math_pow_nonneg by lra. now rewrite div_Num by lra.
  - rewrite (proj2 (ltb_false_iff v 0.5)) by lra. cbn [sub mul].
    rewrite Math_pow_nonneg by lra. now rewrite div_Num by lra.
Qed.

Lemma applySCurve_above_one (v strength : R) (z : Z) :
  1 < v -> IZR z < strength < IZR (z + 1) ->
  applySCurve (Num v) (Num strength) = NaN.
Proof.
  intros Hv Hs. unfold applySCurve.
  rewrite (proj2 (ltb_false_iff v 0.5)) by lra.
  cbn [sub mul].
  rewrite (Math_pow_negative_base ((1 - v) * 2) strength z) by
    (try assumption; lra).
  reflexivity.
Qed.

Lemma sCurveValue_range (v s : R) :
  0 <= v <= 1 -> 0 < s ->
  0 <= sCurveValue v s <= 1
  /\ (v < 0.5 -> sCurveValue v s <= 0.5)
  /\ (0.5 <= v -> 0.5 <= sCurveValue v s).
Proof.
  intros Hv Hs. unfold sCurveValue.
  destruct (Rlt_dec v 0.5) as [Hlt | Hge].
  - pose proof (powNonneg_range (v * 2) s ltac:(lra) Hs). lra.
  - pose proof (powNonneg_range ((1 - v) * 2) s ltac:(lra) Hs). lra.
Qed.

Lemma sCurveValue_monotone (v w s : R) :
  0 <= v -> v <= w -> w <= 1 -> 0 < s ->
  sCurveValue v s <= sCurveValue w s.
Proof.
  intros Hv Hvw Hw Hs.
  destruct (sCurveValue_range v s ltac:(lra) Hs) as (_ & Hvlo & _).
  destruct (sCurveValue_range w s ltac:(lra) Hs) as (_ & _ & Hwhi).
  unfold sCurveValue in *.
  destruct (Rlt_dec v 0.5) as [Hv5 | Hv5];
    destruct (Rlt_dec w 0.5) as [Hw5 | Hw5]; try lra.
  - pose proof (powNonneg_monotone (v * 2) (w * 2) s ltac:(lra) Hs). lra.
  - pose proof (powNonneg_monotone ((1 - w) * 2) ((1 - v) * 2) s
                                   ltac:(lra) Hs). lra.
Qed.

Lemma sCurveValue_symmetry (v s : R) :
  0 <= v <= 1 -> 0 < s -> sCurveValue (1 - v) s = 1 - sCurveValue v s.
Proof.
  intros Hv Hs. unfold sCurveValue.
  destruct (Rlt_dec v 0.5) as [Hv5 | Hv5];
    destruct (Rlt_dec (1 - v) 0.5) as [Hw5 | Hw5]; try lra.
  - replace ((1 - (1 - v)) * 2) with (v * 2) by lra. lra.
  - assert (v = 0.5) as -> by lra.
    replace ((1 - (1 - 0.5)) * 2) with 1 by lra.
    replace ((1 - 0.5) * 2) with 1 by lra. rewrite powNonneg_1. lra.
Qed.

(** X2.  On the unit interval and for a positive strength the S-curve is a
    number of the unit interval; it fixes 0, 0.5 and 1, keeps each half on
    its side of 0.5, does not decrease, and is symmetric about the point
    (0.5, 0.5).  Outside the unit interval, for a strength that is not an
    integer, it is NaN. *)
Theorem s_curve_on_and_off_the_unit_interval (s : R) :
  0 < s ->
  (forall v, 0 <= v <= 1 ->
             exists w, applySCurve (Num v) (Num s) = Num w
                       /\ 0 <= w <= 1
                       /\ (v < 0.5 -> w <= 0.5) /\ (0.5 <= v -> 0.5 <= w))
  /\ applySCurve (Num 0) (Num s) = Num 0
  /\ applySCurve (Num 0.5) (Num s) = Num 0.5
  /\ applySCurve (Num 1) (Num s) = Num 1
  /\ (forall v w a b,
         0 <= v -> v <= w -> w <= 1 ->
         applySCurve (Num v) (Num s) = Num a ->
         applySCurve (Num w) (Num s) = Num b -> a <= b)
  /\ (forall v a b,
         0 <= v <= 1 ->
         applySCurve (Num v) (Num s) = Num a ->
         applySCurve (Num (1 - v)) (Num s) = Num b -> b = 1 - a)
  /\ (forall v z,
         IZR z < s < IZR (z + 1) -> v < 0 \/ 1 < v ->
         applySCurve (Num v) (Num s) = NaN).
Proof.
  intros Hs. split; [| split; [| split; [| split; [| split; [| split]]]]].
  - intros v Hv. exists (sCurveValue v s).
    split; [now apply applySCurve_unit | now apply sCurveValue_range].
  - rewrite applySCurve_unit by lra. f_equal. unfold sCurveValue.
    destruct (Rlt_dec 0 0.5); [| lra].
    replace (0 * 2) with 0 by lra. rewrite powNonneg_0. lra.
  - rewrite applySCurve_unit by lra. f_equal. unfold sCurveValue.
    destruct (Rlt_dec 0.5 0.5); [lra |].
    replace ((1 - 0.5) * 2) with 1 by lra. rewrite powNonneg_1. lra.
  - rewrite applySCurve_unit by lra. f_equal. unfold sCurveValue.
    destruct (Rlt_dec 1 0.5); [lra |].
    replace ((1 - 1) * 2) with 0 by lra. rewrite powNonneg_0. lra.
  - intros v w a b Hv Hvw Hw Ha Hb.
    rewrite applySCurve_unit in Ha, Hb by lra.
    apply Num_inj in Ha, Hb. subst a b. now apply sCurveValue_monotone.
  - intros v a b Hv Ha Hb.
    rewrite applySCurve_unit in Ha, Hb by lra.
    apply Num_inj in Ha, Hb. subst a b. now apply sCurveValue_symmetry.
  - intros v z Hz [Hv | Hv].
    + now apply applySCurve_negative with z.
    + now apply applySCurve_above_one with z.
Qed.

Lemma s_curve_at_default_contrast :
  0 < 1.18
  /\ applySCurve (Num 0.5) (Num 1.18) = Num 0.5.
Proof.
  assert (Hs : 0 < 1.18) by lra.
  split; [exact Hs |].
  exact (proj1 (proj2 (proj2 (s_curve_on_and_off_the_unit_interval 1.18 Hs)))).
Defined.

(** ** Greyscale conversion *)

Lemma min3_max3 (r g b : R) :
  Rmin (Rmin r g) b <= r /\ Rmin (Rmin r g) b <= g /\ Rmin (Rmin r g) b <= b
  /\ r <= Rmax (Rmax r g) b /\ g <= Rmax (Rmax r g) b
  /\ b <= Rmax (Rmax r g) b.
Proof.
  pose proof (Rmin_l (Rmin r g) b). pose proof (Rmin_r (Rmin r g) b).
  pose proof (Rmin_l r g). pose proof (Rmin_r r g).
  pose proof (Rmax_l (Rmax r g) b). pose proof (Rmax_r (Rmax r g) b).
  pose proof (Rmax_l r g). pose proof (Rmax_r r g).
  repeat split; lra.
Qed.

Ltac decide_method :=
  unfold rgbToGrayscale;
  repeat match goal with
         | |- context [String.eqb ?a ?b] =>
             let v := eval vm_compute in (String.eqb a b) in
             change (String.eqb a b) with v
         end;
  cbv iota.

(** X3.  Under every method string, channels of [0, 1] give a grey value
    of [0, 1].  Under the methods that pick or average channels
    ('average', 'red', 'green', 'blue', 'max', 'min') the grey value lies
    between the smallest and the largest channel.  A string that names no
    method gives what 'luminance' gives. *)
Theorem grey_value_stays_in_range (r g b : R) (method : string) :
  (0 <= r <= 1 -> 0 <= g <= 1 -> 0 <= b <= 1 ->
   exists v, rgbToGrayscale (Num r) (Num g) (Num b) method = Num v
             /\ 0 <= v <= 1)
  /\ (In method ["average"; "red"; "green"; "blue"; "max"; "min"]%string ->
      exists v, rgbToGrayscale (Num r) (Num g) (Num b) method = Num v
                /\ Rmin (Rmin r g) b <= v <= Rmax (Rmax r g) b)
  /\ (method <> "luminance"%string -> method <> "average"%string ->
      method <> "red"%string -> method <> "green"%string ->
      method <> "blue"%string -> method <> "max"%string ->
      method <> "min"%string ->
      rgbToGrayscale (Num r) (Num g) (Num b) method
      = rgbToGrayscale (Num r) (Num g) (Num b) "luminance").
Proof.
  destruct (min3_max3 r g b) as (H1 & H2 & H3 & H4 & H5 & H6).
  split; [| split].
  - intros Hr Hg Hb.
    assert (Hmax : Rmax (Rmax r g) b <= 1)
      by (apply Rmax_lub; [apply Rmax_lub |]; lra).
    assert (Hmin : 0 <= Rmin (Rmin r g) b)
      by (apply Rmin_glb; [apply Rmin_glb |]; lra).
    unfold rgbToGrayscale.
    repeat match goal with
           | |- context [String.eqb ?a ?b] => destruct (String.eqb a b)
           end;
      try (eexists; split; [reflexivity | lra]).
    cbn [add]. rewrite div_Num by lra. eexists. split; [reflexivity | lra].
  - intros [<- | [<- | [<- | [<- | [<- | [<- | []]]]]]]; decide_method;
      try (eexists; split; [reflexivity | lra]).
    cbn [add]. rewrite div_Num by lra. eexists. split; [reflexivity | lra].
  - intros Hl Ha Hr Hg Hb Hmax Hmin. unfold rgbToGrayscale.
    repeat match goal with
           | |- context [String.eqb ?a ?b] =>
               destruct (String.eqb_spec a b); [congruence |]
           end.
    reflexivity.
Qed.

(** ** Gains *)

Lemma clamp_monotone (x y lo hi : R) :
  x <= y -> clamp x lo hi <= clamp y lo hi.
Proof.
  intros Hxy. unfold clamp.
  apply Rle_min_compat_l, Rle_max_compat_l. exact Hxy.
Qed.

Lemma specGain_at_baseline (level : Z) (n : R) :
  n <> 0 -> specGain level n n = 1.
Proof.
  intros Hn. unfold specGain, clamp.
  replace ((n / n - 1) * specBaseIntensity level + 1) with 1
    by (field; exact Hn).
  unfold Rmin, Rmax. destruct (Rle_dec 0.1 1); destruct (Rle_dec 3.0 _); lra.
Qed.

Lemma specGain_monotone (level : Z) (t t' n : R) :
  (1 <= level)%Z -> 0 < n -> t <= t' ->
  specGain level t n <= specGain level t' n.
Proof.
  intros Hlevel Hn Ht. unfold specGain. apply clamp_monotone.
  apply IZR_le in Hlevel. unfold specBaseIntensity.
  assert (Hdiv : t / n <= t' / n).
  { unfold Rdiv. apply Rmult_le_compat_r; [| exact Ht].
    left. now apply Rinv_0_lt_compat. }
  nra.
Qed.

(** X4.  From intensity level 1 on, against a baseline of the camera profile
    (all its components are positive): a target equal to the baseline is
    solved to the gain 1 on every channel, a brighter target never to a
    smaller gain than a darker one, so targets below the baseline get gains
    of [0.1, 1] and targets above it gains of [1, 3]. *)
Theorem gain_is_one_at_baseline_and_monotone (level : Z) (zone : Zone)
        (c : Colour) :
  (1 <= level)%Z ->
  exists n,
    channel c (baseline zone) = Num n /\ 0 < n
    /\ channel c (calculateTransform (ofZ level) (baseline zone)
                                     (baseline zone)) = Num 1
    /\ forall tr tg tb tr' tg' tb',
         tr <= tr' -> tg <= tg' -> tb <= tb' ->
         exists k k',
           channel c (calculateTransform (ofZ level) (baseline zone)
                                         (mkRGB tr tg tb)) = Num k
           /\ channel c (calculateTransform (ofZ level) (baseline zone)
                                            (mkRGB tr' tg' tb')) = Num k'
           /\ 0.1 <= k <= k' /\ k' <= 3.0.
Proof.
  intros Hlevel.
  assert (Hbase : exists nr ng nb,
             baseline zone = mkRGB (Num nr) (Num ng) (Num nb)
             /\ 0 < nr /\ 0 < ng /\ 0 < nb).
  { destruct zone; cbn [baseline]; do 3 eexists;
      (split; [reflexivity |]); repeat split; lra. }
  destruct Hbase as (nr & ng & nb & Hb & Hr & Hg & Hbl).
  rewrite Hb.
  assert (Hmono : forall t t' n, 0 < n -> t <= t' ->
             0.1 <= specGain level t n <= specGain level t' n
             /\ specGain level t' n <= 3.0).
  { intros t t' n Hn Ht.
    pose proof (specGain_monotone level t t' n Hlevel Hn Ht).
    pose proof (clamp_range ((t / n - 1) * specBaseIntensity level + 1)
                            0.1 3.0 ltac:(lra)).
    pose proof (clamp_range ((t' / n - 1) * specBaseIntensity level + 1)
                            0.1 3.0 ltac:(lra)).
    unfold specGain in *. lra. }
  destruct c; cbn [channel rgb_r rgb_g rgb_b];
    [exists nr | exists ng | exists nb];
    (split; [reflexivity |]); (split; [assumption |]);
    (split;
     [rewrite calculateTransform_gains by lra; cbn [rgb_r rgb_g rgb_b];
      f_equal; apply specGain_at_baseline; lra
     | intros tr tg tb tr' tg' tb' H1 H2 H3;
       rewrite !calculateTransform_gains by lra;
       cbn [rgb_r rgb_g rgb_b]; do 2 eexists;
       (split; [reflexivity |]); (split; [reflexivity |]);
       apply Hmono; assumption]).
Qed.

Lemma gain_is_one_at_baseline_and_monotone_at_level_3 :
  (1 <= 3)%Z
  /\ exists n,
       channel Red (baseline Midtones) = Num n /\ 0 < n
       /\ channel Red (calculateTransform (ofZ 3) (baseline Midtones)
                                          (baseline Midtones)) = Num 1
       /\ forall tr tg tb tr' tg' tb',
            tr <= tr' -> tg <= tg' -> tb <= tb' ->
            exists k k',
              channel Red (calculateTransform (ofZ 3) (baseline Midtones)
                                              (mkRGB tr tg tb)) = Num k
              /\ channel Red (calculateTransform (ofZ 3) (baseline Midtones)
                                                 (mkRGB tr' tg' tb'))
                 = Num k'
              /\ 0.1 <= k <= k' /\ k' <= 3.0.
Proof.
  assert (Hlevel : (1 <= 3)%Z) by lia.
  split; [exact Hlevel |].
  exact (gain_is_one_at_baseline_and_monotone 3 Midtones Red Hlevel).
Defined.

(** ** The sampler: every sample in one zone *)

Lemma sampleTotal_sampleAt (data : ImageData) (i : nat) (s : Samples) :
  sampleTotal (sampleAt data i s) = Datatypes.S (sampleTotal s).
Proof.
  unfold sampleAt, sampleTotal.
  destruct (_ <? 0.25)%js; [| destruct (_ <? 0.75)%js];
    cbn [sm_shadows sm_midtones sm_highlights pushSample zs_r];
    rewrite length_app; cbn [length]; lia.
Qed.

Lemma sampleTotal_fold (data : ImageData) (step : nat) (l : list nat) :
  forall s,
    sampleTotal (fold_left (fun s j => sampleAt data (j * step) s) l s)
    = (sampleTotal s + length l)%nat.
Proof.
  induction l as [| j l IH]; intros s; cbn [fold_left length]; [lia |].
  rewrite IH, sampleTotal_sampleAt. lia.
Qed.

Lemma processZone_count (zone : ZoneSamples) :
  match processZone zone with
  | Some zs => count zs
  | None => 0%nat
  end = length (zs_r zone)
  /\ (processZone zone = None <-> length (zs_r zone) = 0%nat).
Proof.
  unfold processZone.
  destruct (Nat.eqb_spec (length (zs_r zone)) 0) as [H0 | Hne].
  - split; [now rewrite H0 | tauto].
  - split; [reflexivity |]. split; [discriminate | contradiction].
Qed.

Lemma zoneCount_analyzePixels (data : ImageData) (zone : Zone) :
  zoneCount (analyzePixels data) zone
  = length (zs_r (zoneSamples (samplePixels data) zone))
  /\ (zoneStats (analyzePixels data) zone = None
      <-> zoneCount (analyzePixels data) zone = 0%nat).
Proof.
  unfold zoneCount.
  destruct zone; cbn [zoneStats analyzePixels shadows midtones highlights
                      zoneSamples];
    match goal with
    | |- context [processZone ?z] =>
        destruct (processZone_count z) as [Hc Hn]
    end;
    (split; [exact Hc |]); rewrite Hn, <- Hc; reflexivity.
Qed.

Lemma zoneCounts_total (data : ImageData) :
  (zoneCount (analyzePixels data) Shadows
   + zoneCount (analyzePixels data) Midtones
   + zoneCount (analyzePixels data) Highlights
   = strideTurns (length data) 64)%nat.
Proof.
  rewrite !(proj1 (zoneCount_analyzePixels data _)). cbn [zoneSamples].
  change (sampleTotal (samplePixels data) = strideTurns (length data) 64).
  unfold samplePixels. rewrite forStride_fold by (unfold sampleRate; lia).
  rewrite sampleTotal_fold, length_seq. reflexivity.
Qed.

(** X5.  On every buffer the scan takes one sample every 16 pixels (64 bytes)
    and puts each sample in exactly one zone: the counts of the three zones
    add up to the number of samples; a zone is absent from the analysis
    exactly when it received no sample. *)
Theorem sampler_counts_partition_the_samples (data : ImageData) :
  (zoneCount (analyzePixels data) Shadows
   + zoneCount (analyzePixels data) Midtones
   + zoneCount (analyzePixels data) Highlights
   = strideTurns (length data) 64)%nat
  /\ forall zone,
       zoneStats (analyzePixels data) zone = None
       <-> zoneCount (analyzePixels data) zone = 0%nat.
Proof.
  split.
  - apply zoneCounts_total.
  - intros zone. apply zoneCount_analyzePixels.
Qed.

(** ** The sampler: means within bounds *)

Lemma between_Num (lo hi : R) (x : number) :
  between lo hi x -> exists v, x = Num v /\ lo <= v <= hi.
Proof. destruct x as [| v]; [easy |]. intros H. now exists v. Qed.

(** The sum of numbers lying in [lo, hi]. *)
Lemma fold_add_between (lo hi : R) (xs : list number) :
  Forall (between lo hi) xs ->
  forall acc,
    exists S,
      fold_left (fun a b => (a + b)%js) xs (Num acc) = Num (acc + S)
      /\ lo * INR (length xs) <= S <= hi * INR (length xs).
Proof.
  induction 1 as [| x xs Hx Hxs IH]; intros acc.
  - exists 0. simpl. split; [f_equal; lra | lra].
  - destruct (between_Num _ _ _ Hx) as (v & -> & Hv).
    cbn [fold_left add]. destruct (IH (acc + v)) as (S & HS & Hb).
    exists (v + S). split; [rewrite HS; f_equal; lra |].
    change (length (Num v :: xs)) with (Datatypes.S (length xs)).
    rewrite S_INR. lra.
Qed.

Lemma mean_between (lo hi : R) (xs : list number) :
  xs <> [] -> Forall (between lo hi) xs ->
  between lo hi (reduceSum (fun v => v) xs / ofNat (length xs))%js.
Proof.
  intros Hne Hxs. unfold reduceSum, ofNat.
  destruct (fold_add_between lo hi xs Hxs 0) as (S & HS & Hb).
  rewrite HS.
  assert (Hn : 0 < INR (length xs)).
  { apply lt_0_INR. destruct xs; [contradiction | simpl; lia]. }
  rewrite div_Num by lra. cbn [between].
  replace (0 + S) with S by lra.
  split.
  - apply Rmult_le_reg_r with (INR (length xs)); [exact Hn |].
    unfold Rdiv. rewrite Rmult_assoc, Rinv_l by lra. lra.
  - apply Rmult_le_reg_r with (INR (length xs)); [exact Hn |].
    unfold Rdiv. rewrite Rmult_assoc, Rinv_l by lra. lra.
Qed.

(** The sum of numbers of a band, against the bounds of the band; the
    upper bound is strict where the band is open. *)
Lemma fold_add_band (zone : Zone) (xs : list number) :
  Forall (inBand zone) xs ->
  forall acc,
    exists S,
      fold_left (fun a b => (a + b)%js) xs (Num acc) = Num (acc + S)
      /\ match zone with
         | Shadows =>
             0 <= S <= 0.25 * INR (length xs)
             /\ (xs <> [] -> S < 0.25 * INR (length xs))
         | Midtones =>
             0.25 * INR (length xs) <= S <= 0.75 * INR (length xs)
             /\ (xs <> [] -> S < 0.75 * INR (length xs))
         | Highlights =>
             0.75 * INR (length xs) <= S <= INR (length xs)
         end.
Proof.
  induction 1 as [| x xs Hx Hxs IH]; intros acc.
  - exists 0. simpl. split; [f_equal; lra |].
    destruct zone; repeat split; try lra; intros H; now contradiction H.
  - destruct x as [| v]; [easy |].
    cbn [fold_left add]. destruct (IH (acc + v)) as (S & HS & Hb).
    exists (v + S). split; [rewrite HS; f_equal; lra |].
    change (length (Num v :: xs)) with (Datatypes.S (length xs)).
    rewrite S_INR. cbn [inBand] in Hx.
    assert (Hn : 0 <= INR (length xs)) by apply pos_INR.
    destruct zone.
    + destruct Hb as [H0 Hlt]. split; [lra |]. intros _. lra.
    + destruct Hb as [H0 Hlt]. split; [lra |]. intros _. lra.
    + lra.
Qed.

Lemma mean_in_band (zone : Zone) (xs : list number) :
  xs <> [] -> Forall (inBand zone) xs ->
  inBand zone (reduceSum (fun v => v) xs / ofNat (length xs))%js.
Proof.
  intros Hne Hxs. unfold reduceSum, ofNat.
  destruct (fold_add_band zone xs Hxs 0) as (S & HS & Hb).
  rewrite HS.
  assert (Hn : 0 < INR (length xs)).
  { apply lt_0_INR. destruct xs; [contradiction | simpl; lia]. }
  rewrite div_Num by lra. cbn [inBand].
  replace (0 + S) with S by lra.
  assert (Hdiv : forall c, c * INR (length xs) <= S -> c <= S / INR (length xs)).
  { intros c Hc. apply Rmult_le_reg_r with (INR (length xs)); [exact Hn |].
    unfold Rdiv. rewrite Rmult_assoc, Rinv_l by lra. lra. }
  assert (Hdiv' : forall c, S < c * INR (length xs) ->
                            S / INR (length xs) < c).
  { intros c Hc. apply Rmult_lt_reg_r with (INR (length xs)); [exact Hn |].
    unfold Rdiv. rewrite Rmult_assoc, Rinv_l by lra. lra. }
  assert (Hdiv'' : forall c, S <= c * INR (length xs) ->
                             S / INR (length xs) <= c).
  { intros c Hc. apply Rmult_le_reg_r with (INR (length xs)); [exact Hn |].
    unfold Rdiv. rewrite Rmult_assoc, Rinv_l by lra. lra. }
  destruct zone.
  - destruct Hb as [H0 Hlt]. split; [apply Hdiv; lra | apply Hdiv'; auto].
  - destruct Hb as [H0 Hlt]. split; [apply Hdiv; lra | apply Hdiv'; auto].
  - split; [apply Hdiv; lra | apply Hdiv''; lra].
Qed.

Lemma byteAt_valid (data : ImageData) (i : nat) :
  validBytes data -> (i < length data)%nat ->
  exists v, (byteAt data i / 255)%js = Num v /\ 0 <= v <= 1.
Proof.
  intros Hvalid Hi. unfold byteAt.
  destruct (nth_error data i) as [z |] eqn:Hnth.
  2:{ apply nth_error_None in Hnth. lia. }
  apply nth_error_In in Hnth. unfold validBytes in Hvalid.
  rewrite Forall_forall in Hvalid. specialize (Hvalid z Hnth).
  destruct Hvalid as [H0 H255]. apply IZR_le in H0, H255.
  unfold ofZ. rewrite div_Num by lra. eexists. split; [reflexivity |].
  split.
  - apply Rmult_le_reg_r with 255; [lra |].
    unfold Rdiv. rewrite Rmult_assoc, Rinv_l by lra. lra.
  - apply Rmult_le_reg_r with 255; [lra |].
    unfold Rdiv. rewrite Rmult_assoc, Rinv_l by lra. lra.
Qed.

Lemma bandZone_push (zone : Zone) (z : ZoneSamples) (r g b l : R)
      (c : LAB) :
  bandZone zone z -> 0 <= r <= 1 -> 0 <= g <= 1 -> 0 <= b <= 1 ->
  inBand zone (Num l) ->
  bandZone zone (pushSample z (Num r) (Num g) (Num b) (Num l) c).
Proof.
  intros (Hr & Hg & Hb & Hl & Lg & Lb & Ll) Fr Fg Fb Fl.
  unfold bandZone, pushSample. cbn [zs_r zs_g zs_b zs_luminance].
  rewrite !length_app, Lg, Lb, Ll.
  repeat split; try reflexivity; apply Forall_app; split; auto;
    repeat constructor; assumption.
Qed.

Lemma bandSamples_sampleAt (data : ImageData) (i : nat) (s : Samples) :
  validBytes data -> (i + 2 < length data)%nat ->
  bandSamples s -> bandSamples (sampleAt data i s).
Proof.
  intros Hvalid Hi Hs. unfold sampleAt.
  destruct (byteAt_valid data i Hvalid ltac:(lia)) as (r & -> & Hr).
  destruct (byteAt_valid data (i + 1) Hvalid ltac:(lia)) as (g & -> & Hg).
  destruct (byteAt_valid data (i + 2) Hvalid ltac:(lia)) as (b & -> & Hb).
  rewrite rgbToGrayscale_luminance.
  set (l := 0.299 * r + 0.587 * g + 0.114 * b).
  assert (Hl : 0 <= l <= 1) by (unfold l; lra).
  pose proof (Hs Shadows) as HS. pose proof (Hs Midtones) as HM.
  pose proof (Hs Highlights) as HH. cbn [zoneSamples] in HS, HM, HH.
  destruct (Num l <? 0.25)%js eqn:H25.
  - apply ltb_true_iff in H25.
    intros []; cbn [zoneSamples sm_shadows sm_midtones sm_highlights];
      try assumption.
    apply bandZone_push; try assumption. cbn [inBand]. lra.
  - apply ltb_false_iff in H25.
    destruct (Num l <? 0.75)%js eqn:H75.
    + apply ltb_true_iff in H75.
      intros []; cbn [zoneSamples sm_shadows sm_midtones sm_highlights];
        try assumption.
      apply bandZone_push; try assumption. cbn [inBand]. lra.
    + apply ltb_false_iff in H75.
      intros []; cbn [zoneSamples sm_shadows sm_midtones sm_highlights];
        try assumption.
      apply bandZone_push; try assumption. cbn [inBand]. lra.
Qed.

Lemma bandSamples_samplePixels (data : ImageData) :
  wellFormed data -> validBytes data -> bandSamples (samplePixels data).
Proof.
  intros Hwf Hvalid. unfold samplePixels.
  rewrite forStride_fold by (unfold sampleRate; lia).
  apply fold_left_invariant.
  - intros []; repeat split; constructor.
  - intros k s Hin Hs. apply bandSamples_sampleAt; try assumption.
    apply in_seq in Hin. destruct Hin as [_ Hk]. rewrite Nat.add_0_l in Hk.
    apply stride_turns in Hk; [| unfold sampleRate; lia].
    unfold wellFormed in Hwf. unfold sampleRate in *.
    pose proof (Nat.Div0.div_mod (length data) 4) as Hdm. lia.
Qed.

Lemma band_processZone (zone : Zone) (z : ZoneSamples) (zs : ZoneStats) :
  bandZone zone z -> processZone z = Some zs ->
  between 0 1 (rgb_r (rgb zs)) /\ between 0 1 (rgb_g (rgb zs))
  /\ between 0 1 (rgb_b (rgb zs)) /\ inBand zone (avg (luminance zs)).
Proof.
  intros (Hr & Hg & Hb & Hl & Lg & Lb & Ll). unfold processZone.
  destruct (Nat.eqb_spec (length (zs_r z)) 0) as [| Hne]; [discriminate |].
  intros [= <-]. cbn [rgb luminance avg rgb_r rgb_g rgb_b].
  assert (Hnil : forall A (l : list A), length l = length (zs_r z) -> l <> []).
  { intros A l Hlen ->. simpl in Hlen. lia. }
  repeat split.
  - apply mean_between; [apply (Hnil _ _ eq_refl) | exact Hr].
  - apply mean_between; [apply (Hnil _ _ Lg) | exact Hg].
  - apply mean_between; [apply (Hnil _ _ Lb) | exact Hb].
  - apply mean_in_band; [apply (Hnil _ _ Ll) | exact Hl].
Qed.

Lemma band_zoneStats (data : ImageData) (zone : Zone) (zs : ZoneStats) :
  wellFormed data -> validBytes data ->
  zoneStats (analyzePixels data) zone = Some zs ->
  between 0 1 (rgb_r (rgb zs)) /\ between 0 1 (rgb_g (rgb zs))
  /\ between 0 1 (rgb_b (rgb zs)) /\ inBand zone (avg (luminance zs)).
Proof.
  intros Hwf Hvalid Hzs.
  pose proof (bandSamples_samplePixels data Hwf Hvalid zone) as Hband.
  destruct zone; cbn [zoneStats analyzePixels shadows midtones highlights
                      zoneSamples] in *;
    eapply band_processZone; eassumption.
Qed.

(** X6.  The statistics of a zone, for an RGBA buffer of bytes: the mean of
    each channel lies in [0, 1] and the mean luminance lies in the band of the
    zone (below 0.25 for the shadows, from 0.25 to below 0.75 for the
    midtones, from 0.75 to 1 for the highlights). *)
Theorem zone_means_stay_in_their_band (data : ImageData) (zone : Zone)
        (zs : ZoneStats) :
  wellFormed data -> validBytes data ->
  zoneStats (analyzePixels data) zone = Some zs ->
  between 0 1 (rgb_r (rgb zs)) /\ between 0 1 (rgb_g (rgb zs))
  /\ between 0 1 (rgb_b (rgb zs)) /\ inBand zone (avg (luminance zs)).
Proof. exact (band_zoneStats data zone zs). Qed.

Lemma validBytes_flat (p : Pixel) (n : nat) :
  (0 <= px_r p <= 255)%Z -> (0 <= px_g p <= 255)%Z ->
  (0 <= px_b p <= 255)%Z -> (0 <= px_a p <= 255)%Z ->
  validBytes (pixelBytes (repeat p n)).
Proof.
  intros Hr Hg Hb Ha. unfold validBytes, pixelBytes.
  induction n as [| n IH]; cbn [repeat flat_map app].
  - constructor.
  - repeat (constructor; [assumption |]). exact IH.
Qed.

(** A flat midtone image has midtone statistics. *)
Lemma flat_midtones_present (p : Pixel) (n : nat) :
  (0 < n)%nat ->
  0.25 <= pixelLuminance p < 0.75 ->
  exists zs,
    zoneStats (analyzePixels (pixelBytes (repeat p n))) Midtones = Some zs.
Proof.
  intros Hn Hlum.
  destruct (analyzePixels_flat_midtone p n Hn Hlum) as (_ & Hs & Hh & _).
  pose proof (zoneCounts_total (pixelBytes (repeat p n))) as Htotal.
  destruct (zoneStats (analyzePixels (pixelBytes (repeat p n))) Midtones)
    as [zs |] eqn:Hm; [now exists zs |].
  exfalso.
  assert (H0 : (0 < strideTurns (length (pixelBytes (repeat p n))) 64)%nat).
  { apply stride_turns; [lia |].
    rewrite length_pixelBytes, repeat_length. lia. }
  unfold zoneCount in Htotal. rewrite Hm in Htotal.
  cbn [zoneStats] in Htotal. rewrite Hs, Hh in Htotal. lia.
Qed.

Lemma orange_bytes_are_valid : validBytes orangeImage.
Proof.
  exact (validBytes_flat (mkPixel 200 100 50 255) 512
           ltac:(cbn; lia) ltac:(cbn; lia) ltac:(cbn; lia) ltac:(cbn; lia)).
Qed.

Lemma orange_midtones_present :
  exists zs, zoneStats (analyzePixels orangeImage) Midtones = Some zs.
Proof.
  exact (flat_midtones_present (mkPixel 200 100 50 255) 512
           image_size_positive orange_pixel_is_midtone).
Qed.

Lemma orange_image_is_well_formed : wellFormed orangeImage.
Proof. exact (wellFormed_pixelBytes (repeat (mkPixel 200 100 50 255) 512)). Qed.

Lemma zone_means_stay_in_their_band_at_orange_image :
  wellFormed orangeImage /\ validBytes orangeImage
  /\ exists zs,
       zoneStats (analyzePixels orangeImage) Midtones = Some zs
       /\ between 0 1 (rgb_r (rgb zs)) /\ between 0 1 (rgb_g (rgb zs))
       /\ between 0 1 (rgb_b (rgb zs))
       /\ inBand Midtones (avg (luminance zs)).
Proof.
  split; [exact orange_image_is_well_formed |].
  split; [exact orange_bytes_are_valid |].
  destruct orange_midtones_present as [zs Hzs].
  exists zs. split; [exact Hzs |].
  exact (zone_means_stay_in_their_band orangeImage Midtones zs
           orange_image_is_well_formed orange_bytes_are_valid Hzs).
Defined.

(** ** Aggregation, zone by zone *)

Lemma zone_eqb_eq (z z' : Zone) : zone_eqb z z' = true <-> z = z'.
Proof. destruct z, z'; simpl; split; intros H; congruence. Qed.

Lemma addZone_view (ca : CombinedAnalysis) (a : ImageAnalysis) (z' z : Zone) :
  combinedZone (addZone ca a z') z
  = if zone_eqb z z' then stepZone (combinedZone ca z') a z'
    else combinedZone ca z.
Proof.
  unfold addZone, stepZone.
  destruct (zone_eqb z z') eqn:Heq.
  - apply zone_eqb_eq in Heq. subst z'.
    destruct (zoneStats a z) as [zs |]; [| reflexivity].
    destruct (Nat.ltb 0 (count zs)); [| reflexivity].
    rewrite combinedZone_set.
    now rewrite (proj2 (zone_eqb_eq z z) eq_refl).
  - destruct (zoneStats a z') as [zs |]; [| reflexivity].
    destruct (Nat.ltb 0 (count zs)); [| reflexivity].
    now rewrite combinedZone_set, Heq.
Qed.

Lemma normalizeZone_view (ca : CombinedAnalysis) (z' z : Zone) :
  combinedZone (normalizeZone ca z') z
  = if zone_eqb z z' then normalizeStats (combinedZone ca z')
    else combinedZone ca z.
Proof.
  unfold normalizeZone, normalizeStats.
  destruct (zone_eqb z z') eqn:Heq.
  - apply zone_eqb_eq in Heq. subst z'.
    destruct (cz_weight (combinedZone ca z) >? 0)%js; [| reflexivity].
    rewrite combinedZone_set.
    now rewrite (proj2 (zone_eqb_eq z z) eq_refl).
  - destruct (cz_weight (combinedZone ca z') >? 0)%js; [| reflexivity].
    now rewrite combinedZone_set, Heq.
Qed.

Lemma addZones_view (ca : CombinedAnalysis) (a : ImageAnalysis) (z : Zone) :
  combinedZone (fold_left (fun ca zone => addZone ca a zone) zones ca) z
  = stepZone (combinedZone ca z) a z.
Proof.
  cbn [zones fold_left]. destruct z; rewrite !addZone_view;
    cbn [zone_eqb]; reflexivity.
Qed.

Lemma accumulate_view (analyses : list ImageAnalysis) (z : Zone) :
  forall ca,
    combinedZone (accumulate analyses ca) z
    = fold_left (fun cz a => stepZone cz a z) analyses (combinedZone ca z).
Proof.
  unfold accumulate.
  induction analyses as [| a analyses IH]; intros ca; cbn [fold_left].
  - reflexivity.
  - now rewrite IH, addZones_view.
Qed.

(** The zones are aggregated independently: the aggregate of a zone is the
    normalised sum of what the images hold for this zone. *)
Lemma combineAnalyses_view (analyses : list ImageAnalysis) (z : Zone) :
  combinedZone (combineAnalyses analyses) z
  = normalizeStats
      (fold_left (fun cz a => stepZone cz a z) analyses zeroZone).
Proof.
  unfold combineAnalyses. cbn [zones fold_left].
  destruct z; rewrite !normalizeZone_view; cbn [zone_eqb];
    rewrite accumulate_view; reflexivity.
Qed.

Lemma stepZone_weight (cz : CombinedZone) (a : ImageAnalysis) (z : Zone)
      (w : R) :
  cz_weight cz = Num w ->
  cz_weight (stepZone cz a z) = Num (w + INR (zoneCount a z)).
Proof.
  intros Hw. unfold stepZone, zoneCount.
  destruct (zoneStats a z) as [zs |].
  - destruct (Nat.ltb_spec 0 (count zs)) as [Hpos | Hzero].
    + cbn [cz_weight]. now rewrite Hw.
    + replace (count zs) with 0%nat by lia. rewrite Hw. f_equal. simpl. lra.
  - rewrite Hw. f_equal. simpl. lra.
Qed.

Lemma accumulated_weight (analyses : list ImageAnalysis) (z : Zone) :
  forall cz w,
    cz_weight cz = Num w ->
    cz_weight (fold_left (fun cz a => stepZone cz a z) analyses cz)
    = Num (w + INR (totalCount analyses z)).
Proof.
  unfold totalCount.
  induction analyses as [| a analyses IH]; intros cz w Hw;
    cbn [fold_left map list_sum].
  - rewrite Hw. f_equal. simpl. lra.
  - rewrite (IH _ _ (stepZone_weight cz a z w Hw)).
    change (list_sum (?x :: ?l)) with (x + list_sum l)%nat.
    rewrite plus_INR. f_equal. lra.
Qed.

Lemma normalizeStats_weight (cz : CombinedZone) :
  cz_weight (normalizeStats cz) = cz_weight cz.
Proof.
  unfold normalizeStats. now destruct (cz_weight cz >? 0)%js.
Qed.

(** X7.  The weight of a zone in the aggregate is the number of samples the
    batch holds for this zone, whatever the images. *)
Theorem aggregate_weight_is_the_sample_count
        (analyses : list ImageAnalysis) (zone : Zone) :
  cz_weight (combinedZone (combineAnalyses analyses) zone)
  = Num (INR (totalCount analyses zone)).
Proof.
  rewrite combineAnalyses_view, normalizeStats_weight.
  rewrite (accumulated_weight analyses zone zeroZone 0 eq_refl).
  f_equal. lra.
Qed.

Lemma stepZone_stat (cz : CombinedZone) (a : ImageAnalysis) (z : Zone)
      (zs : ZoneStats) (k : Statistic) :
  zoneStats a z = Some zs -> (0 < count zs)%nat ->
  combinedStat (stepZone cz a z) k
  = (combinedStat cz k + statOf zs k * ofNat (count zs))%js
  /\ cz_weight (stepZone cz a z) = (cz_weight cz + ofNat (count zs))%js.
Proof.
  intros Hzs Hpos. unfold stepZone. rewrite Hzs.
  rewrite (proj2 (Nat.ltb_lt 0 (count zs)) Hpos).
  destruct k; split; reflexivity.
Qed.

Lemma stepZone_skip (cz : CombinedZone) (a : ImageAnalysis) (z : Zone) :
  zoneCount a z = 0%nat -> stepZone cz a z = cz.
Proof.
  unfold zoneCount, stepZone. destruct (zoneStats a z) as [zs |];
    [| reflexivity].
  intros ->. reflexivity.
Qed.

Lemma accumulated_stat (z : Zone) (k : Statistic) (lo hi : R)
      (analyses : list ImageAnalysis) :
  (forall a zs, In a analyses -> zoneStats a z = Some zs ->
                (0 < count zs)%nat -> between lo hi (statOf zs k)) ->
  forall cz S w,
    combinedStat cz k = Num S -> cz_weight cz = Num w ->
    lo * w <= S <= hi * w ->
    exists S',
      combinedStat (fold_left (fun cz a => stepZone cz a z) analyses cz) k
      = Num S'
      /\ lo * (w + INR (totalCount analyses z)) <= S'
         <= hi * (w + INR (totalCount analyses z)).
Proof.
  unfold totalCount.
  induction analyses as [| a analyses IH]; intros Hall cz S w HS Hw Hb;
    cbn [fold_left map].
  - exists S. split; [exact HS |]. simpl. lra.
  - change (list_sum (?x :: ?l)) with (x + list_sum l)%nat.
    rewrite plus_INR.
    assert (Hrest : forall a' zs, In a' analyses ->
                                  zoneStats a' z = Some zs ->
                                  (0 < count zs)%nat ->
                                  between lo hi (statOf zs k))
      by (intros a' zs Hin; apply Hall; now right).
    destruct (Nat.eq_dec (zoneCount a z) 0) as [Hzero | Hpos].
    + rewrite (stepZone_skip cz a z Hzero), Hzero.
      destruct (IH Hrest cz S w HS Hw Hb) as (S' & HS' & Hb').
      exists S'. split; [exact HS' |]. simpl. lra.
    + destruct (zoneStats a z) as [zs |] eqn:Hzs;
        [| unfold zoneCount in Hpos; rewrite Hzs in Hpos; contradiction].
      assert (Hcount : zoneCount a z = count zs)
        by (unfold zoneCount; now rewrite Hzs).
      rewrite Hcount in *.
      assert (Hc : (0 < count zs)%nat) by lia.
      destruct (stepZone_stat cz a z zs k Hzs Hc) as [Hstat Hweight].
      destruct (between_Num _ _ _ (Hall a zs (or_introl eq_refl) Hzs Hc))
        as (v & Hv & Hvb).
      rewrite HS, Hv in Hstat. rewrite Hw in Hweight.
      pose proof (lt_0_INR _ Hc) as Hcr.
      destruct (IH Hrest (stepZone cz a z) (S + v * INR (count zs))
                   (w + INR (count zs)) Hstat Hweight) as (S' & HS' & Hb').
      { nra. }
      exists S'. split; [exact HS' |]. lra.
Qed.

Lemma normalizeStats_stat (cz : CombinedZone) (k : Statistic) (S w : R) :
  combinedStat cz k = Num S -> cz_weight cz = Num w -> 0 < w ->
  combinedStat (normalizeStats cz) k = Num (S / w).
Proof.
  intros HS Hw Hpos. unfold normalizeStats. rewrite Hw.
  rewrite (proj2 (gtb_true_iff w 0)) by lra.
  destruct k; cbn [combinedStat cz_rgb cz_luminance cz_lab rgb_r rgb_g rgb_b
                   avg lab_L lab_a lab_b] in *;
    rewrite HS; apply div_Num; lra.
Qed.

Lemma zeroZone_stat (k : Statistic) : combinedStat zeroZone k = Num 0.
Proof. destruct k; reflexivity. Qed.

Lemma aggregate_between
        (analyses : list ImageAnalysis) (zone : Zone) (k : Statistic)
        (lo hi : R) :
  (forall a zs, In a analyses -> zoneStats a zone = Some zs ->
                (0 < count zs)%nat -> between lo hi (statOf zs k)) ->
  (0 < totalCount analyses zone)%nat ->
  between lo hi
    (combinedStat (combinedZone (combineAnalyses analyses) zone) k).
Proof.
  intros Hall Hpos.
  rewrite combineAnalyses_view.
  destruct (accumulated_stat zone k lo hi analyses Hall zeroZone 0 0
              (zeroZone_stat k) eq_refl ltac:(lra))
    as (S & HS & Hb).
  pose proof (accumulated_weight analyses zone zeroZone 0 eq_refl) as Hw.
  pose proof (lt_0_INR _ Hpos) as Hn.
  rewrite (normalizeStats_stat _ k S _ HS Hw) by lra.
  cbn [between].
  set (n := INR (totalCount analyses zone)) in *.
  replace (0 + n) with n in * by lra.
  split.
  - apply Rmult_le_reg_r with n; [exact Hn |].
    unfold Rdiv. rewrite Rmult_assoc, Rinv_l by lra. lra.
  - apply Rmult_le_reg_r with n; [exact Hn |].
    unfold Rdiv. rewrite Rmult_assoc, Rinv_l by lra. lra.
Qed.

(** X8.  The aggregate of a zone is a weighted mean: when each image that
    holds samples of the zone has its statistic within [lo, hi], and one image
    at least holds samples, the aggregated statistic is within [lo, hi]. *)
Theorem aggregate_stays_between_the_images
        (analyses : list ImageAnalysis) (zone : Zone) (k : Statistic)
        (lo hi : R) :
  (forall a zs, In a analyses -> zoneStats a zone = Some zs ->
                (0 < count zs)%nat -> between lo hi (statOf zs k)) ->
  (0 < totalCount analyses zone)%nat ->
  between lo hi
    (combinedStat (combinedZone (combineAnalyses analyses) zone) k).
Proof. exact (aggregate_between analyses zone k lo hi). Qed.

Lemma inBand_between (zone : Zone) (x : number) :
  inBand zone x -> between (bandLower zone) (bandUpper zone) x.
Proof.
  destruct x as [| v]; [easy |].
  destruct zone; cbn [inBand between bandLower bandUpper]; lra.
Qed.

Lemma flat_midtones_counted (p : Pixel) (n : nat) :
  (0 < n)%nat ->
  0.25 <= pixelLuminance p < 0.75 ->
  (0 < totalCount [analyzePixels (pixelBytes (repeat p n))] Midtones)%nat.
Proof.
  intros Hn Hlum.
  destruct (flat_midtones_present p n Hn Hlum) as [zs Hzs].
  destruct (zoneCount_analyzePixels (pixelBytes (repeat p n)) Midtones)
    as [_ Hnone].
  unfold totalCount. cbn [map list_sum fold_right].
  destruct (Nat.eq_dec (zoneCount (analyzePixels (pixelBytes (repeat p n)))
                                  Midtones) 0) as [H0 | H0]; [| lia].
  apply Hnone in H0. congruence.
Qed.

Lemma orange_midtones_counted :
  (0 < totalCount [analyzePixels orangeImage] Midtones)%nat.
Proof.
  exact (flat_midtones_counted (mkPixel 200 100 50 255) 512
           image_size_positive orange_pixel_is_midtone).
Qed.

Lemma orange_midtone_luminance (a : ImageAnalysis) (zs : ZoneStats) :
  In a [analyzePixels orangeImage] -> zoneStats a Midtones = Some zs ->
  (0 < count zs)%nat -> between 0.25 0.75 (statOf zs MeanLuminance).
Proof.
  intros [<- | []] Hzs _.
  exact (inBand_between Midtones _
           (proj2 (proj2 (proj2 (band_zoneStats orangeImage Midtones zs
                                   orange_image_is_well_formed
                                   orange_bytes_are_valid Hzs))))).
Qed.

Lemma aggregate_stays_between_the_images_at_orange_image :
  (0 < totalCount [analyzePixels orangeImage] Midtones)%nat
  /\ between 0.25 0.75
       (combinedStat
          (combinedZone (combineAnalyses [analyzePixels orangeImage])
                        Midtones) MeanLuminance).
Proof.
  split; [exact orange_midtones_counted |].
  exact (aggregate_stays_between_the_images [analyzePixels orangeImage]
           Midtones MeanLuminance 0.25 0.75 orange_midtone_luminance
           orange_midtones_counted).
Defined.

Lemma statOf_between (data : ImageData) (zone : Zone) (zs : ZoneStats) :
  wellFormed data -> validBytes data ->
  zoneStats (analyzePixels data) zone = Some zs ->
  between 0 1 (statOf zs MeanRed) /\ between 0 1 (statOf zs MeanGreen)
  /\ between 0 1 (statOf zs MeanBlue)
  /\ between (bandLower zone) (bandUpper zone) (statOf zs MeanLuminance).
Proof.
  intros Hwf Hvalid Hzs.
  destruct (band_zoneStats data zone zs Hwf Hvalid Hzs)
    as (Hr & Hg & Hb & Hl).
  repeat split; try assumption; now apply inBand_between.
Qed.

(** X9.  Sampler and aggregation together.  For a batch of RGBA buffers of
    bytes and a zone that received a sample from one of them at least, the
    aggregated mean of each channel lies in [0, 1] and the aggregated
    luminance lies in the closed band of the zone. *)
Theorem aggregate_of_byte_buffers_stays_in_range
        (images : list ImageData) (zone : Zone) :
  Forall wellFormed images -> Forall validBytes images ->
  (0 < totalCount (map analyzePixels images) zone)%nat ->
  between 0 1
    (rgb_r (cz_rgb (combinedZone (combineAnalyses (map analyzePixels images))
                                 zone)))
  /\ between 0 1
       (rgb_g (cz_rgb (combinedZone
                         (combineAnalyses (map analyzePixels images)) zone)))
  /\ between 0 1
       (rgb_b (cz_rgb (combinedZone
                         (combineAnalyses (map analyzePixels images)) zone)))
  /\ between (bandLower zone) (bandUpper zone)
       (avg (cz_luminance
               (combinedZone (combineAnalyses (map analyzePixels images))
                             zone))).
Proof.
  intros Hwf Hvalid Hpos.
  assert (Hall : forall a zs,
             In a (map analyzePixels images) ->
             zoneStats a zone = Some zs ->
             between 0 1 (statOf zs MeanRed)
             /\ between 0 1 (statOf zs MeanGreen)
             /\ between 0 1 (statOf zs MeanBlue)
             /\ between (bandLower zone) (bandUpper zone)
                  (statOf zs MeanLuminance)).
  { intros a zs Hin Hzs. apply in_map_iff in Hin.
    destruct Hin as (data & <- & Hdata).
    rewrite Forall_forall in Hwf, Hvalid.
    exact (statOf_between data zone zs (Hwf _ Hdata) (Hvalid _ Hdata) Hzs). }
  split; [| split; [| split]].
  - apply (aggregate_between _ zone MeanRed 0 1); [| exact Hpos].
    intros a zs Hin Hzs _. apply (Hall a zs Hin Hzs).
  - apply (aggregate_between _ zone MeanGreen 0 1); [| exact Hpos].
    intros a zs Hin Hzs _. apply (Hall a zs Hin Hzs).
  - apply (aggregate_between _ zone MeanBlue 0 1); [| exact Hpos].
    intros a zs Hin Hzs _. apply (Hall a zs Hin Hzs).
  - apply (aggregate_between _ zone MeanLuminance); [| exact Hpos].
    intros a zs Hin Hzs _. apply (Hall a zs Hin Hzs).
Qed.

Lemma aggregate_of_byte_buffers_stays_in_range_at_orange_image :
  Forall wellFormed [orangeImage] /\ Forall validBytes [orangeImage]
  /\ (0 < totalCount (map analyzePixels [orangeImage]) Midtones)%nat
  /\ between 0.25 0.75
       (avg (cz_luminance
               (combinedZone
                  (combineAnalyses (map analyzePixels [orangeImage]))
                  Midtones))).
Proof.
  split; [exact (Forall_cons _ orange_image_is_well_formed (Forall_nil _)) |].
  split; [exact (Forall_cons _ orange_bytes_are_valid (Forall_nil _)) |].
  split; [exact orange_midtones_counted |].
  exact (proj2 (proj2 (proj2
           (aggregate_of_byte_buffers_stays_in_range [orangeImage] Midtones
              (Forall_cons _ orange_image_is_well_formed (Forall_nil _))
              (Forall_cons _ orange_bytes_are_valid (Forall_nil _))
              orange_midtones_counted)))).
Defined.

(** ** The colour branch after the contrast block *)

Lemma applySCurve_NaN (s : R) : s <> 0 -> applySCurve NaN (Num s) = NaN.
Proof.
  intros Hs. unfold applySCurve. cbn [ltb sub mul].
  unfold Math_pow. destruct (Req_dec_T s 0); [contradiction | reflexivity].
Qed.

Lemma clamped_contrast (s : R) (z : Z) (x : number) :
  0 < s -> IZR z < s < IZR (z + 1) ->
  Math_max 0 (Math_min 1 (applySCurve x (Num s))) = contrastOutcome s x.
Proof.
  intros Hpos Hs. destruct x as [| v]; cbn [contrastOutcome].
  - rewrite applySCurve_NaN by lra. reflexivity.
  - destruct (Rle_dec 0 v) as [H0 | H0].
    + destruct (Rle_dec v 1) as [H1 | H1].
      * rewrite applySCurve_unit by lra.
        apply unit_clamp_id. cbn [inUnit].
        apply sCurveValue_range; lra.
      * rewrite (applySCurve_above_one v s z) by lra. reflexivity.
    + rewrite (applySCurve_negative v s z) by lra. reflexivity.
Qed.

Lemma colour_entry_outcome (level : Z) (method : string)
      (analyses : list ImageAnalysis) (inputR inputG inputB : number)
      (c : Colour) :
  (1 <= level <= 5)%Z ->
  existsb isBlackAndWhite analyses = false ->
  channel c (lutEntry (lutContext level method analyses)
                      inputR inputG inputB)
  = contrastOutcome (1 + 0.06 * IZR level)
      (channel c (colourBeforeContrast
                    (lutContext level method analyses)
                    (rgbToGrayscale inputR inputG inputB "luminance")
                    inputR inputG inputB)).
Proof.
  intros Hlevel Hbw.
  destruct (context_scalars level method analyses) as (_ & Hcb & _).
  assert (Hl : 1 <= IZR level <= 5)
    by (split; [apply (IZR_le 1) | apply (IZR_le _ 5)]; lia).
  assert (Hcb' : contrastBoost (lutContext level method analyses)
                 = Num (1 + 0.06 * IZR level))
    by (rewrite Hcb; f_equal; lra).
  unfold lutEntry. rewrite lutContext_combined.
  rewrite (proj1 (combineAnalyses_flag analyses)), Hbw.
  change (colourBranch ?ctx ?l ?r ?g ?b)
    with (contrastStep ctx (colourBeforeContrast ctx l r g b)).
  unfold contrastStep. rewrite Hcb'.
  rewrite strict_neq_Num by lra.
  destruct c; cbn [channel finalClamp rgb_r rgb_g rgb_b];
    apply (clamped_contrast _ 1); simpl; lra.
Qed.

(** X10.  The colour branch, for the levels of the slider (1 to 5) and a
    batch without a monochrome image: the contrast strength 1 + 0.06 level is
    not an integer, so a channel that the zone blends and the saturation
    step left inside [0, 1] is emitted as the value of the S-curve, a
    number of [0, 1] on which the final clamp has nothing to do, and a
    channel they left outside [0, 1] is emitted as NaN.  No channel is
    ever clamped to 0 or 1. *)
Theorem colour_entry_is_curve_value_or_not_a_number
        (level : Z) (method : string) (analyses : list ImageAnalysis)
        (inputR inputG inputB : number) (c : Colour) :
  (1 <= level <= 5)%Z ->
  existsb isBlackAndWhite analyses = false ->
  let ctx := lutContext level method analyses in
  let before :=
    channel c (colourBeforeContrast
                 ctx (rgbToGrayscale inputR inputG inputB "luminance")
                 inputR inputG inputB) in
  channel c (lutEntry ctx inputR inputG inputB)
  = contrastOutcome (1 + 0.06 * IZR level) before
  /\ (between 0 1 before <->
      inUnit (channel c (lutEntry ctx inputR inputG inputB)))
  /\ (~ between 0 1 before <->
      channel c (lutEntry ctx inputR inputG inputB) = NaN).
Proof.
  intros Hlevel Hbw ctx before.
  assert (Hl : 1 <= IZR level <= 5)
    by (split; [apply (IZR_le 1) | apply (IZR_le _ 5)]; lia).
  pose proof (colour_entry_outcome level method analyses inputR inputG
                inputB c Hlevel Hbw) as Hout.
  fold ctx in Hout. fold before in Hout.
  split; [exact Hout |].
  rewrite Hout. clear Hout.
  destruct before as [| v]; cbn [contrastOutcome between].
  - split; split; try easy.
  - destruct (Rle_dec 0 v) as [H0 | H0];
      [destruct (Rle_dec v 1) as [H1 | H1] |].
    + pose proof (sCurveValue_range v (1 + 0.06 * IZR level)
                    (conj H0 H1) ltac:(lra)) as Hr.
      split; split.
      * intros _. exact (proj1 Hr).
      * intros _. lra.
      * intros Hn. exfalso. apply Hn. lra.
      * discriminate.
    + split; split.
      * intros Hb. lra.
      * intros [].
      * reflexivity.
      * intros _ Hb. lra.
    + split; split.
      * intros Hb. lra.
      * intros [].
      * reflexivity.
      * intros _ Hb. lra.
Qed.

Lemma colour_entry_is_curve_value_or_not_a_number_at_pure_red :
  (1 <= 3 <= 5)%Z
  /\ existsb isBlackAndWhite [analyzePixels orangeImage] = false
  /\ channel Green
       (lutEntry (lutContext 3 "luminance" [analyzePixels orangeImage])
                 (latticeInput 33 32) (latticeInput 33 0)
                 (latticeInput 33 0))
     = contrastOutcome (1 + 0.06 * IZR 3)
         (channel Green
            (colourBeforeContrast
               (lutContext 3 "luminance" [analyzePixels orangeImage])
               (rgbToGrayscale (latticeInput 33 32) (latticeInput 33 0)
                               (latticeInput 33 0) "luminance")
               (latticeInput 33 32) (latticeInput 33 0)
               (latticeInput 33 0))).
Proof.
  assert (Hlevel : (1 <= 3 <= 5)%Z) by lia.
  split; [exact Hlevel |].
  split; [exact orange_batch_is_colour |].
  exact (proj1 (colour_entry_is_curve_value_or_not_a_number
                  3 "luminance" [analyzePixels orangeImage]
                  (latticeInput 33 32) (latticeInput 33 0)
                  (latticeInput 33 0) Green Hlevel orange_batch_is_colour)).
Defined.

(** ** The anchor points of the monochrome table *)

Lemma rgbToGrayscale_black (method : string) :
  rgbToGrayscale (Num 0) (Num 0) (Num 0) method = Num 0.
Proof.
  unfold rgbToGrayscale.
  repeat match goal with
         | |- context [String.eqb ?a ?b] => destruct (String.eqb a b)
         end;
    cbn [add mul Math_max Math_min];
    try (rewrite div_Num by lra);
    f_equal;
    try (unfold Rmax; repeat destruct (Rle_dec _ _));
    try (unfold Rmin; repeat destruct (Rle_dec _ _));
    lra.
Qed.

Lemma rgbToGrayscale_mid_grey (method : string) :
  exists g,
    rgbToGrayscale (Num 0.5) (Num 0.5) (Num 0.5) method = Num g
    /\ 0.49 <= g <= 0.51.
Proof.
  unfold rgbToGrayscale.
  repeat match goal with
         | |- context [String.eqb ?a ?b] => destruct (String.eqb a b)
         end;
    cbn [add mul Math_max Math_min];
    try (rewrite div_Num by lra);
    eexists; (split; [reflexivity |]);
    try (unfold Rmax; repeat destruct (Rle_dec _ _));
    try (unfold Rmin; repeat destruct (Rle_dec _ _));
    lra.
Qed.

(** Under the methods that pick or average channels, the grey value of a
    grey triplet is the value of its channels. *)
Lemma rgbToGrayscale_picked (x : R) (method : string) :
  In method ["average"; "red"; "green"; "blue"; "max"; "min"]%string ->
  rgbToGrayscale (Num x) (Num x) (Num x) method = Num x.
Proof.
  intros [<- | [<- | [<- | [<- | [<- | [<- | []]]]]]]; decide_method;
    cbn [add Math_max Math_min];
    try (rewrite div_Num by lra);
    f_equal;
    try (unfold Rmax; repeat destruct (Rle_dec _ _));
    try (unfold Rmin; repeat destruct (Rle_dec _ _));
    lra.
Qed.

Lemma bwBlend_on (w t e k m : R) (zone : CombinedZone) :
  0 < w -> e <> 0 -> avg (cz_luminance zone) = Num t ->
  bwBlend (Num w) zone (Num e) (Num k) (Num m)
  = Num (m * (1 - Rpower w e * k) + t * Rpower w e * k).
Proof.
  intros Hw He Ht. unfold bwBlend, objectIsTruthy.
  rewrite (proj2 (gtb_true_iff w 0) Hw). cbn [andb].
  rewrite Ht, Math_pow_pos by assumption. reflexivity.
Qed.

Lemma bwBlend_off (w : R) (zone : CombinedZone) (e k m : number) :
  w <= 0 -> bwBlend (Num w) zone e k m = m.
Proof.
  intros Hw. unfold bwBlend.
  now rewrite (proj2 (gtb_false_iff w 0) Hw).
Qed.

Lemma double_unit_clamp (x : R) :
  Math_max 0 (Math_min 1 (Math_max 0 (Math_min 1 (Num x))))
  = Num (Rmax 0 (Rmin 1 x)).
Proof.
  cbn [Math_max Math_min]. f_equal.
  pose proof (ramp_bounds x) as Hb. now apply ramp_mid.
Qed.

Section Anchors.

Variable ctx : LutContext.
Variables L ts tm th : R.
Hypothesis flag_is : ca_isBlackAndWhite (combinedAnalysis ctx) = true.
Hypothesis level_is : intensityLevel ctx = Num L.
Hypothesis shadows_are :
  avg (cz_luminance (ca_shadows (combinedAnalysis ctx))) = Num ts.
Hypothesis midtones_are :
  avg (cz_luminance (ca_midtones (combinedAnalysis ctx))) = Num tm.
Hypothesis highlights_are :
  avg (cz_luminance (ca_highlights (combinedAnalysis ctx))) = Num th.

(** The entry of a triplet whose grey value under the method of the run
    is [g]. *)
Lemma bw_entry_of_grey_value (inputR inputG inputB : number) (g : R) :
  rgbToGrayscale inputR inputG inputB (bwConversionMethod ctx) = Num g ->
  lutEntry ctx inputR inputG inputB
  = finalClamp
      (let m :=
         Math_max 0
           (Math_min 1
              (bwBlend (bwHighlightWeight (Num g))
                       (ca_highlights (combinedAnalysis ctx)) (Num 0.8)
                       (Num (L * 0.2))
                 (bwBlend (midtoneWeightOf (bwShadowWeight (Num g))
                                           (bwHighlightWeight (Num g)))
                          (ca_midtones (combinedAnalysis ctx)) (Num 0.6)
                          (Num (L * 0.2))
                    (bwBlend (bwShadowWeight (Num g))
                             (ca_shadows (combinedAnalysis ctx)) (Num 0.8)
                             (Num (L * 0.2)) (Num g))))) in
       mkRGB m m m).
Proof.
  intros Hg. unfold lutEntry. rewrite flag_is. unfold bwBranch.
  rewrite Hg, level_is. reflexivity.
Qed.

Lemma bw_black_point :
  lutEntry ctx (Num 0) (Num 0) (Num 0)
  = mkRGB (Num (Rmax 0 (Rmin 1 (ts * (L * 0.2)))))
          (Num (Rmax 0 (Rmin 1 (ts * (L * 0.2)))))
          (Num (Rmax 0 (Rmin 1 (ts * (L * 0.2))))).
Proof.
  rewrite (bw_entry_of_grey_value _ _ _ 0 (rgbToGrayscale_black _)).
  rewrite bwShadowWeight_Num, bwHighlightWeight_Num, midtoneWeightOf_Num.
  rewrite (ramp_high ((0.3 - 0) / 0.3)) by lra.
  rewrite (ramp_low ((0 - 0.7) / 0.3)) by lra.
  replace (Rmax 0 (1 - 1 - 0)) with 0 by (rewrite Rmax_left; lra).
  rewrite (bwBlend_on 1 ts 0.8 (L * 0.2) 0 _ ltac:(lra) ltac:(lra)
             shadows_are).
  rewrite !bwBlend_off by lra.
  rewrite Rpower_one_base.
  cbn zeta. unfold finalClamp. cbn [rgb_r rgb_g rgb_b].
  rewrite double_unit_clamp.
  replace (0 * (1 - 1 * (L * 0.2)) + ts * 1 * (L * 0.2))
    with (ts * (L * 0.2)) by ring.
  reflexivity.
Qed.

Lemma bw_mid_point (g : R) :
  rgbToGrayscale (Num 0.5) (Num 0.5) (Num 0.5) (bwConversionMethod ctx)
  = Num g ->
  0.3 <= g <= 0.7 ->
  lutEntry ctx (Num 0.5) (Num 0.5) (Num 0.5)
  = mkRGB (Num (Rmax 0 (Rmin 1 (g * (1 - L * 0.2) + tm * (L * 0.2)))))
          (Num (Rmax 0 (Rmin 1 (g * (1 - L * 0.2) + tm * (L * 0.2)))))
          (Num (Rmax 0 (Rmin 1 (g * (1 - L * 0.2) + tm * (L * 0.2))))).
Proof.
  intros Hg Hrange.
  rewrite (bw_entry_of_grey_value _ _ _ g Hg).
  rewrite bwShadowWeight_Num, bwHighlightWeight_Num, midtoneWeightOf_Num.
  rewrite (ramp_low ((0.3 - g) / 0.3))
    by (apply Rmult_le_reg_r with 0.3; [lra |]; unfold Rdiv;
        rewrite Rmult_assoc, Rinv_l by lra; lra).
  rewrite (ramp_low ((g - 0.7) / 0.3))
    by (apply Rmult_le_reg_r with 0.3; [lra |]; unfold Rdiv;
        rewrite Rmult_assoc, Rinv_l by lra; lra).
  replace (Rmax 0 (1 - 0 - 0)) with 1 by (rewrite Rmax_right; lra).
  rewrite (bwBlend_off 0 (ca_shadows _)) by lra.
  rewrite (bwBlend_on 1 tm 0.6 (L * 0.2) g _ ltac:(lra) ltac:(lra)
             midtones_are).
  rewrite bwBlend_off by lra.
  rewrite Rpower_one_base.
  cbn zeta. unfold finalClamp. cbn [rgb_r rgb_g rgb_b].
  rewrite double_unit_clamp.
  replace (g * (1 - 1 * (L * 0.2)) + tm * 1 * (L * 0.2))
    with (g * (1 - L * 0.2) + tm * (L * 0.2)) by ring.
  reflexivity.
Qed.

Lemma bw_white_point :
  rgbToGrayscale (Num 1) (Num 1) (Num 1) (bwConversionMethod ctx) = Num 1 ->
  lutEntry ctx (Num 1) (Num 1) (Num 1)
  = mkRGB (Num (Rmax 0 (Rmin 1 (1 - L * 0.2 + th * (L * 0.2)))))
          (Num (Rmax 0 (Rmin 1 (1 - L * 0.2 + th * (L * 0.2)))))
          (Num (Rmax 0 (Rmin 1 (1 - L * 0.2 + th * (L * 0.2))))).
Proof.
  intros Hg.
  rewrite (bw_entry_of_grey_value _ _ _ 1 Hg).
  rewrite bwShadowWeight_Num, bwHighlightWeight_Num, midtoneWeightOf_Num.
  rewrite (ramp_low ((0.3 - 1) / 0.3)) by lra.
  rewrite (ramp_high ((1 - 0.7) / 0.3)) by lra.
  replace (Rmax 0 (1 - 0 - 1)) with 0 by (rewrite Rmax_left; lra).
  rewrite !(bwBlend_off 0) by lra.
  rewrite (bwBlend_on 1 th 0.8 (L * 0.2) 1 _ ltac:(lra) ltac:(lra)
             highlights_are).
  rewrite Rpower_one_base.
  cbn zeta. unfold finalClamp. cbn [rgb_r rgb_g rgb_b].
  rewrite double_unit_clamp.
  replace (1 * (1 - 1 * (L * 0.2)) + th * 1 * (L * 0.2))
    with (1 - L * 0.2 + th * (L * 0.2)) by ring.
  reflexivity.
Qed.

End Anchors.

Lemma skipped_zone (z : Zone) (analyses : list ImageAnalysis) :
  totalCount analyses z = 0%nat ->
  forall cz, fold_left (fun cz a => stepZone cz a z) analyses cz = cz.
Proof.
  unfold totalCount.
  induction analyses as [| a analyses IH]; intros Hzero cz;
    cbn [fold_left map] in *; [reflexivity |].
  change (list_sum (?x :: ?l)) with (x + list_sum l)%nat in Hzero.
  rewrite stepZone_skip by lia. apply IH. lia.
Qed.

Lemma aggregate_of_empty_zone (analyses : list ImageAnalysis) (z : Zone) :
  totalCount analyses z = 0%nat ->
  combinedZone (combineAnalyses analyses) z = zeroZone.
Proof.
  intros Hzero. rewrite combineAnalyses_view, skipped_zone by exact Hzero.
  unfold normalizeStats. cbn [zeroZone cz_weight].
  now rewrite (proj2 (gtb_false_iff 0 0)) by lra.
Qed.

Lemma aggregate_luminance_bounds (images : list ImageData) (zone : Zone) :
  Forall wellFormed images -> Forall validBytes images ->
  exists t,
    avg (cz_luminance
           (combinedZone (combineAnalyses (map analyzePixels images)) zone))
    = Num t
    /\ 0 <= t <= bandUpper zone.
Proof.
  intros Hwf Hvalid.
  destruct (Nat.eq_dec (totalCount (map analyzePixels images) zone) 0)
    as [Hzero | Hpos].
  - rewrite aggregate_of_empty_zone by exact Hzero.
    exists 0. split; [reflexivity |]. destruct zone; cbn [bandUpper]; lra.
  - assert (Hb : between (bandLower zone) (bandUpper zone)
                   (combinedStat
                      (combinedZone
                         (combineAnalyses (map analyzePixels images)) zone)
                      MeanLuminance)).
    { apply aggregate_between; [| lia].
      intros a zs Hin Hzs _. apply in_map_iff in Hin.
      destruct Hin as (data & <- & Hdata).
      rewrite Forall_forall in Hwf, Hvalid.
      apply (statOf_between data zone zs (Hwf _ Hdata) (Hvalid _ Hdata)
               Hzs). }
    cbn [combinedStat] in Hb.
    destruct (between_Num _ _ _ Hb) as (t & Ht & Hbt).
    exists t. split; [exact Ht |].
    destruct zone; cbn [bandLower bandUpper] in *; lra.
Qed.

(** X11.  The anchor points of the monochrome table.  For a batch of RGBA
    byte buffers with a monochrome image in it and a level from 0 to 5:
    under every conversion method black is mapped to the grey
    0.2 level ts, and mid-grey to g (1 - 0.2 level) + 0.2 level tm, where
    g, between 0.49 and 0.51, is the grey value the method gives mid-grey;
    under the methods that pick or average channels ('average', 'red',
    'green', 'blue', 'max', 'min') g is 0.5 and white is mapped to
    1 - 0.2 level (1 - th).  Here ts, tm and th are the aggregated mean
    luminances of shadows, midtones and highlights (0 for a zone without
    samples).  The clamp has nothing to do at these points. *)
Theorem monochrome_anchor_points (level : Z) (method : string)
        (images : list ImageData) :
  Forall wellFormed images -> Forall validBytes images ->
  existsb isBlackAndWhite (map analyzePixels images) = true ->
  (0 <= level <= 5)%Z ->
  let ctx := lutContext level method (map analyzePixels images) in
  let grey := fun v : R => mkRGB (Num v) (Num v) (Num v) in
  exists ts tm th g,
    avg (cz_luminance (combinedZone (combinedAnalysis ctx) Shadows)) = Num ts
    /\ avg (cz_luminance (combinedZone (combinedAnalysis ctx) Midtones))
       = Num tm
    /\ avg (cz_luminance (combinedZone (combinedAnalysis ctx) Highlights))
       = Num th
    /\ 0 <= ts <= 0.25 /\ 0 <= tm <= 0.75 /\ 0 <= th <= 1
    /\ lutEntry ctx (Num 0) (Num 0) (Num 0)
       = grey (ts * (IZR level * 0.2))
    /\ rgbToGrayscale (Num 0.5) (Num 0.5) (Num 0.5) method = Num g
    /\ 0.49 <= g <= 0.51
    /\ lutEntry ctx (Num 0.5) (Num 0.5) (Num 0.5)
       = grey (g * (1 - IZR level * 0.2) + tm * (IZR level * 0.2))
    /\ (In method ["average"; "red"; "green"; "blue"; "max"; "min"]%string ->
        g = 0.5
        /\ lutEntry ctx (Num 1) (Num 1) (Num 1)
           = grey (1 - IZR level * 0.2 + th * (IZR level * 0.2))).
Proof.
  intros Hwf Hvalid Hbw Hlevel ctx grey.
  destruct (aggregate_luminance_bounds images Shadows Hwf Hvalid)
    as (ts & Hts & Hbs).
  destruct (aggregate_luminance_bounds images Midtones Hwf Hvalid)
    as (tm & Htm & Hbm).
  destruct (aggregate_luminance_bounds images Highlights Hwf Hvalid)
    as (th & Hth & Hbh).
  destruct (rgbToGrayscale_mid_grey method) as (g & Hg & Hgb).
  cbn [bandUpper] in Hbs, Hbm, Hbh.
  assert (Hl : 0 <= IZR level <= 5)
    by (split; [apply (IZR_le 0) | apply (IZR_le _ 5)]; lia).
  assert (Hflag : ca_isBlackAndWhite (combinedAnalysis ctx) = true).
  { unfold ctx. rewrite lutContext_combined.
    now rewrite (proj1 (combineAnalyses_flag _)). }
  assert (HL : intensityLevel ctx = Num (IZR level)) by reflexivity.
  exists ts, tm, th, g. unfold ctx at 1 2 3. rewrite lutContext_combined.
  repeat (split; [first [exact Hts | exact Htm | exact Hth | lra] |]).
  split; [| split; [exact Hg | split; [exact Hgb | split]]]; unfold grey.
  - rewrite (bw_black_point ctx (IZR level) ts Hflag HL Hts).
    rewrite ramp_mid by nra. reflexivity.
  - rewrite (bw_mid_point ctx (IZR level) tm Hflag HL Htm g Hg)
      by lra.
    rewrite ramp_mid by nra. reflexivity.
  - intros Hpick.
    pose proof (rgbToGrayscale_picked 0.5 method Hpick) as Hhalf.
    rewrite Hg in Hhalf. apply Num_inj in Hhalf.
    split; [exact Hhalf |].
    rewrite (bw_white_point ctx (IZR level) th Hflag HL Hth
               (rgbToGrayscale_picked 1 method Hpick)).
    rewrite ramp_mid by nra. reflexivity.
Qed.

Lemma flat_grey_flag (k : Z) (n : nat) :
  (0 < n)%nat ->
  existsb isBlackAndWhite (map analyzePixels [flatImage k k k n]) = true.
Proof.
  intros Hn. cbn [map existsb]. unfold flatImage, analyzePixels.
  cbn [isBlackAndWhite].
  rewrite detect_flat by exact Hn. now rewrite specColourful_grey.
Qed.

Lemma grey_batch_is_monochrome :
  existsb isBlackAndWhite (map analyzePixels [greyImage]) = true.
Proof. exact (flat_grey_flag 128 512 image_size_positive). Qed.

Lemma grey_image_is_well_formed : wellFormed greyImage.
Proof. exact (wellFormed_pixelBytes (repeat (mkPixel 128 128 128 255) 512)). Qed.

Lemma grey_bytes_are_valid : validBytes greyImage.
Proof.
  exact (validBytes_flat (mkPixel 128 128 128 255) 512
           ltac:(cbn; lia) ltac:(cbn; lia) ltac:(cbn; lia) ltac:(cbn; lia)).
Qed.

Lemma monochrome_anchor_points_at_mid_grey :
  Forall wellFormed [greyImage] /\ Forall validBytes [greyImage]
  /\ existsb isBlackAndWhite (map analyzePixels [greyImage]) = true
  /\ (0 <= 5 <= 5)%Z
  /\ exists ts tm th g,
       avg (cz_luminance
              (combinedZone
                 (combinedAnalysis
                    (lutContext 5 "average" (map analyzePixels [greyImage])))
                 Shadows)) = Num ts
       /\ avg (cz_luminance
                 (combinedZone
                    (combinedAnalysis
                       (lutContext 5 "average"
                                   (map analyzePixels [greyImage])))
                    Midtones)) = Num tm
       /\ avg (cz_luminance
                 (combinedZone
                    (combinedAnalysis
                       (lutContext 5 "average"
                                   (map analyzePixels [greyImage])))
                    Highlights)) = Num th
       /\ 0 <= ts <= 0.25 /\ 0 <= tm <= 0.75 /\ 0 <= th <= 1
       /\ lutEntry (lutContext 5 "average" (map analyzePixels [greyImage]))
                   (Num 0) (Num 0) (Num 0)
          = mkRGB (Num (ts * (IZR 5 * 0.2))) (Num (ts * (IZR 5 * 0.2)))
                  (Num (ts * (IZR 5 * 0.2)))
       /\ rgbToGrayscale (Num 0.5) (Num 0.5) (Num 0.5) "average" = Num g
       /\ 0.49 <= g <= 0.51
       /\ lutEntry (lutContext 5 "average" (map analyzePixels [greyImage]))
                   (Num 0.5) (Num 0.5) (Num 0.5)
          = mkRGB (Num (g * (1 - IZR 5 * 0.2) + tm * (IZR 5 * 0.2)))
                  (Num (g * (1 - IZR 5 * 0.2) + tm * (IZR 5 * 0.2)))
                  (Num (g * (1 - IZR 5 * 0.2) + tm * (IZR 5 * 0.2)))
       /\ (In "average"%string
              ["average"; "red"; "green"; "blue"; "max"; "min"]%string ->
           g = 0.5
           /\ lutEntry
                (lutContext 5 "average" (map analyzePixels [greyImage]))
                (Num 1) (Num 1) (Num 1)
              = mkRGB (Num (1 - IZR 5 * 0.2 + th * (IZR 5 * 0.2)))
                      (Num (1 - IZR 5 * 0.2 + th * (IZR 5 * 0.2)))
                      (Num (1 - IZR 5 * 0.2 + th * (IZR 5 * 0.2)))).
Proof.
  assert (Hlevel : (0 <= 5 <= 5)%Z) by lia.
  split; [exact (Forall_cons _ grey_image_is_well_formed (Forall_nil _)) |].
  split; [exact (Forall_cons _ grey_bytes_are_valid (Forall_nil _)) |].
  split; [exact grey_batch_is_monochrome |].
  split; [exact Hlevel |].
  exact (monochrome_anchor_points 5 "average" [greyImage]
           (Forall_cons _ grey_image_is_well_formed (Forall_nil _))
           (Forall_cons _ grey_bytes_are_valid (Forall_nil _))
           grey_batch_is_monochrome Hlevel).
Defined.

(** ** The lattice *)

(** X12.  For a resolution of 2 or more the normalised inputs are the numbers
    k / (n - 1): they start at 0, end at 1, stay in [0, 1] and grow with the
    index. *)
Theorem lattice_inputs_span_the_unit_interval (n k : nat) :
  (2 <= n)%nat -> (k < n)%nat ->
  exists v,
    latticeInput n k = Num v /\ 0 <= v <= 1
    /\ (k = 0%nat -> v = 0) /\ (k = (n - 1)%nat -> v = 1)
    /\ forall k', (k < k')%nat ->
                  exists v', latticeInput n k' = Num v' /\ v < v'.
Proof.
  intros Hn Hk.
  pose proof (le_INR _ _ Hn) as Hnr. simpl in Hnr.
  pose proof (pos_INR k) as Hk0.
  assert (Hkr : INR k <= INR n - 1).
  { replace (INR n - 1) with (INR (n - 1)).
    - apply le_INR. lia.
    - rewrite minus_INR by lia. simpl. lra. }
  exists (INR k / (INR n - 1)).
  split; [now apply latticeInput_Num |].
  assert (Hinv : 0 < / (INR n - 1)) by (apply Rinv_0_lt_compat; lra).
  split; [| split; [| split]].
  - unfold Rdiv. split.
    + apply Rmult_le_pos; lra.
    + apply Rmult_le_reg_r with (INR n - 1); [lra |].
      rewrite Rmult_assoc, Rinv_l by lra. lra.
  - intros ->. simpl. unfold Rdiv. lra.
  - intros ->. rewrite minus_INR by lia. simpl. field. lra.
  - intros k' Hlt. exists (INR k' / (INR n - 1)).
    split; [now apply latticeInput_Num |].
    unfold Rdiv. apply Rmult_lt_compat_r; [exact Hinv |].
    now apply lt_INR.
Qed.

Lemma lattice_inputs_span_the_unit_interval_at_33 :
  (2 <= 33)%nat /\ (16 < 33)%nat
  /\ exists v,
       latticeInput 33 16 = Num v /\ 0 <= v <= 1
       /\ (16%nat = 0%nat -> v = 0) /\ (16%nat = (33 - 1)%nat -> v = 1)
       /\ forall k', (16 < k')%nat ->
                     exists v', latticeInput 33 k' = Num v' /\ v < v'.
Proof.
  assert (Hn : (2 <= 33)%nat) by lia.
  assert (Hk : (16 < 33)%nat) by lia.
  split; [exact Hn |]. split; [exact Hk |].
  exact (lattice_inputs_span_the_unit_interval 33 16 Hn Hk).
Defined.

Lemma rgbToGrayscale_NaN (method : string) :
  rgbToGrayscale NaN NaN NaN method = NaN.
Proof.
  unfold rgbToGrayscale.
  repeat match goal with
         | |- context [String.eqb ?a ?b] => destruct (String.eqb a b)
         end; reflexivity.
Qed.

Lemma contrast_strength_is_not_zero (level : Z) : 1 + 0.06 * IZR level <> 0.
Proof.
  intros H.
  assert (H3 : IZR (3 * level) = IZR (-50)).
  { rewrite mult_IZR. lra. }
  apply eq_IZR in H3. lia.
Qed.

Lemma entry_of_NaN (level : Z) (method : string)
      (analyses : list ImageAnalysis) :
  lutEntry (lutContext level method analyses) NaN NaN NaN
  = mkRGB NaN NaN NaN.
Proof.
  unfold lutEntry. rewrite rgbToGrayscale_NaN.
  destruct (ca_isBlackAndWhite
              (combinedAnalysis (lutContext level method analyses))).
  - unfold bwBranch. rewrite rgbToGrayscale_NaN. reflexivity.
  - destruct (context_scalars level method analyses) as (_ & Hcb & _).
    unfold colourBranch, contrastStep. rewrite Hcb.
    cbn [colourShadowWeight colourHighlightWeight midtoneWeightOf
         sub div mul add Math_max Math_min shadowStep midtoneStep
         highlightStep gtb ltb].
    unfold applyColourMatrix, globalAdjustments, saturate.
    cbn [rgb_r rgb_g rgb_b mul add sub]. rewrite rgbToGrayscale_NaN.
    cbn [rgb_r rgb_g rgb_b mul add sub].
    assert (Hs : 1 + (0.5 - 0.3) * (IZR level * 0.3) <> 0).
    { replace (1 + (0.5 - 0.3) * (IZR level * 0.3))
        with (1 + 0.06 * IZR level) by lra.
      apply contrast_strength_is_not_zero. }
    rewrite !applySCurve_NaN by exact Hs.
    destruct (strict_neq _ _); reflexivity.
Qed.

(** X13.  The resolutions the division by [lutSize - 1] is not made for: at
    resolution 0 no line is emitted; at resolution 1 the only input is
    0 / 0, and the one line emitted is the line of three NaN, for every
    batch, level and method. *)
Theorem single_point_lattice_is_not_a_number
        (toFixed : number -> nat -> string) (level : Z) (method : string)
        (analyses : list ImageAnalysis) :
  latticeInput 1 0 = NaN
  /\ lutData toFixed (lutContext level method analyses) 0 = []
  /\ lutData toFixed (lutContext level method analyses) 1
     = [lutLine toFixed (mkRGB NaN NaN NaN)].
Proof.
  assert (Hin : latticeInput 1 0 = NaN).
  { unfold latticeInput, ofNat. cbn [sub div INR].
    destruct (Req_dec_T (1 - 1) 0) as [_ | Hne]; [reflexivity | lra]. }
  split; [exact Hin |].
  split; [reflexivity |].
  rewrite lutData_flat_map. cbn [seq flat_map map app].
  unfold latticeLine. now rewrite Hin, entry_of_NaN.
Qed.

(** ** The run: console and settings *)


(** X14.  A run reads the settings and the reference images and never writes
    them.  Without reference images it does nothing at all.  With
    reference images it ends with [isProcessing] false, and the console
    holds one error per image that was not analysed, with the number of
    the image and in the order of the images, followed by the error of
    the run and the alert exactly when no image was analysed; every image
    is either analysed or logged. *)
Theorem run_log_and_settings (toFixed : number -> nat -> string)
        (toText : number -> string) (env : Environment) (st : State) :
  let total := length (referenceImages st) in
  let result := generateAdvancedLUT toFixed toText env st in
  sameSettings st (fst result)
  /\ (referenceImages st = [] -> result = (st, []))
  /\ (referenceImages st <> [] ->
      isProcessing (fst result) = false
      /\ snd result
         = failures env 0 total
           ++ match successes env 0 total with
              | [] => [ConsoleErrorRun;
                       Alert "Error generating LUT. Please try again."]
              | _ :: _ => []
              end)
  /\ (length (successes env 0 total) + length (failures env 0 total))%nat
     = total.
Proof.
  intros total result.
  split; [apply run_settings |].
  split; [| split].
  - intros Hnil. unfold result, generateAdvancedLUT. now rewrite Hnil.
  - intros Hne. split; [now apply run_ends_idle | now apply run_log].
  - apply loaded_or_logged.
Qed.

(** ** Download *)

(** X15.  Run and download together.  After a run that analysed an image, the
    download hands over the text the run stored, under a name tagged 'bw'
    exactly when the batch holds a monochrome image; if the slider or the
    resolution select is moved after the run, the name follows the new
    settings while the text is still the one of the run.  A run that
    analysed no image leaves the download as it was before, and without a
    stored LUT nothing is downloaded. *)
Theorem download_after_run (toFixed : number -> nat -> string)
        (toText : number -> string) (env later : Environment) (st : State) :
  let total := length (referenceImages st) in
  let analyses := successes env 0 total in
  let ctx := lutContext (st_intensityLevel st) (st_bwConversionMethod st)
                        analyses in
  let cube := cubeContent toText ctx (lutResolution st)
                          (st_intensityLevel st) (today env)
                          (lutData toFixed ctx (lutResolution st)) in
  let st' := fst (generateAdvancedLUT toFixed toText env st) in
  (analyses <> [] ->
   downloadLUT toText later st'
   = Some (mkDownload
             (downloadName toText (existsb isBlackAndWhite analyses)
                           (st_intensityLevel st) (lutResolution st)
                           (today later))
             cube)
   /\ forall level resolution,
        downloadLUT toText later
                    (setLutResolution (setIntensityLevel st' level)
                                      resolution)
        = Some (mkDownload
                  (downloadName toText (existsb isBlackAndWhite analyses)
                                level resolution (today later))
                  cube))
  /\ (referenceImages st <> [] -> analyses = [] ->
      downloadLUT toText later st' = downloadLUT toText later st)
  /\ (generatedLUT st = None -> downloadLUT toText later st = None).
Proof.
  intros total analyses ctx cube st'.
  split; [| split].
  - intros Hsome.
    destruct (run_with_analysis toFixed toText env st Hsome)
      as (Hlut & _ & Hflag & _).
    destruct (run_settings toFixed toText env st)
      as (_ & _ & Hlevel & _ & Hres).
    fold st' in Hlut, Hflag, Hlevel, Hres. fold total in Hlut, Hflag.
    fold analyses in Hlut, Hflag. fold ctx in Hlut, Hflag.
    fold cube in Hlut.
    assert (Hbw : st_isBlackAndWhite st' = existsb isBlackAndWhite analyses).
    { rewrite Hflag. unfold ctx. rewrite lutContext_combined.
      apply (proj1 (combineAnalyses_flag analyses)). }
    split.
    + rewrite (download_of_stored toText later st' cube Hlut
                 (cubeContent_is_not_empty _ _ _ _ _ _)).
      now rewrite Hbw, Hlevel, Hres.
    + intros level resolution.
      rewrite (download_of_stored toText later _ cube);
        [| exact Hlut | apply cubeContent_is_not_empty].
      cbn [setLutResolution setIntensityLevel st_isBlackAndWhite
           st_intensityLevel lutResolution].
      now rewrite Hbw.
  - intros Hne Hnil.
    destruct (run_without_analysis toFixed toText env st Hne Hnil)
      as (Hlut & _).
    destruct (run_settings toFixed toText env st)
      as (_ & _ & Hlevel & _ & Hres).
    fold st' in Hlut, Hlevel, Hres.
    assert (Hbw : st_isBlackAndWhite st' = st_isBlackAndWhite st).
    { unfold st', generateAdvancedLUT.
      destruct (Nat.eqb (length (referenceImages st)) 0); [reflexivity |].
      rewrite analysisLoop_analyses. fold total. fold analyses.
      rewrite Hnil. cbn [length Nat.eqb fst].
      apply (analysisLoop_state toText env st). }
    unfold downloadLUT. now rewrite Hlut, Hbw, Hlevel, Hres.
  - intros Hnone. unfold downloadLUT. now rewrite Hnone.
Qed.

(** ** Colour matrix and saturation *)

(** X16.  The colour matrix of the universal profile is the identity: the
    matrix step returns a triplet of numbers as it got it (a channel that is
    not a number spreads to all three).  The saturation step moves each
    channel away from the luminance l = 0.299 r + 0.587 g + 0.114 b of the
    triplet: the distance of the channel from l is multiplied by
    1 + 0.04 level; a grey triplet is left as it is. *)
Theorem matrix_is_identity_and_saturation_scales_chroma
        (level : Z) (method : string) (analyses : list ImageAnalysis)
        (r g b : R) :
  let ctx := lutContext level method analyses in
  let lum := 0.299 * r + 0.587 * g + 0.114 * b in
  let k := 1 + 0.04 * IZR level in
  applyColourMatrix (mkRGB (Num r) (Num g) (Num b))
  = mkRGB (Num r) (Num g) (Num b)
  /\ applyColourMatrix (mkRGB NaN (Num g) (Num b)) = mkRGB NaN NaN NaN
  /\ (exists r' g' b',
         saturate ctx (mkRGB (Num r) (Num g) (Num b))
         = mkRGB (Num r') (Num g') (Num b')
         /\ r' - lum = (r - lum) * k
         /\ g' - lum = (g - lum) * k
         /\ b' - lum = (b - lum) * k)
  /\ saturate ctx (mkRGB (Num r) (Num r) (Num r))
     = mkRGB (Num r) (Num r) (Num r).
Proof.
  intros ctx lum k.
  destruct (context_scalars level method analyses) as (_ & _ & Hsb).
  fold ctx in Hsb.
  split; [| split; [| split]].
  - rewrite applyColourMatrix_Num. f_equal; f_equal; lra.
  - reflexivity.
  - rewrite (saturate_Num ctx _ r g b Hsb).
    do 3 eexists. split; [reflexivity |]. unfold lum, k.
    repeat split; nra.
  - rewrite (saturate_Num ctx _ r r r Hsb). f_equal; f_equal; nra.
Qed.

(** ** Lightness *)

Lemma cube_root_above (c y : R) :
  0 < c -> c * c * c < y -> c < Rpower y (1 / 3).
Proof.
  intros Hc Hy.
  assert (Hroot : Rpower (c * c * c) (1 / 3) = c).
  { replace (c * c * c) with (Rpower c 3).
    - rewrite Rpower_mult. replace (3 * (1 / 3)) with 1 by field.
      now apply Rpower_1.
    - replace 3 with (INR 3) by (simpl; lra).
      rewrite Rpower_pow by exact Hc. simpl. ring. }
  rewrite <- Hroot at 1.
  apply Rlt_Rpower_l; [lra |].
  split; [| exact Hy].
  apply Rmult_lt_0_compat; [apply Rmult_lt_0_compat |]; exact Hc.
Qed.

Lemma cube_root_below (y : R) : 0 < y -> Rpower y (1 / 3) <= Rmax 1 y.
Proof.
  intros Hy. destruct (Rle_dec y 1) as [Hle | Hgt].
  - rewrite Rmax_left by exact Hle. apply Rpower_le_one; lra.
  - rewrite Rmax_right by lra.
    rewrite <- (Rpower_1 y) at 2 by exact Hy.
    apply Rle_Rpower; lra.
Qed.

(** X17.  The lightness [rgbToLab] gives a colour of the unit cube is a
    number from 0 to 100.00002 (the Y row of the matrix adds up to 1.0000001,
    so the bound is a little above 100); black has L = a = b = 0. *)
Theorem lightness_of_unit_colours (r g b : R) :
  0 <= r <= 1 -> 0 <= g <= 1 -> 0 <= b <= 1 ->
  (exists l, lab_L (rgbToLab (Num r) (Num g) (Num b)) = Num l
             /\ 0 <= l <= 100.00002)
  /\ rgbToLab (Num 0) (Num 0) (Num 0) = mkLAB (Num 0) (Num 0) (Num 0).
Proof.
  intros Hr Hg Hb. split.
  - unfold rgbToLab. cbn [lab_L mul add].
    set (y := r * 0.2126729 + g * 0.7151522 + b * 0.072175).
    assert (Hy : 0 <= y <= 1.0000001) by (unfold y; lra).
    rewrite (div_Num y 1.0) by lra.
    unfold labCompand. rewrite (div_Num 1 3) by lra.
    destruct (Rlt_dec 0.008856 (y / 1.0)) as [Hbig | Hsmall].
    + rewrite (proj2 (gtb_true_iff _ _) Hbig).
      rewrite Math_pow_pos by lra. cbn [mul sub].
      eexists. split; [reflexivity |].
      pose proof (cube_root_above 0.138 (y / 1.0) ltac:(lra) ltac:(lra)).
      pose proof (cube_root_below (y / 1.0) ltac:(lra)) as Hup.
      assert (Hmax : Rmax 1 (y / 1.0) <= 1.0000001)
        by (apply Rmax_lub; lra).
      lra.
    + rewrite (proj2 (gtb_false_iff _ _)) by lra.
      rewrite (div_Num 16 116) by lra. cbn [mul add sub].
      eexists. split; [reflexivity |]. lra.
  - unfold rgbToLab, labCompand. cbn [mul add].
    rewrite !div_Num by lra.
    repeat match goal with
           | |- context [gtb (Num ?x) (Num ?c)] =>
               rewrite (proj2 (gtb_false_iff x c)) by lra
           end.
    cbn [mul add sub]. f_equal; f_equal; lra.
Qed.

Lemma lightness_of_unit_colours_at_orange :
  0 <= 0.8 <= 1 /\ 0 <= 0.4 <= 1 /\ 0 <= 0.2 <= 1
  /\ exists l, lab_L (rgbToLab (Num 0.8) (Num 0.4) (Num 0.2)) = Num l
               /\ 0 <= l <= 100.00002.
Proof.
  assert (Hr : 0 <= 0.8 <= 1) by lra.
  assert (Hg : 0 <= 0.4 <= 1) by lra.
  assert (Hb : 0 <= 0.2 <= 1) by lra.
  split; [exact Hr |]. split; [exact Hg |]. split; [exact Hb |].
  exact (proj1 (lightness_of_unit_colours 0.8 0.4 0.2 Hr Hg Hb)).
Defined.
